(** * Culvana/InventoryAPI: the name-standardisation pipeline and the
      storage formatter/validator

    A shallow embedding of [src/shared/names.py] and [src/function_app.py].

    - Python values are the inductive [pyval]; a [str] is a Rocq [string]
      whose characters stand for the code points U+0000 to U+00FF; a [float]
      is an IEEE binary64 datum ([spec_float], with NaN and infinities);
      a [dict] is an association list in insertion order.
    - Everything outside the two source files (the language-model client,
      the clock, the Cosmos container, [float()] on a [str], [repr] of
      floats and containers, the content of [training.jsonl]) is gathered
      in the record [env]; the code is a function of it.
    - Effects are threaded by a state-and-exception monad [M] over [world]:
      the stored documents, a counter of interactions with the outside, and
      the trace of those interactions.
    - The orchestrator is a function of what its activities answer: it
      yields the calls it makes, in order, and what it returns or raises.
      [json.loads] and [json.dumps] are variables of the sections that use
      them; a file is the list of its lines. *)

From Stdlib Require Import List String Ascii ZArith Bool Lia Arith.
From Stdlib Require Import SpecFloat DecimalString.
Import ListNotations.
Local Open Scope string_scope.
Local Open Scope Z_scope.

Set Warnings "-register-all".

(* ================================================================== *)
(** * Python strings *)
(* ================================================================== *)

Module PyStr.

Definition code (c : ascii) : N := N_of_ascii c.

Definition in_range (lo hi : N) (c : ascii) : bool :=
  (N.leb lo (code c) && N.leb (code c) hi)%bool.

(** [str.isspace] on one character, for the code points below 256. *)
Definition is_space (c : ascii) : bool :=
  (in_range 9 13 c || in_range 28 32 c
   || N.eqb (code c) 133 || N.eqb (code c) 160)%bool.

(** [str.isupper] on one character: A-Z and the Latin-1 capitals. *)
Definition is_upper (c : ascii) : bool :=
  (in_range 65 90 c || in_range 192 214 c || in_range 216 222 c)%bool.

(** [str.lower] on one character. *)
Definition lower_char (c : ascii) : ascii :=
  if is_upper c then ascii_of_N (code c + 32) else c.

Fixpoint lower (s : string) : string :=
  match s with
  | EmptyString => EmptyString
  | String c s' => String (lower_char c) (lower s')
  end.

(** [s.startswith(p)] *)
Definition startswith (p s : string) : bool := String.prefix p s.

(** [c in s] for a one-character [c]. *)
Fixpoint contains (c : ascii) (s : string) : bool :=
  match s with
  | EmptyString => false
  | String a s' => (Ascii.eqb a c || contains c s')%bool
  end.

(** [s.lstrip()], [s.rstrip()], [s.strip()] *)
Fixpoint lstrip (s : string) : string :=
  match s with
  | EmptyString => EmptyString
  | String c s' => if is_space c then lstrip s' else s
  end.

Fixpoint rstrip (s : string) : string :=
  match s with
  | EmptyString => EmptyString
  | String c s' =>
      match rstrip s' with
      | EmptyString => if is_space c then EmptyString else String c EmptyString
      | r => String c r
      end
  end.

Definition strip (s : string) : string := rstrip (lstrip s).

(** [s.split(sep)] for a one-character separator: never the empty list. *)
Fixpoint split_on (sep : ascii) (s : string) : list string :=
  match s with
  | EmptyString => [EmptyString]
  | String c s' =>
      if Ascii.eqb c sep then EmptyString :: split_on sep s'
      else match split_on sep s' with
           | h :: t => String c h :: t
           | [] => [String c EmptyString]
           end
  end.

(** [s.split(sep, 1)]: at most one cut, at the first separator. *)
Fixpoint split_once (sep : ascii) (s : string) : list string :=
  match s with
  | EmptyString => [EmptyString]
  | String c s' =>
      if Ascii.eqb c sep then [EmptyString; s']
      else match split_once sep s' with
           | h :: t => String c h :: t
           | [] => [String c EmptyString]
           end
  end.

(** [s.split()]: the maximal runs of non-blank characters. [cur] is the
    word being read, if one has started. *)
Fixpoint split_ws_aux (cur : option string) (s : string) : list string :=
  match s with
  | EmptyString => match cur with Some w => [w] | None => [] end
  | String c s' =>
      if is_space c
      then match cur with
           | Some w => w :: split_ws_aux None s'
           | None => split_ws_aux None s'
           end
      else match cur with
           | Some w => split_ws_aux (Some (w ++ String c EmptyString)) s'
           | None => split_ws_aux (Some (String c EmptyString)) s'
           end
  end.

Definition split_ws (s : string) : list string := split_ws_aux None s.

(** [sep.join(parts)] *)
Fixpoint join (sep : string) (parts : list string) : string :=
  match parts with
  | [] => EmptyString
  | [p] => p
  | p :: rest => p ++ sep ++ join sep rest
  end.

Definition nl : string := String (ascii_of_N 10) EmptyString.
Definition dq : string := String (ascii_of_N 34) EmptyString.
Definition newline : ascii := ascii_of_N 10.

(** [str.isprintable] on one character, for the code points below 256. *)
Definition is_printable (c : ascii) : bool :=
  negb (N.ltb (code c) 32 || in_range 127 160 c || N.eqb (code c) 173)%bool.

Definition hex_digit (n : N) : ascii :=
  ascii_of_N (if N.ltb n 10 then 48 + n else 87 + n).

(** One character of [repr(s)], inside the quotes [quote]. *)
Definition repr_char (quote c : ascii) : string :=
  if (Ascii.eqb c quote || N.eqb (code c) 92)%bool
  then String (ascii_of_N 92) (String c EmptyString)
  else if N.eqb (code c) 9 then "\t"
  else if N.eqb (code c) 10 then "\n"
  else if N.eqb (code c) 13 then "\r"
  else if is_printable c then String c EmptyString
  else String (ascii_of_N 92)
         (String "x"
            (String (hex_digit (N.div (code c) 16))
               (String (hex_digit (N.modulo (code c) 16)) EmptyString))).

Fixpoint repr_chars (quote : ascii) (s : string) : string :=
  match s with
  | EmptyString => EmptyString
  | String c s' => repr_char quote c ++ repr_chars quote s'
  end.

(** [repr(s)]: in single quotes, unless [s] holds a single quote and no
    double quote. *)
Definition repr (s : string) : string :=
  let quote :=
    if (contains "'" s && negb (contains (ascii_of_N 34) s))%bool
    then ascii_of_N 34 else "'"%char in
  String quote (repr_chars quote s ++ String quote EmptyString).

End PyStr.

(* ================================================================== *)
(** * Python values, exceptions and the outside world *)
(* ================================================================== *)

(** Python's [float]: IEEE binary64. *)
Definition float := spec_float.
Definition float_zero : float := S754_zero false.
Definition float_one : float := binary_normalize 53 1024 1 0 false.
Definition float_nan : float := S754_nan.
(** [x < 0.0]: false on NaN and on both zeros. *)
Definition float_ltb0 (x : float) : bool := SFltb x float_zero.

(** The values a JSON document can hold. *)
Inductive pyval :=
| PNone
| PBool (b : bool)
| PInt (z : Z)
| PFloat (f : float)
| PStr (s : string)
| PList (l : list pyval)
| PDict (d : list (string * pyval)).

Definition dict := list (string * pyval).

Inductive exc_class :=
| TypeError | ValueError | KeyError | IndexError | AttributeError
| NameError | OverflowError
| LibraryError.  (* raised inside the OpenAI or Cosmos client *)

Record exn := Exn { exc_cls : exc_class; exc_msg : string }.

(** A computation that returns or raises. *)
Inductive outcome (A : Type) :=
| Ret (a : A)
| Raise (e : exn).
Arguments Ret {A} a.
Arguments Raise {A} e.

Definition obind {A B} (o : outcome A) (k : A -> outcome B) : outcome B :=
  match o with Ret a => k a | Raise e => Raise e end.

Module Py.

Definition type_name (v : pyval) : string :=
  match v with
  | PNone => "NoneType" | PBool _ => "bool" | PInt _ => "int"
  | PFloat _ => "float" | PStr _ => "str" | PList _ => "list"
  | PDict _ => "dict"
  end.

(** [bool(v)], the test behind [if v] and [not v]. *)
Definition truthy (v : pyval) : bool :=
  match v with
  | PNone => false
  | PBool b => b
  | PInt z => negb (z =? 0)
  | PFloat f => match f with S754_zero _ => false | _ => true end
  | PStr s => negb (String.eqb s "")
  | PList l => match l with [] => false | _ => true end
  | PDict d => match d with [] => false | _ => true end
  end.

(** [d.get(k)] is [None] when the key is absent. *)
Fixpoint lookup (k : string) (d : dict) : option pyval :=
  match d with
  | [] => None
  | (k', v) :: d' => if String.eqb k' k then Some v else lookup k d'
  end.

(** [d.get(k, default)] *)
Definition get (d : dict) (k : string) (default : pyval) : pyval :=
  match lookup k d with Some v => v | None => default end.

(** [d[k] = v]: in place when the key exists, else appended. *)
Fixpoint set (k : string) (v : pyval) (d : dict) : dict :=
  match d with
  | [] => [(k, v)]
  | (k', v') :: d' =>
      if String.eqb k' k then (k', v) :: d' else (k', v') :: set k v d'
  end.

Definition attribute_error (v : pyval) (attr : string) : exn :=
  Exn AttributeError
      ("'" ++ type_name v ++ "' object has no attribute '" ++ attr ++ "'").

(** [v.get(k, default)] on an arbitrary value. *)
Definition get_attr (v : pyval) (k : string) (default : pyval)
  : outcome pyval :=
  match v with
  | PDict d => Ret (get d k default)
  | _ => Raise (attribute_error v "get")
  end.

(** [v.lower()] *)
Definition lower (v : pyval) : outcome string :=
  match v with
  | PStr s => Ret (PyStr.lower s)
  | _ => Raise (attribute_error v "lower")
  end.

Definition str_of_Z (z : Z) : string :=
  DecimalString.NilZero.string_of_int (Z.to_int z).

Definition of_option (o : option string) : pyval :=
  match o with Some s => PStr s | None => PNone end.

End Py.

(** The per-user document of the [Inventory] container, as
    [store_items_activity] creates and rewrites it. [doc_itemCount] is
    absent in a document that was built but not yet counted. *)
Record user_doc := UserDoc {
  doc_id : string;
  doc_userId : string;
  doc_supplier_name : pyval;
  doc_items : list dict;
  doc_timestamp : string;
  doc_itemCount : option Z
}.

(** What the program does to the outside, in order. *)
Inductive event :=
| EvChat (system user : string)        (* client.chat.completions.create *)
| EvClock (iso : string)               (* datetime.utcnow().isoformat() *)
| EvQuery (query : string)             (* dest_container.query_items *)
| EvUpsert (body : user_doc) (ok : bool) (* dest_container.upsert_item *)
| EvSleep (seconds : Z).               (* asyncio.sleep *)

(** The collaborators that are not in the repository. Each one is asked with
    the number of interactions made so far, so that an answer may change from
    one call to the next. A reply [inr msg] is an exception whose [str] is
    [msg]. *)
Record env := Env {
  (** [float(s)] on a [str]; [None] is [ValueError]. *)
  float_of_str : string -> option float;
  (** [str(v)] for floats, lists and dicts. *)
  repr_other : pyval -> string;
  (** What [load_jsonl_data("training.jsonl")] returns. *)
  training_jsonl : list pyval;
  (** [AsyncOpenAI(api_key=...)] raising. *)
  client_init_error : option string;
  (** [(await client.chat.completions.create(...)).choices[0].message.content];
      [inr] covers a failed request and a reply without content. *)
  chat_create : nat -> string -> string -> string + string;
  (** [datetime.datetime.utcnow().isoformat()] *)
  utcnow_isoformat : nat -> string;
  (** [list(dest_container.query_items(query=..., ...))] on the documents
      now stored. *)
  query_items : nat -> list user_doc -> string -> list user_doc + string;
  (** [dest_container.upsert_item] failing. *)
  upsert_fault : nat -> user_doc -> option string
}.

Record world := World {
  tick : nat;
  store : list user_doc;
  trace : list event
}.

(** State and exceptions. *)
Definition M (A : Type) : Type := world -> outcome A * world.

Definition ret {A} (a : A) : M A := fun w => (Ret a, w).
Definition raise {A} (e : exn) : M A := fun w => (Raise e, w).
Definition bind {A B} (m : M A) (k : A -> M B) : M B :=
  fun w => match m w with
           | (Ret a, w') => k a w'
           | (Raise e, w') => (Raise e, w')
           end.
(** [try: m except Exception as e: h e] *)
Definition try_except {A} (m : M A) (h : exn -> M A) : M A :=
  fun w => match m w with
           | (Ret a, w') => (Ret a, w')
           | (Raise e, w') => h e w'
           end.
Definition lift {A} (o : outcome A) : M A := fun w => (o, w).

Declare Scope py_scope.
Delimit Scope py_scope with py.
Notation "x <- m ;; k" := (bind m (fun x => k))
  (at level 61, m at next level, right associativity) : py_scope.
Notation "m ;;; k" := (bind m (fun _ => k))
  (at level 61, right associativity) : py_scope.
Notation "x <~ o ;; k" := (obind o (fun x => k))
  (at level 61, o at next level, right associativity) : py_scope.
Local Open Scope py_scope.

(** One interaction: the world moves one tick and records the event. *)
Definition emit (ev : event) : M unit :=
  fun w => (Ret tt, World (S (tick w)) (store w) (trace w ++ [ev])).
Definition get_tick : M nat := fun w => (Ret (tick w), w).
Definition get_store : M (list user_doc) := fun w => (Ret (store w), w).
Definition put_store (s : list user_doc) : M unit :=
  fun w => (Ret tt, World (tick w) s (trace w)).

(* ================================================================== *)
(** * src/shared/names.py *)
(* ================================================================== *)

Module Names.
Import PyStr.

Definition terms_to_remove : list string :=
  [ "plastic"; "plst"; "refrigerator"; "tff"; "shelf-stable"; "cnt"; "box";
    "bx"; "bag"; "bg"; "case"; "cs"; "each"; "ea"; "bags"; "1 piece";
    "homemade"; "shelf"; "count"; "vacuum"; "refrigerated"; "premium";
    "packet"; "pack"; "pkg"; "container"; "bottle"; "jar"; "tin"; "tub";
    "tube"; "can"; "pouch"; "single"; "dozen"; "pair"; "bulk"; "multiple";
    "variety pack"; "frozen"; "chilled"; "dry"; "wet"; "cured"; "smoked";
    "dried"; "standard"; "natural"; "organic"; "artisan"; "gourmet";
    "choice"; "select"; "grade A"; "top quality"; "chopped"; "crushed";
    "diced"; "minced"; "ready to eat"; "local" ].

(** The module-level dict [category_specific_rules], keys as written. *)
Definition category_specific_rules : list (string * list string) :=
  [ ("paper goods and Disposables",
     ["Include size and material"; "Remove brand names unless essential"]);
    ("BAKERY",
     ["Specify bread type first"; "Include shape and size if relevant"]);
    ("produce",
     ["Include 'Fresh' for non-processed items"; "Specify variety and form"]);
    ("meat",
     ["Include cut and preparation method"; "Specify key characteristics"]);
    ("seafood",
     ["Include type and preparation method";
      "Specify fresh or frozen if relevant"]);
    ("dairy", ["Specify product type first"; "Include key descriptors"]);
    ("Dry Grocery",
     ["Specify item type first"; "Include key characteristics"]);
    ("beverages",
     ["Specify type of beverage first";
      "Include key descriptors like brand name"]) ].

(** [rules.get(key, [])] on a dict with [str] keys. *)
Fixpoint rules_get (rules : list (string * list string)) (key : string)
  : list string :=
  match rules with
  | [] => []
  | (k, v) :: rest => if String.eqb k key then v else rules_get rest key
  end.

(** [category_specific_rules.get(category, [])]: a key that is no [str]
    matches nothing; a list or a dict is unhashable. *)
Definition category_rules (category : pyval) : outcome (list string) :=
  match category with
  | PStr s => Ret (rules_get category_specific_rules s)
  | PList _ | PDict _ =>
      Raise (Exn TypeError ("unhashable type: '" ++ Py.type_name category ++ "'"))
  | _ => Ret []
  end.

(** ["\n".join(f"- {rule}" for rule in category_rules)] *)
Definition category_rules_str (rules : list string) : string :=
  join nl (map (fun rule => "- " ++ rule) rules).

(** [extract_final_name]: the loop over the lines. *)
Fixpoint scan_lines (evaluation_lines : list string) : outcome (option string) :=
  match evaluation_lines with
  | [] => Ret None
  | line :: rest =>
      if startswith "final corrected name:" (lower line)
      then match nth_error (split_once ":" line) 1 with
           | Some after => Ret (Some (strip after))
           | None => Raise (Exn IndexError "list index out of range")
           end
      else scan_lines rest
  end.

Definition extract_final_name (evaluation_result : string) : option string :=
  match scan_lines (split_on newline evaluation_result) with
  | Ret r => r
  | Raise _ => None
  end.

Section WithEnv.
Variable E : env.

(** [f"{v}"] *)
Definition fmt (v : pyval) : string :=
  match v with
  | PStr s => s
  | PNone => "None"
  | PBool true => "True"
  | PBool false => "False"
  | PInt z => Py.str_of_Z z
  | _ => repr_other E v
  end.

(** One request to the language model. *)
Definition chat (system user : string) : M string :=
  t <- get_tick ;;
  emit (EvChat system user) ;;;
  match chat_create E t system user with
  | inl content => ret content
  | inr msg => raise (Exn LibraryError msg)
  end.

(** [[ex for ex in training_data if isinstance(ex, dict) and
      ex.get('category', '').lower() == category.lower()]] *)
Fixpoint category_examples (training_data : list pyval) (category : pyval)
  : outcome (list dict) :=
  match training_data with
  | [] => Ret []
  | PDict ex :: rest =>
      l1 <~ Py.lower (Py.get ex "category" (PStr "")) ;;
      l2 <~ Py.lower category ;;
      more <~ category_examples rest category ;;
      Ret (if String.eqb l1 l2 then ex :: more else more)
  | _ :: rest => category_examples rest category
  end.

Definition render_example (example : dict) : string :=
  "Input: " ++ fmt (Py.get example "prompt" (PStr "")) ++ nl ++
  "Output: " ++ fmt (Py.get example "completion" (PStr "")).

Definition training_examples (examples : list dict) : string :=
  join nl (map render_example examples).

Definition standardize_prompt (examples rules_str : string)
  (item_description : pyval) : string :=
  join nl
  [ "As a restaurant inventory manager, standardize this inventory item name using these guidelines:";
    examples;
    rules_str;
    "Item Name: " ++ fmt item_description;
    "";
    "Rules for Food Items:";
    "1. Format: Ingredient, Description";
    "2. Ingredient should come first, followed by a comma and then the description";
    "3. Use 2-4 words total";
    "4. Capitalize only the first letter of the ingredient";
    "5. Remove all packaging information from the name";
    "";
    "Rules for Non-Food Items:";
    "1. Include size and essential details in the name";
    "2. Use 2-4 words total";
    "3. Capitalize the first letter of each word";
    "";
    "General Rules:";
    "4. Remove brand names unless essential";
    "5. Use well-known culinary abbreviations";
    "6. Remove terms like " ++ dq ++ "refrigerator," ++ dq ++ " " ++ dq
      ++ "plastic," ++ dq ++ " " ++ dq ++ "shelf-stable" ++ dq;
    "7. Remove place names";
    "8. For produce, include " ++ dq ++ "Fresh" ++ dq ++ " only if distinguishing";
    "9. For meat and seafood, include cut and preparation";
    "10. For dairy, specify type";
    "11. For spices, include form";
    "12. Remove terms: " ++ join ", " terms_to_remove;
    "13. Keep essential descriptors";
    "";
    "Task: Standardize this item description: " ++ fmt item_description ].

Definition standardize_system : string :=
  "You are an AI assistant that standardizes inventory item names for a restaurant.".

Definition standardize_item_name (item_description : pyval)
  (training_data : list pyval) (category : pyval) : M pyval :=
  examples <- lift (category_examples training_data category) ;;
  rules <- lift (category_rules category) ;;
  let prompt := standardize_prompt (training_examples examples)
                  (category_rules_str rules) item_description in
  try_except
    (content <- chat standardize_system prompt ;; ret (PStr (strip content)))
    (fun _ => ret item_description).

Definition evaluate_prompt (standardized_name original_name : pyval)
  (rules_str examples : string) : string :=
  join nl
  [ "Evaluate and correct the following standardized inventory item name:";
    "Standardized name: " ++ fmt standardized_name;
    "Original name: " ++ fmt original_name;
    "Category rules:";
    rules_str;
    "";
    "Training examples:";
    examples;
    "";
    "Terms to remove: " ++ join ", " terms_to_remove;
    "";
    "Instructions:";
    "- Put core item first";
    "- Focus on fundamental identity";
    "- Use " ++ dq ++ "Core Item, Descriptors" ++ dq ++ " format";
    "- Remove unnecessary words";
    "- Include brand names for beverages if well-known";
    "- Keep standard measurements when relevant";
    "";
    "Final corrected name: [Your corrected name]";
    "Explanation: [Brief explanation]" ].

Definition evaluate_system : string :=
  "You are an AI assistant that evaluates and corrects standardized inventory item names.".

(** The body of the [try] of [evaluate_and_correct_item_name]. *)
Definition evaluate_body (standardized_name original_name category : pyval)
  (training_data : list pyval) : M string :=
  examples <- lift (category_examples training_data category) ;;
  let examples := firstn 5 examples in
  rules <- lift (category_rules category) ;;
  let prompt := evaluate_prompt standardized_name original_name
                  (category_rules_str rules) (training_examples examples) in
  content <- chat evaluate_system prompt ;;
  ret (strip content).

Definition evaluate_and_correct_item_name
  (standardized_name original_name category : pyval)
  (training_data : list pyval) : M string :=
  try_except
    (evaluate_body standardized_name original_name category training_data)
    (fun e => ret ("Error: " ++ exc_msg e)).

(** [process_inventory_item] hands [standardize_item_name] the category
    [str(item.get('Product Category', '')).lower()]. *)
Definition process_inventory_item_category (item : dict) : pyval :=
  PStr (lower (fmt (Py.get item "Product Category" (PStr "")))).

End WithEnv.
End Names.

(* ================================================================== *)
(** * src/function_app.py *)
(* ================================================================== *)

Module FunctionApp.
Import PyStr.

(** ** [extract_brand] *)

(** [s.replace(old, new)] for one-character [old] and [new]. *)
Fixpoint replace (old new : ascii) (s : string) : string :=
  match s with
  | EmptyString => EmptyString
  | String c s' =>
      String (if Ascii.eqb c old then new else c) (replace old new s')
  end.

(** [words[0][0]] *)
Definition first_char (words : list string) : outcome ascii :=
  match words with
  | [] => Raise (Exn IndexError "list index out of range")
  | EmptyString :: _ => Raise (Exn IndexError "string index out of range")
  | String c _ :: _ => Ret c
  end.

(** The body of the [try] of [extract_brand], on a [str]. *)
Definition extract_brand_body (item_name : string) : outcome string :=
  let words := split_ws item_name in
  match words with
  | [] => Ret "Generic"
  | first_word :: _ =>
      if contains "/" item_name
      then Ret (strip (hd "" (split_on "/" item_name)))
      else
        let first_word_if_capitalized :=
          (c <~ first_char words ;;
           if is_upper c then Ret first_word else Ret "Generic")%py in
        if (contains "'" item_name || contains "'" item_name)%bool
        then
          let possessive_split := split_on "'" (replace "'" "'" item_name) in
          if (1 <? List.length possessive_split)%nat
          then Ret (strip (hd "" possessive_split))
          else first_word_if_capitalized
        else first_word_if_capitalized
  end.

(** [extract_brand]: any exception, among them the [AttributeError] of a
    value without [split], gives ["Generic"]. *)
Definition extract_brand (item_name : pyval) : string :=
  match item_name with
  | PStr s =>
      match extract_brand_body s with
      | Ret brand => brand
      | Raise _ => "Generic"
      end
  | _ => "Generic"
  end.

(** ** [validate_storage_item] *)

Definition required_fields : list string :=
  ["Inventory Item Name"; "Item Number"; "Category"; "Measured In"].

Definition numeric_fields : list string :=
  ["Quantity In a Case"; "Measurement Of Each Item"; "Total Units";
   "Case Price"; "Cost of a Unit"].

(** [isinstance(v, (int, float))]; [bool] is a subclass of [int]. *)
Definition is_int_or_float (v : pyval) : bool :=
  match v with
  | PBool _ | PInt _ | PFloat _ => true
  | _ => false
  end.

(** [v < 0], asked only of a value that passed [is_int_or_float]. *)
Definition lt_zero (v : pyval) : bool :=
  match v with
  | PInt z => z <? 0
  | PFloat f => float_ltb0 f
  | _ => false
  end.

(** The first loop: [if not item.get(field): return False]. *)
Fixpoint check_required (item : dict) (fields : list string) : bool :=
  match fields with
  | [] => true
  | field :: rest =>
      if negb (Py.truthy (Py.get item field PNone)) then false
      else check_required item rest
  end.

(** The second loop:
    [if not isinstance(item.get(field), (int, float)) or item.get(field) < 0:
       return False]. The comparison is never reached on a value that could
    make it raise. *)
Fixpoint check_numeric (item : dict) (fields : list string) : bool :=
  match fields with
  | [] => true
  | field :: rest =>
      if (negb (is_int_or_float (Py.get item field PNone))
          || lt_zero (Py.get item field PNone))%bool
      then false
      else check_numeric item rest
  end.

Definition validate_storage_item (item : dict) : bool :=
  if check_required item required_fields
  then check_numeric item numeric_fields
  else false.

(** ** Inputs and results of the activities *)

(** What the orchestrator passes to [process_single_item]: it always sets
    the five keys, and [item] is a dict. *)
Record itemdata := ItemData {
  id_item : dict;
  id_invoice_id : pyval;
  id_supplier : pyval;
  id_invoice_number : pyval;
  id_userId : pyval
}.

(** What the orchestrator passes to [store_items_activity]. *)
Record storedata := StoreData {
  sd_items : list pyval;
  sd_user_id : string;
  sd_batch : option Z
}.

(** The dict [store_items_activity] returns. *)
Record store_result := StoreResult {
  status : string;
  batch : Z;
  stored_count : nat;
  total_items : nat;
  errors : list string;
  user_id : string
}.

(** The names bound at module level in [function_app.py]: its imports, its
    assignments and its functions. *)
Definition function_app_globals : list string :=
  [ "func"; "df"; "CosmosClient"; "logging"; "os"; "List"; "Dict"; "Any";
    "Optional"; "datetime"; "AsyncOpenAI"; "json";
    "standardize_item_name"; "evaluate_and_correct_item_name";
    "process_inventory_item"; "load_jsonl_data"; "extract_final_name";
    "myapp"; "cosmos_client"; "database_name"; "source_container_name";
    "dest_container_name"; "source_db"; "source_container"; "dest_db";
    "dest_container"; "extract_items_from_invoice"; "http_start";
    "process_items_orchestrator"; "get_user_invoices_activity";
    "process_single_item"; "store_items_activity"; "extract_brand";
    "validate_storage_item" ].

Definition max_retries : nat := 3.

Section WithEnv.
Variable E : env.

(** ** [float(v)] *)

Definition int_to_float (z : Z) : outcome float :=
  match binary_normalize 53 1024 z 0 false with
  | S754_infinity _ =>
      Raise (Exn OverflowError "int too large to convert to float")
  | f => Ret f
  end.

Definition py_float (v : pyval) : outcome float :=
  match v with
  | PFloat f => Ret f
  | PInt z => int_to_float z
  | PBool b => Ret (if b then float_one else float_zero)
  | PStr s =>
      match float_of_str E s with
      | Some f => Ret f
      | None =>
          Raise (Exn ValueError
                   ("could not convert string to float: " ++ repr s))
      end
  | _ =>
      Raise (Exn TypeError
               ("float() argument must be a string or a real number, not '"
                ++ Py.type_name v ++ "'"))
  end.

(** [datetime.datetime.utcnow().isoformat()] *)
Definition utcnow : M string :=
  t <- get_tick ;;
  let iso := utcnow_isoformat E t in
  emit (EvClock iso) ;;; ret iso.

(** ** [process_single_item] *)

(** [AsyncOpenAI(api_key=os.getenv('OPENAI_API_KEY'))] *)
Definition new_client : M unit :=
  match client_init_error E with
  | Some msg => raise (Exn LibraryError msg)
  | None => ret tt
  end.

(** The dict literal [processed_item], its values computed in order. *)
Definition map_raw_item (itemdata : itemdata) : outcome dict :=
  let item := id_item itemdata in
  quantityInCase <~ py_float (Py.get item "Quantity In a Case" (PInt 0)) ;;
  measurementOfEachItem <~
    py_float (Py.get item "Measurement Of Each Item" (PInt 0)) ;;
  totalUnitsOrdered <~ py_float (Py.get item "Total Units Ordered" (PInt 0)) ;;
  casePrice <~ py_float (Py.get item "Case Price" (PInt 0)) ;;
  costOfUnit <~ py_float (Py.get item "Cost of a Unit" (PInt 0)) ;;
  Ret [ ("supplier", id_supplier itemdata);
        ("invoice_id", id_invoice_id itemdata);
        ("invoice_number", id_invoice_number itemdata);
        ("userId", id_userId itemdata);
        ("itemName", Py.get item "Item Name" (PStr ""));
        ("itemNumber", Py.get item "Item Number" (PStr ""));
        ("quantityInCase", PFloat quantityInCase);
        ("measurementOfEachItem", PFloat measurementOfEachItem);
        ("measuredIn", Py.get item "Measured In" (PStr ""));
        ("totalUnitsOrdered", PFloat totalUnitsOrdered);
        ("casePrice", PFloat casePrice);
        ("catchWeight", Py.get item "Catch Weight" (PStr "N/A"));
        ("pricedBy", Py.get item "Priced By" (PStr ""));
        ("splitable", Py.get item "Splitable" (PStr "NO"));
        ("splitPrice", Py.get item "Split Price" (PStr "N/A"));
        ("costOfUnit", PFloat costOfUnit);
        ("productCategory", Py.get item "Product Category" (PStr "")) ].

(** The body of the [try] of [process_single_item]. *)
Definition process_single_item_body (itemdata : itemdata) : M dict :=
  new_client ;;;
  let training_data := training_jsonl E in
  processed_item <- lift (map_raw_item itemdata) ;;
  let itemName := Py.get processed_item "itemName" PNone in
  let productCategory := Py.get processed_item "productCategory" PNone in
  standardized_name <-
    Names.standardize_item_name E itemName training_data productCategory ;;
  evaluation <-
    Names.evaluate_and_correct_item_name E standardized_name itemName
      productCategory training_data ;;
  let final_name := Names.extract_final_name evaluation in
  evaluation2 <-
    Names.evaluate_and_correct_item_name E (Py.of_option final_name) itemName
      productCategory training_data ;;
  let final_name2 := Names.extract_final_name evaluation2 in
  if Py.truthy (Py.of_option final_name2)
  then ret (Py.set "final_corrected_name" (Py.of_option final_name2)
              processed_item)
  else ret processed_item.

(** [process_single_item]: [None] is Python's [None]. *)
Definition process_single_item (itemdata : itemdata) : M (option dict) :=
  try_except
    (processed_item <- process_single_item_body itemdata ;;
     ret (Some processed_item))
    (fun _ => ret None).

(** ** [store_items_activity] *)

(** [dest_container.query_items(query=..., enable_cross_partition_query=True)] *)
Definition run_query (query : string) : M (list user_doc) :=
  t <- get_tick ;;
  docs <- get_store ;;
  emit (EvQuery query) ;;;
  match query_items E t docs query with
  | inl found => ret found
  | inr msg => raise (Exn LibraryError msg)
  end.

(** An upsert replaces the document of the same id and partition key, or
    adds one. *)
Fixpoint upsert_doc (body : user_doc) (docs : list user_doc) : list user_doc :=
  match docs with
  | [] => [body]
  | d :: rest =>
      if (String.eqb (doc_id d) (doc_id body)
          && String.eqb (doc_userId d) (doc_userId body))%bool
      then body :: rest
      else d :: upsert_doc body rest
  end.

(** [dest_container.upsert_item(body=user_doc)] *)
Definition upsert_item (body : user_doc) : M unit :=
  t <- get_tick ;;
  match upsert_fault E t body with
  | Some msg =>
      emit (EvUpsert body false) ;;; raise (Exn LibraryError msg)
  | None =>
      emit (EvUpsert body true) ;;;
      docs <- get_store ;;
      put_store (upsert_doc body docs)
  end.

(** The dict literal [storage_item], its values computed in order. *)
Definition format_storage_item (item : pyval) (batch_num : Z) : M dict :=
  match item with
  | PDict item =>
      let itemName := Py.get item "itemName" (PStr "") in
      quantity <- lift (py_float (Py.get item "quantityInCase" (PInt 0))) ;;
      measurement <-
        lift (py_float (Py.get item "measurementOfEachItem" (PInt 0))) ;;
      totalUnits <- lift (py_float (Py.get item "totalUnitsOrdered" (PInt 0))) ;;
      casePrice <- lift (py_float (Py.get item "casePrice" (PInt 0))) ;;
      costOfUnit <- lift (py_float (Py.get item "costOfUnit" (PInt 0))) ;;
      timestamp <- utcnow ;;
      ret [ ("Supplier Name", Py.get item "supplier" (PStr ""));
            ("Inventory Item Name",
             Py.get item "final_corrected_name" itemName);
            ("Brand", PStr (extract_brand itemName));
            ("Inventory Unit of Measure", Py.get item "measuredIn" (PStr ""));
            ("Item Name", itemName);
            ("Item Number", Py.get item "itemNumber" (PStr ""));
            ("Quantity In a Case", PFloat quantity);
            ("Measurement Of Each Item", PFloat measurement);
            ("Measured In", Py.get item "measuredIn" (PStr ""));
            ("Total Units", PFloat totalUnits);
            ("Case Price", PFloat casePrice);
            ("Catch Weight", Py.get item "catchWeight" (PStr "N/A"));
            ("Priced By", Py.get item "pricedBy" (PStr ""));
            ("Splitable", Py.get item "splitable" (PStr "NO"));
            ("Split Price", Py.get item "splitPrice" (PStr "N/A"));
            ("Cost of a Unit", PFloat costOfUnit);
            ("Category", Py.get item "productCategory" (PStr ""));
            ("timestamp", PStr timestamp);
            ("batchNumber", PInt batch_num) ]
  | _ => raise (Py.attribute_error item "get")
  end.

(** What the loop over the items carries: the list [user_doc['items']],
    [stored_count] and [errors]. *)
Record loop_state := LoopState {
  ls_items : list dict;
  ls_stored_count : nat;
  ls_errors : list string
}.

(** One turn of [for idx, item in enumerate(items)], with its own [try]. *)
Definition store_one (user_id : string) (batch_num : Z) (idx : nat)
  (item : pyval) (st : loop_state) : M loop_state :=
  try_except
    (if negb (Py.truthy item)
     then ret st                                        (* continue *)
     else
       storage_item <- format_storage_item item batch_num ;;
       if validate_storage_item storage_item
       then ret (LoopState (ls_items st ++ [storage_item])
                   (S (ls_stored_count st)) (ls_errors st))
       else
         let error_msg :=
           "Invalid item data for item " ++ Py.str_of_Z (Z.of_nat idx) in
         ret (LoopState (ls_items st) (ls_stored_count st)
                (ls_errors st ++ [error_msg])))
    (fun e =>
       let error_msg :=
         "Error storing item " ++ Py.str_of_Z (Z.of_nat idx) ++ " for user "
         ++ user_id ++ ": " ++ exc_msg e in
       ret (LoopState (ls_items st) (ls_stored_count st)
              (ls_errors st ++ [error_msg]))).

Fixpoint store_loop (user_id : string) (batch_num : Z) (idx : nat)
  (items : list pyval) (st : loop_state) : M loop_state :=
  match items with
  | [] => ret st
  | item :: rest =>
      st' <- store_one user_id batch_num idx item st ;;
      store_loop user_id batch_num (S idx) rest st'
  end.

(** [await asyncio.sleep(seconds)]: the name [asyncio] is looked up in the
    module's globals first. *)
Definition asyncio_sleep (globals : list string) (seconds : Z) : M unit :=
  if existsb (String.eqb "asyncio") globals
  then emit (EvSleep seconds)
  else raise (Exn NameError "name 'asyncio' is not defined").

(** [for attempt in range(max_retries)] with its [try], [break] and bare
    [raise]. *)
Fixpoint upsert_with_retry (globals : list string) (attempts : list nat)
  (user_doc : user_doc) : M unit :=
  match attempts with
  | [] => ret tt
  | attempt :: rest =>
      done <-
        try_except
          (upsert_item user_doc ;;; ret true)             (* break *)
          (fun e =>
             if Nat.eqb attempt (max_retries - 1) then raise e
             else asyncio_sleep globals 1 ;;; ret false) ;;
      if done : bool then ret tt
      else upsert_with_retry globals rest user_doc
  end.

(** The user document: the first one found, or a new one. *)
Definition get_or_create_user_doc (existing_docs : list user_doc)
  (user_id : string) (items : list pyval) : M user_doc :=
  match existing_docs with
  | d :: _ => ret d
  | [] =>
      supplier_name <-
        match items with
        | first :: _ => lift (Py.get_attr first "supplier" (PStr ""))
        | [] => ret (PStr "")
        end ;;
      timestamp <- utcnow ;;
      ret (UserDoc user_id user_id supplier_name [] timestamp None)
  end.

Definition batch_status (stored_count total : nat) : string :=
  if Nat.eqb stored_count total then "success"
  else if (0 <? stored_count)%nat then "partial_failure"
  else "failure".

(** [store_items_activity], over the globals of its module. The two outer
    handlers log and re-raise, so they are left out. *)
Definition store_items_activity_in (globals : list string)
  (storedata : storedata) : M store_result :=
  let items := sd_items storedata in
  let user_id := sd_user_id storedata in
  let batch_num := match sd_batch storedata with Some b => b | None => 0 end in
  let query := "SELECT * FROM c WHERE c.id = '" ++ user_id ++ "'" in
  existing_docs <- run_query query ;;
  user_doc <- get_or_create_user_doc existing_docs user_id items ;;
  st <- store_loop user_id batch_num 0 items
          (LoopState (doc_items user_doc) 0 []) ;;
  timestamp <- utcnow ;;
  let user_doc :=
    UserDoc (doc_id user_doc) (doc_userId user_doc)
      (doc_supplier_name user_doc) (ls_items st) timestamp
      (Some (Z.of_nat (List.length (ls_items st)))) in
  upsert_with_retry globals (seq 0 max_retries) user_doc ;;;
  ret (StoreResult (batch_status (ls_stored_count st) (List.length items))
         batch_num (ls_stored_count st) (List.length items) (ls_errors st)
         user_id).

Definition store_items_activity : storedata -> M store_result :=
  store_items_activity_in function_app_globals.

End WithEnv.
End FunctionApp.

(* ================================================================== *)
(** * The vocabulary of the specification *)
(* ================================================================== *)

Module Spec.
Import PyStr Names FunctionApp.

(** ** Final-name extraction *)

Definition label : string := "final corrected name:".

(** A line whose lowercase form starts with the label. *)
Definition final_line (line : string) : bool := startswith label (lower line).

Definition no_newline (line : string) : Prop := contains newline line = false.

(** ** Trimming *)

(** Blanks only. *)
Fixpoint blank (s : string) : bool :=
  match s with
  | EmptyString => true
  | String c s' => (is_space c && blank s')%bool
  end.

(** No blank at the start. *)
Definition starts_visible (s : string) : bool :=
  match s with
  | EmptyString => true
  | String c _ => negb (is_space c)
  end.

(** No blank at the end. *)
Fixpoint ends_visible (s : string) : bool :=
  match s with
  | EmptyString => true
  | String c EmptyString => negb (is_space c)
  | String _ s' => ends_visible s'
  end.

(** [t] is [s] without the blanks at its two ends. *)
Definition trimmed (s t : string) : Prop :=
  exists lead trail,
    s = lead ++ t ++ trail
    /\ blank lead = true /\ blank trail = true
    /\ starts_visible t = true /\ ends_visible t = true.

(** ** Brand extraction *)

(** The part of [s] before its first [c]; all of [s] if there is none. *)
Fixpoint before_first (c : ascii) (s : string) : string :=
  match s with
  | EmptyString => EmptyString
  | String a s' =>
      if Ascii.eqb a c then EmptyString else String a (before_first c s')
  end.

(** The leading run of non-blank characters. *)
Fixpoint word_end (s : string) : string :=
  match s with
  | EmptyString => EmptyString
  | String a s' => if is_space a then EmptyString else String a (word_end s')
  end.

(** The first word of a name; empty when the name is blank. *)
Definition first_word (s : string) : string := word_end (lstrip s).

Definition capitalized (word : string) : bool :=
  match word with
  | EmptyString => false
  | String c _ => is_upper c
  end.

(** The priority rule with the substrings taken as they stand. *)
Definition brand_as_claimed (name : string) : string :=
  if contains "/" name then before_first "/" name
  else if contains "'" name then before_first "'" name
  else if capitalized (first_word name) then first_word name
  else "Generic".

(** The priority rule with the substrings trimmed. *)
Definition brand_by_priority (name : string) : string :=
  if contains "/" name then strip (before_first "/" name)
  else if contains "'" name then strip (before_first "'" name)
  else if capitalized (first_word name) then first_word name
  else "Generic".

(** ** Validation *)

(** A number that is [>= 0]; on a float this is IEEE [0.0 <= x], which NaN
    fails. *)
Definition ge_zero (v : pyval) : bool :=
  match v with
  | PBool _ => true
  | PInt z => (0 <=? z)%Z
  | PFloat f => SFleb float_zero f
  | _ => false
  end.

Definition is_nan (v : pyval) : bool :=
  match v with
  | PFloat S754_nan => true
  | _ => false
  end.

(** The four text fields non-empty, the five numeric fields present, numeric
    and [>= 0]. *)
Definition acceptable (item : dict) : bool :=
  (forallb (fun field => Py.truthy (Py.get item field PNone)) required_fields
   && forallb (fun field => ge_zero (Py.get item field PNone)) numeric_fields)%bool.

(** ** Single-item processing *)

(** The raw numeric fields and the keys they are stored under. *)
Definition raw_numeric_fields : list (string * string) :=
  [ ("Quantity In a Case", "quantityInCase");
    ("Measurement Of Each Item", "measurementOfEachItem");
    ("Total Units Ordered", "totalUnitsOrdered");
    ("Case Price", "casePrice");
    ("Cost of a Unit", "costOfUnit") ].

(** The raw text fields, their keys and their defaults. *)
Definition raw_text_fields : list (string * string * string) :=
  [ ("Item Name", "itemName", ""); ("Item Number", "itemNumber", "");
    ("Measured In", "measuredIn", ""); ("Catch Weight", "catchWeight", "N/A");
    ("Priced By", "pricedBy", ""); ("Splitable", "splitable", "NO");
    ("Split Price", "splitPrice", "N/A");
    ("Product Category", "productCategory", "") ].

Definition item_name (itemdata : itemdata) : pyval :=
  Py.get (id_item itemdata) "Item Name" (PStr "").

Definition item_category (itemdata : itemdata) : pyval :=
  Py.get (id_item itemdata) "Product Category" (PStr "").

(** What the second correction round is invoked on: the extracted name when
    there is one, otherwise the first-pass standardized name. *)
Definition second_round_input_as_claimed (n1 : option string) (s0 : pyval)
  : pyval :=
  match n1 with
  | Some n => PStr n
  | None => s0
  end.

(** What the second correction round is invoked on: [n1] as it is. *)
Definition second_round_input (n1 : option string) (s0 : pyval) : pyval :=
  Py.of_option n1.

(** A run of the pipeline from [w] to [w'] made of one standardisation and
    two correction rounds, the second one on [input2 n1 s0]; [e2] is what the
    second round returned. *)
Definition two_rounds (input2 : option string -> pyval -> pyval) (E : env)
  (itemdata : itemdata) (w w' : world) (e2 : string) : Prop :=
  let name := item_name itemdata in
  let category := item_category itemdata in
  exists s0 e1 w1 w2,
    standardize_item_name E name (training_jsonl E) category w = (Ret s0, w1)
    /\ evaluate_and_correct_item_name E s0 name category (training_jsonl E) w1
       = (Ret e1, w2)
    /\ evaluate_and_correct_item_name E (input2 (extract_final_name e1) s0)
         name category (training_jsonl E) w2
       = (Ret e2, w').

(** ** Storage *)

(** [itemCount] equals the length of [items]. *)
Definition counted (d : user_doc) : Prop :=
  doc_itemCount d = Some (Z.of_nat (List.length (doc_items d))).

Definition all_counted (w : world) : Prop := Forall counted (store w).

(** An item the loop skips: [not item]. *)
Definition is_empty_item (item : pyval) : bool := negb (Py.truthy item).

(** The items of the user document the activity reads at [w]. *)
Definition existing_items (E : env) (sd : storedata) (w : world) : list dict :=
  match query_items E (tick w) (store w)
          ("SELECT * FROM c WHERE c.id = '" ++ sd_user_id sd ++ "'") with
  | inl (d :: _) => doc_items d
  | _ => []
  end.

Definition batch_number (sd : storedata) : Z :=
  match sd_batch sd with Some b => b | None => 0%Z end.

(** The worlds the two activities can produce from an empty container. *)
Inductive reachable (E : env) : world -> Prop :=
| reach_init : reachable E (World 0 [] [])
| reach_store : forall w sd o w',
    reachable E w -> store_items_activity E sd w = (o, w') -> reachable E w'
| reach_process : forall w itemdata o w',
    reachable E w -> process_single_item E itemdata w = (o, w') ->
    reachable E w'.

(** A property of the stored documents, as a property of the world. *)
Definition on_store (P : list user_doc -> Prop) (w : world) : Prop :=
  P (store w).

(** [m] keeps [I] whatever it returns or raises. *)
Definition preserves {A} (I : world -> Prop) (m : M A) : Prop :=
  forall w o w', m w = (o, w') -> I w -> I w'.

End Spec.

(* ================================================================== *)
(** * Concrete collaborators and inputs *)
(* ================================================================== *)

Module Demo.
Import PyStr Names FunctionApp.

(** ** [float(s)] on a [str]

    Blanks at both ends are dropped; the separators U+001C to U+001F,
    which [str.strip] drops, are not among them. What remains is an optional
    sign
    followed by [inf], [infinity] or [nan] in any letter case, or by a
    decimal number: digits with an optional point and an optional exponent,
    where single underscores may separate digits. The number is rounded to
    the nearest binary64 value, ties to even; too large a number gives an
    infinity, too small a one a zero. *)

Definition float_space (c : ascii) : bool :=
  (in_range 9 13 c || N.eqb (code c) 32 || N.eqb (code c) 133
   || N.eqb (code c) 160)%bool.

Fixpoint drop_leading (s : string) : string :=
  match s with
  | EmptyString => EmptyString
  | String c s' => if float_space c then drop_leading s' else s
  end.

Fixpoint drop_trailing (s : string) : string :=
  match s with
  | EmptyString => EmptyString
  | String c s' =>
      match drop_trailing s' with
      | EmptyString =>
          if float_space c then EmptyString else String c EmptyString
      | r => String c r
      end
  end.

Definition digit_value (c : ascii) : option Z :=
  if in_range 48 57 c then Some (Z.of_N (code c) - 48) else None.

(** The digits that follow a digit, and what is left of the text. *)
Fixpoint more_digits (s : string) : list Z * string :=
  match s with
  | EmptyString => ([], EmptyString)
  | String c s' =>
      match digit_value c with
      | Some d => let (ds, rest) := more_digits s' in (d :: ds, rest)
      | None =>
          match s' with
          | String c' _ =>
              if (Ascii.eqb c "_" && in_range 48 57 c')%bool
              then more_digits s'
              else ([], s)
          | EmptyString => ([], s)
          end
      end
  end.

(** A run of digits at the start of the text, which may be empty. *)
Definition digit_part (s : string) : list Z * string :=
  match s with
  | EmptyString => ([], EmptyString)
  | String c s' =>
      match digit_value c with
      | Some d => let (ds, rest) := more_digits s' in (d :: ds, rest)
      | None => ([], s)
      end
  end.

Definition digits_value (ds : list Z) : Z :=
  fold_left (fun acc d => 10 * acc + d) ds 0.

(** An optional sign: [true] is [-]. *)
Definition read_sign (s : string) : bool * string :=
  match s with
  | String "-" s' => (true, s')
  | String "+" s' => (false, s')
  | _ => (false, s)
  end.

(** The exponent part, [0] when there is none; [None] when it is cut short
    or something follows it. *)
Definition read_exponent (s : string) : option Z :=
  match s with
  | EmptyString => Some 0
  | String c s' =>
      if (Ascii.eqb c "e" || Ascii.eqb c "E")%bool
      then
        let (negative, s'') := read_sign s' in
        match digit_part s'' with
        | (d :: ds, EmptyString) =>
            Some (if negative then - digits_value (d :: ds)
                  else digits_value (d :: ds))
        | _ => None
        end
      else None
  end.

(** [m * 10 ^ e10], rounded, for an [m] of at most [digits] decimal
    digits. Beyond [1e310] and below [1e-330] nothing is computed. *)
Definition round_decimal (negative : bool) (digits m e10 : Z) : float :=
  let signed (z : Z) := if negative then - z else z in
  if m =? 0 then S754_zero negative
  else if 310 <? e10 then S754_infinity negative
  else if digits + e10 <? -330 then S754_zero negative
  else if 0 <=? e10
  then binary_normalize 53 1024 (signed (m * 10 ^ e10)) 0 negative
  else
    let d := 10 ^ (- e10) in
    let k := Z.max 0 (66 + Z.log2 d - Z.log2 m) in
    let n := m * 2 ^ k in
    let sticky := if n mod d =? 0 then 0 else 1 in
    binary_normalize 53 1024 (signed (2 * (n / d) + sticky)) (- (k + 1))
      negative.

Definition read_number (negative : bool) (s : string) : option float :=
  let (whole, rest) := digit_part s in
  let (fraction, rest') :=
    match rest with
    | String "." after => digit_part after
    | _ => ([], rest)
    end in
  match (whole ++ fraction)%list with
  | [] => None
  | digits =>
      match read_exponent rest' with
      | Some e =>
          Some (round_decimal negative (Z.of_nat (List.length digits))
                  (digits_value digits)
                  (e - Z.of_nat (List.length fraction)))
      | None => None
      end
  end.

Definition float_of_str (s : string) : option float :=
  let (negative, body) := read_sign (drop_trailing (drop_leading s)) in
  let word := lower body in
  if (String.eqb word "inf" || String.eqb word "infinity")%bool
  then Some (S754_infinity negative)
  else if String.eqb word "nan" then Some float_nan
  else read_number negative body.

Definition find_by_id (docs : list user_doc) (query : string) : list user_doc :=
  filter (fun d => String.eqb query
                     ("SELECT * FROM c WHERE c.id = '" ++ doc_id d ++ "'"))
         docs.

Definition training : list pyval :=
  [ PDict [ ("category", PStr "Meat");
            ("prompt", PStr "CHKN BRST DICED 10LB CS");
            ("completion", PStr "Chicken, Diced") ] ].

Definition env_of (reply : nat -> string -> string -> string + string)
  (faults : nat -> bool) : env :=
  Env float_of_str (fun _ => "") training None reply
      (fun t => "2024-01-01T00:00:0" ++ Py.str_of_Z (Z.of_nat t))
      (fun _ docs query => inl (find_by_id docs query))
      (fun t _ => if faults t then Some "503 Service Unavailable" else None).

Definition labelled : string :=
  "Final corrected name: Chicken, Diced" ++ nl ++ "Explanation: core item first".

(** A model that always answers in the requested format. *)
Definition helpful (t : nat) (system user : string) : string + string :=
  if String.eqb system standardize_system then inl "Chicken Breast, Diced"
  else inl labelled.

(** A model whose first evaluation lacks the labelled line. *)
Definition unlabelled_first (t : nat) (system user : string)
  : string + string :=
  if String.eqb system standardize_system then inl "Chicken Breast, Diced"
  else if Nat.eqb t 1 then inl "The name looks right."
  else inl labelled.

(** A model whose evaluations fail. *)
Definition evaluator_down (t : nat) (system user : string) : string + string :=
  if String.eqb system standardize_system then inl "Chicken Breast, Diced"
  else inr "Connection error.".

Definition reliable : env := env_of helpful (fun _ => false).
Definition vague : env := env_of unlabelled_first (fun _ => false).
Definition offline : env := env_of evaluator_down (fun _ => false).
(** The container refuses the write made at tick 5 and no other. *)
Definition flaky : env := env_of helpful (Nat.eqb 5).

Definition w0 : world := World 0 [] [].

Definition complete_raw : dict :=
  [ ("Item Name", PStr "CHKN BRST DICED 10LB CS");
    ("Item Number", PStr "10456");
    ("Quantity In a Case", PInt 4);
    ("Measurement Of Each Item", PInt 10);
    ("Measured In", PStr "lb");
    ("Total Units Ordered", PInt 2);
    ("Case Price", PInt 45);
    ("Cost of a Unit", PInt 11);
    ("Product Category", PStr "meat") ].

Definition without (key : string) (d : dict) : dict :=
  filter (fun kv => negb (String.eqb (fst kv) key)) d.

Definition itemdata_of (raw : dict) : itemdata :=
  ItemData raw (PStr "inv-1") (PStr "Sysco") (PStr "A-100") (PStr "user-1").

(** The processed item as the orchestrator receives it. *)
Definition processed (E : env) (raw : dict) : pyval :=
  match fst (process_single_item E (itemdata_of raw) w0) with
  | Ret (Some item) => PDict item
  | _ => PNone
  end.

(** A batch of a complete item and one without [Item Number]. *)
Definition two_items : storedata :=
  StoreData [ processed reliable complete_raw;
              processed reliable (without "Item Number" complete_raw) ]
            "user-1" (Some 1%Z).

Definition fl (z : Z) : float := binary_normalize 53 1024 z 0 false.

(** A storage record that passes validation. *)
Definition good_record : dict :=
  [ ("Inventory Item Name", PStr "Chicken, Diced");
    ("Item Number", PStr "10456");
    ("Quantity In a Case", PFloat (fl 4));
    ("Measurement Of Each Item", PFloat (fl 10));
    ("Measured In", PStr "lb");
    ("Total Units", PFloat (fl 2));
    ("Case Price", PFloat (fl 45));
    ("Cost of a Unit", PFloat (fl 11));
    ("Category", PStr "meat") ].

Definition with_case_price (v : pyval) : dict :=
  Py.set "Case Price" v good_record.

(** A raw item whose price is the text [nan]. *)
Definition nan_raw : dict := Py.set "Case Price" (PStr "nan") complete_raw.

Definition nan_batch : storedata :=
  StoreData [processed reliable nan_raw] "user-1" (Some 1%Z).

(** The runs the examples refer to, and what they produce. *)
Definition run_reliable : outcome (option dict) * world :=
  process_single_item reliable (itemdata_of complete_raw) w0.
Definition item_reliable : dict :=
  Eval vm_compute in
    match fst run_reliable with Ret (Some item) => item | _ => [] end.
Definition world_reliable : world := Eval vm_compute in snd run_reliable.

Definition run_vague : outcome (option dict) * world :=
  process_single_item vague (itemdata_of complete_raw) w0.
Definition item_vague : dict :=
  Eval vm_compute in
    match fst run_vague with Ret (Some item) => item | _ => [] end.
Definition world_vague : world := Eval vm_compute in snd run_vague.

Definition run_two_items : outcome store_result * world :=
  store_items_activity reliable two_items w0.
Definition result_two_items : store_result :=
  Eval vm_compute in
    match fst run_two_items with
    | Ret r => r
    | Raise _ => StoreResult "" 0 0 0 [] ""
    end.
Definition world_two_items : world := Eval vm_compute in snd run_two_items.

(** The reliable item, formatted for storage in batch 1. *)
Definition run_format : outcome dict * world :=
  format_storage_item reliable (PDict item_reliable) 1 (World 2 [] []).
Definition record_reliable : dict :=
  Eval vm_compute in match fst run_format with Ret r => r | Raise _ => [] end.
Definition world_format : world := Eval vm_compute in snd run_format.

(** A raw item whose price is no number. *)
Definition priceless_raw : dict :=
  Py.set "Case Price" (PStr "forty-five") complete_raw.

(** A document ready to be written. *)
Definition some_doc : user_doc :=
  UserDoc "user-1" "user-1" (PStr "Sysco") [] "2024-01-01T00:00:00" (Some 0%Z).

End Demo.

(* ================================================================== *)
(** * src/function_app.py: invoices and the orchestrator *)
(* ================================================================== *)

Module Invoices.
Import PyStr FunctionApp.

(** [for x in v]: what the loop visits, or the [TypeError] of a value that
    is not iterable. A [str] yields its characters, a [dict] its keys. *)
Fixpoint characters (s : string) : list pyval :=
  match s with
  | EmptyString => []
  | String c s' => PStr (String c EmptyString) :: characters s'
  end.

Definition iterate (v : pyval) : outcome (list pyval) :=
  match v with
  | PList l => Ret l
  | PStr s => Ret (characters s)
  | PDict d => Ret (map (fun kv => PStr (fst kv)) d)
  | _ =>
      Raise (Exn TypeError ("'" ++ Py.type_name v ++ "' object is not iterable"))
  end.

(** [item[key] = value] *)
Definition set_item (item : pyval) (key : string) (value : pyval)
  : outcome pyval :=
  match item with
  | PDict d => Ret (PDict (Py.set key value d))
  | PList _ =>
      Raise (Exn TypeError "list indices must be integers or slices, not str")
  | _ =>
      Raise (Exn TypeError
               ("'" ++ Py.type_name item
                ++ "' object does not support item assignment"))
  end.

(** [inv.get('List of Items') or inv.get('Items', [])] *)
Definition items_of (inv : dict) : pyval :=
  let listed := Py.get inv "List of Items" PNone in
  if Py.truthy listed then listed else Py.get inv "Items" (PList []).

(** The loop that stamps every item with the supplier and the invoice
    number of the invoice it belongs to. *)
Fixpoint stamp_items (inv : dict) (items : list pyval) : outcome (list pyval) :=
  match items with
  | [] => Ret []
  | item :: rest =>
      (item <~ set_item item "Supplier Name"
                 (Py.get inv "Supplier Name" (PStr "")) ;;
       item <~ set_item item "Invoice Number"
                 (Py.get inv "Invoice Number" (PStr "")) ;;
       more <~ stamp_items inv rest ;;
       Ret (item :: more))%py
  end.

(** [if items: for item in items: ...], giving the stamped items. *)
Definition stamped_items_of (inv : dict) : outcome (list pyval) :=
  let items := items_of inv in
  if Py.truthy items
  then (visited <~ iterate items ;; stamp_items inv visited)%py
  else Ret [].

(** The loop over [invoice['invoices']]. *)
Fixpoint collect_items (sub_invoices : list pyval) : outcome (list pyval) :=
  match sub_invoices with
  | [] => Ret []
  | PDict sub_invoice :: rest =>
      (items <~ stamped_items_of sub_invoice ;;
       more <~ collect_items rest ;;
       Ret (items ++ more)%list)%py
  | other :: _ => Raise (Py.attribute_error other "get")
  end.

(** The body of the [try] of [extract_items_from_invoice], on a dict. *)
Definition extract_items_body (invoice : dict) : outcome (list pyval) :=
  match Py.lookup "invoices" invoice with
  | Some sub_invoices =>
      (visited <~ iterate sub_invoices ;; collect_items visited)%py
  | None => stamped_items_of invoice
  end.

(** [extract_items_from_invoice]: [None] is Python's [None]. *)
Definition extract_items_from_invoice (invoice : pyval)
  : option (list pyval) :=
  match invoice with
  | PDict d =>
      match extract_items_body d with
      | Ret items => Some items
      | Raise _ => None
      end
  | _ => None
  end.

(** ** [process_items_orchestrator] *)

(** What the orchestrator asks of the runtime. A batch of
    [process_single_item] tasks is scheduled as one [task_all]. *)
Inductive activity_call :=
| CallGetUserInvoices (user_id : string)
| CallProcessBatch (batch : list itemdata)
| CallStoreItems (storedata : storedata).

Definition batch_size : nat := 10.

(** [range(0, stop, step)] *)
Definition range_step (stop step : nat) : list nat :=
  map (fun k => (k * step)%nat) (seq 0 ((stop + step - 1) / step)).

(** [[r for r in batch_results if r is not None]] *)
Definition valid_results (batch_results : list (option dict)) : list dict :=
  flat_map (fun r => match r with Some d => [d] | None => [] end)
           batch_results.

(** The entries the orchestrator builds for the items of one invoice. *)
Fixpoint item_entries (user_id : string) (invoice : pyval)
  (items : list pyval) : outcome (list itemdata) :=
  match items with
  | [] => Ret []
  | item :: rest =>
      (invoice_id <~ Py.get_attr invoice "id" PNone ;;
       supplier <~ Py.get_attr item "Supplier Name" PNone ;;
       invoice_number <~ Py.get_attr item "Invoice Number" PNone ;;
       more <~ item_entries user_id invoice rest ;;
       match item with
       | PDict d =>
           Ret (ItemData d invoice_id supplier invoice_number (PStr user_id)
                  :: more)
       | _ => Raise (Py.attribute_error item "get")
       end)%py
  end.

(** The loop over the invoices that fills [all_items]. *)
Fixpoint all_entries (user_id : string) (invoices : list pyval)
  : outcome (list itemdata) :=
  match invoices with
  | [] => Ret []
  | invoice :: rest =>
      (entries <~
         match extract_items_from_invoice invoice with
         | Some items => item_entries user_id invoice items
         | None => Ret []
         end ;;
       more <~ all_entries user_id rest ;;
       Ret (entries ++ more)%list)%py
  end.

Definition nothing_to_do (message : string) : dict :=
  [ ("status", PStr "completed"); ("message", PStr message);
    ("processed_count", PInt 0) ].

Section WithRuntime.
(** What the runtime answers: the invoices of a user, the result of the
    [k]-th item's processing ([None] is no result), and the outcome of a
    storage call. *)
Variable get_user_invoices : string -> outcome (list pyval).
Variable process_result : nat -> itemdata -> option dict.
Variable store_outcome : storedata -> outcome store_result.

(** The results of the tasks of a batch that starts at item [i]. *)
Definition batch_results (i : nat) (batch : list itemdata)
  : list (option dict) :=
  map (fun entry => process_result (fst entry) (snd entry))
      (combine (seq i (List.length batch)) batch).

(** [for i in range(0, len(all_items), batch_size)], from the starts still
    to come and the items processed so far. *)
Fixpoint run_batches (user_id : string) (all_items : list itemdata)
  (starts : list nat) (processed_items : list dict)
  : list activity_call * outcome (list dict) :=
  match starts with
  | [] => ([], Ret processed_items)
  | i :: rest =>
      let batch := firstn batch_size (skipn i all_items) in
      let valid := valid_results (batch_results i batch) in
      let processed_items := (processed_items ++ valid)%list in
      match valid with
      | [] =>
          let (calls, out) :=
            run_batches user_id all_items rest processed_items in
          (CallProcessBatch batch :: calls, out)
      | _ :: _ =>
          let storedata :=
            StoreData (map PDict valid) user_id
              (Some (Z.of_nat (i / batch_size + 1))) in
          match store_outcome storedata with
          | Raise e =>
              ([CallProcessBatch batch; CallStoreItems storedata], Raise e)
          | Ret _ =>
              let (calls, out) :=
                run_batches user_id all_items rest processed_items in
              (CallProcessBatch batch :: CallStoreItems storedata :: calls,
               out)
          end
      end
  end.

(** [process_items_orchestrator]: the calls it makes and what it returns or
    raises. Its handler logs and re-raises. *)
Definition process_items_orchestrator (instance_id user_id : string)
  : list activity_call * outcome dict :=
  match get_user_invoices user_id with
  | Raise e => ([CallGetUserInvoices user_id], Raise e)
  | Ret [] =>
      ([CallGetUserInvoices user_id],
       Ret (nothing_to_do ("No invoices found for user " ++ user_id)))
  | Ret invoices =>
      match all_entries user_id invoices with
      | Raise e => ([CallGetUserInvoices user_id], Raise e)
      | Ret [] =>
          ([CallGetUserInvoices user_id],
           Ret (nothing_to_do "No items found to process"))
      | Ret all_items =>
          let (calls, out) :=
            run_batches user_id all_items
              (range_step (List.length all_items) batch_size) [] in
          (CallGetUserInvoices user_id :: calls,
           match out with
           | Raise e => Raise e
           | Ret processed_items =>
               Ret [ ("status", PStr "completed");
                     ("processed_count",
                      PInt (Z.of_nat (List.length processed_items)));
                     ("total_items",
                      PInt (Z.of_nat (List.length all_items)));
                     ("instance_id", PStr instance_id);
                     ("user_id", PStr user_id) ]
           end)
      end
  end.

End WithRuntime.
End Invoices.

(* ================================================================== *)
(** * src/shared/names.py: the training corpus and the file pipeline *)
(* ================================================================== *)

Module Corpus.
Import PyStr Names.

(** What [json.loads] does with a text: it returns a value, raises
    [JSONDecodeError], or raises something else (the plain [ValueError] of
    an integer with too many digits, a [RecursionError] on deep nesting). *)
Inductive loaded :=
| Loaded (value : pyval)
| DecodeError (msg : string)
| OtherError (e : exn).

Section WithJson.
(** [json.loads] *)
Variable json_loads : string -> loaded.
(** [json.dumps] *)
Variable json_dumps : dict -> string.

(** [for example in category_data['examples']: if isinstance(example, dict):
    example['category'] = ...; processed_data.append(example)] *)
Fixpoint tag_examples (category : pyval) (examples : list pyval)
  : list pyval :=
  match examples with
  | [] => []
  | PDict example :: rest =>
      PDict (Py.set "category" category example) :: tag_examples category rest
  | _ :: rest => tag_examples category rest
  end.

(** What one line adds to [processed_data]. The inner handler catches
    [JSONDecodeError] only; a [Raise] is any other exception, which leaves
    the loop over the file. *)
Definition load_line (line : string) : outcome (list pyval) :=
  match json_loads (strip line) with
  | DecodeError _ => Ret []
  | OtherError e => Raise e
  | Loaded (PDict category_data) =>
      match Py.lookup "examples" category_data with
      | Some examples =>
          (visited <~ Invoices.iterate examples ;;
           Ret (tag_examples (Py.get category_data "category" (PStr ""))
                  visited))%py
      | None => Ret [PDict category_data]
      end
  | Loaded _ => Ret []
  end.

Fixpoint load_lines (lines : list string) : list pyval :=
  match lines with
  | [] => []
  | line :: rest =>
      match load_line line with
      | Ret added => (added ++ load_lines rest)%list
      | Raise _ => []
      end
  end.

(** [load_jsonl_data], on the lines of the file; [None] is a file that
    cannot be opened, and a read that fails midway is a file that ends
    there. What the lines before a failing line added stays. *)
Definition load_jsonl_data (file : option (list string)) : list pyval :=
  match file with
  | Some lines => load_lines lines
  | None => []
  end.

Variable E : env.

Definition extraction_system : string :=
  "You are an AI assistant that extracts inventory information.".

Definition extraction_prompt (standardized_name : pyval) (item : dict)
  : string :=
  join nl
  [ "Extract the following information:";
    "1. Supplier Name";
    "2. Inventory Item Name: " ++ fmt E standardized_name;
    "3. Brand";
    "4. Inventory Unit of Measure";
    "5. Item Name ";
    "6. Item Number";
    "7. Quantity In a Case";
    "8. Measurement Of Each Item";
    "9. Measured In";
    "10. Total Units";
    "11. Case Price";
    "12. Catch Weight";
    "13. Priced By";
    "14. Splitable";
    "15. Split Price";
    "16. Cost of a Unit";
    "17. Category";
    "";
    "Item data: " ++ json_dumps item;
    "Return ONLY a JSON object with the above fields." ].

(** [item_name.strip()] *)
Definition strip_value (v : pyval) : outcome string :=
  match v with
  | PStr s => Ret (strip s)
  | _ => Raise (Py.attribute_error v "strip")
  end.

(** [json.loads(content)] followed by the two assignments. *)
Definition parse_extraction (content : string)
  (standardized_name item_name : pyval) : outcome dict :=
  match json_loads content with
  | DecodeError msg => Raise (Exn ValueError msg)
  | OtherError e => Raise e
  | Loaded parsed =>
      (with_name <~ Invoices.set_item parsed "standardized_name"
                      standardized_name ;;
       with_both <~ Invoices.set_item with_name "original_name" item_name ;;
       match with_both with
       | PDict processed_item => Ret processed_item
       | _ => Raise (Exn TypeError "not a dict")
       end)%py
  end.

(** The body of the [try] of [process_inventory_item]. *)
Definition process_inventory_item_body (item : dict)
  (training_data : list pyval) : M (option dict) :=
  (let item_name := Py.get item "Item Name" (PStr "") in
   stripped <- lift (strip_value item_name) ;;
   if String.eqb stripped "" then ret None
   else
     let category := process_inventory_item_category E item in
     standardized_name <-
       standardize_item_name E item_name training_data category ;;
     content <- chat E extraction_system
                  (extraction_prompt standardized_name item) ;;
     processed_item <-
       lift (parse_extraction content standardized_name item_name) ;;
     ret (Some processed_item))%py.

Definition process_inventory_item (item : dict) (training_data : list pyval)
  : M (option dict) :=
  try_except (process_inventory_item_body item training_data)
             (fun _ => ret None).

(** The loop of [process_inventory_file] over the records of a file. *)
Fixpoint process_records (data : list dict) (training_data : list pyval)
  : M (list dict) :=
  match data with
  | [] => ret []
  | item :: rest =>
      (processed_item <- process_inventory_item item training_data ;;
       more <- process_records rest training_data ;;
       match processed_item with
       | Some d => if Py.truthy (PDict d) then ret (d :: more) else ret more
       | None => ret more
       end)%py
  end.

End WithJson.
End Corpus.

(* ================================================================== *)
(** * The vocabulary of the properties of invoices, corpus and storage *)
(* ================================================================== *)

Module Props.
Import PyStr Names FunctionApp Spec Invoices Corpus.

Definition is_dict (v : pyval) : Prop := exists d, v = PDict d.

(** The (sub-)invoices whose items an invoice document yields. *)
Definition owners (invoice : dict) : list dict :=
  match Py.lookup "invoices" invoice with
  | Some (PList subs) =>
      flat_map (fun v => match v with PDict s => [s] | _ => [] end) subs
  | Some _ => []
  | None => [invoice]
  end.

(** [item] is a dict that carries the supplier and the number of [owner]. *)
Definition stamped_by (owner : dict) (item : pyval) : Prop :=
  exists d,
    item = PDict d
    /\ Py.lookup "Supplier Name" d = Some (Py.get owner "Supplier Name" (PStr ""))
    /\ Py.lookup "Invoice Number" d
       = Some (Py.get owner "Invoice Number" (PStr "")).

(** [after] is [before] with the two stamps and nothing else changed. *)
Definition restamped (owner : dict) (before after : pyval) : Prop :=
  exists d d',
    before = PDict d /\ after = PDict d' /\ stamped_by owner after
    /\ forall key, key <> "Supplier Name" -> key <> "Invoice Number" ->
                   Py.lookup key d' = Py.lookup key d.

(** The slices the orchestrator takes of [all_items]. *)
Definition batches {A} (all_items : list A) : list (list A) :=
  map (fun i => firstn batch_size (skipn i all_items))
      (range_step (List.length all_items) batch_size).

Definition store_calls (calls : list activity_call) : list storedata :=
  flat_map (fun c => match c with CallStoreItems sd => [sd] | _ => [] end)
           calls.

Definition process_calls (calls : list activity_call) : list (list itemdata) :=
  flat_map (fun c => match c with CallProcessBatch b => [b] | _ => [] end)
           calls.

(** What is called for the [k]-th slice of ten items, counted from 0: its
    tasks and then, if a result is not [None], the storage of the results,
    numbered [k + 1]. *)
Definition batch_calls (process_result : nat -> itemdata -> option dict)
  (user : string) (all_items : list itemdata) (k : nat)
  : list activity_call :=
  let batch := firstn batch_size (skipn (k * batch_size) all_items) in
  let valid :=
    valid_results (batch_results process_result (k * batch_size) batch) in
  CallProcessBatch batch
  :: match valid with
     | [] => []
     | _ :: _ =>
         [CallStoreItems
            (StoreData (map PDict valid) user (Some (Z.of_nat (k + 1))))]
     end.

(** What the orchestrator would hand to [process_single_item] for the items
    of [invoices]. *)
Definition entry_of (user : string) (invoices : list pyval)
  (entry : itemdata) : Prop :=
  id_userId entry = PStr user
  /\ exists inv owner,
       In (PDict inv) invoices /\ In owner (owners inv)
       /\ id_invoice_id entry = Py.get inv "id" PNone
       /\ id_supplier entry = Py.get owner "Supplier Name" (PStr "")
       /\ id_invoice_number entry = Py.get owner "Invoice Number" (PStr "")
       /\ stamped_by owner (PDict (id_item entry)).

Definition extracted_count (invoice : pyval) : nat :=
  match extract_items_from_invoice invoice with
  | Some items => List.length items
  | None => 0
  end.

(** The values whose item lists an invoice document contributes. *)
Definition item_sources (invoice : dict) : list pyval :=
  match Py.lookup "invoices" invoice with
  | Some (PList subs) => subs
  | Some _ => []
  | None => [PDict invoice]
  end.

(** The items listed by a (sub-)invoice. *)
Definition listed_items (source : pyval) : list pyval :=
  match source with
  | PDict s => match items_of s with PList items => items | _ => [] end
  | _ => []
  end.

(** A (sub-)invoice that is a dict and lists dicts. *)
Definition well_formed_source (source : pyval) : Prop :=
  exists s items,
    source = PDict s /\ items_of s = PList items /\ Forall is_dict items.

Definition dicts_of (values : list pyval) : list dict :=
  flat_map (fun v => match v with PDict s => [s] | _ => [] end) values.

(** A dict whose [category] is the given value. *)
Definition tagged (category : pyval) (example : pyval) : Prop :=
  exists d, example = PDict d /\ Py.lookup "category" d = Some category.

(** A value [for] cannot loop over: [None], a boolean or a number. *)
Definition not_iterable (v : pyval) : Prop :=
  match v with
  | PList _ | PStr _ | PDict _ => False
  | _ => True
  end.

(** An example the filter can read: no dict, or a dict whose category is
    absent or a string. *)
Definition readable_example (example : pyval) : Prop :=
  match example with
  | PDict d => exists s, Py.get d "category" (PStr "") = PStr s
  | _ => True
  end.

Definition is_str (v : pyval) : Prop := exists s, v = PStr s.

(** The examples of a category, letter case ignored. *)
Definition examples_of (category : string) (training_data : list pyval)
  : list dict :=
  flat_map (fun example =>
              match example with
              | PDict d =>
                  match Py.get d "category" (PStr "") with
                  | PStr s =>
                      if String.eqb (lower s) (lower category) then [d] else []
                  | _ => []
                  end
              | _ => []
              end) training_data.

Definition after_request (w : world) (system user : string) : world :=
  World (S (tick w)) (store w) (trace w ++ [EvChat system user]).

Definition same_key (a b : user_doc) : Prop :=
  doc_id a = doc_id b /\ doc_userId a = doc_userId b.

(** [after] is the dict [before] with [category] set to the given value and
    nothing else changed. *)
Definition retagged (category : pyval) (before : dict) (after : pyval)
  : Prop :=
  exists d,
    after = PDict d
    /\ Py.lookup "category" d = Some category
    /\ forall key, key <> "category" ->
                   Py.lookup key d = Py.lookup key before.

Section WithJson.
Variable json_loads : string -> loaded.

(** A line on which [json.loads] raises [JSONDecodeError], or that holds
    JSON that is no object. *)
Definition skipped_line (line : string) : Prop :=
  match json_loads (strip line) with
  | DecodeError _ => True
  | Loaded (PDict _) => False
  | Loaded _ => True
  | OtherError _ => False
  end.

(** A line on which [json.loads] raises something else, or whose [examples]
    cannot be looped over. *)
Definition poisoned_line (line : string) : Prop :=
  (exists e, json_loads (strip line) = OtherError e)
  \/ exists category_data examples,
       json_loads (strip line) = Loaded (PDict category_data)
       /\ Py.lookup "examples" category_data = Some examples
       /\ not_iterable examples.

End WithJson.
End Props.

(* ================================================================== *)
(** * Invoices, activities and training files to run the code on *)
(* ================================================================== *)

Module Scenario.
Import PyStr Names FunctionApp Spec Invoices Corpus Props.

(** ** Invoice documents *)

Definition numbered (k : Z) : pyval :=
  PDict (Py.set "Item Number" (PStr (Py.str_of_Z k)) Demo.complete_raw).

(** A document with two sub-invoices: eleven items under [List of Items],
    one under [Items] and no invoice number. *)
Definition sysco_invoice : dict :=
  [ ("Supplier Name", PStr "Sysco");
    ("Invoice Number", PStr "A-100");
    ("List of Items",
     PList (map numbered [1; 2; 3; 4; 5; 6; 7; 8; 9; 10; 11]%Z)) ].

Definition usfoods_invoice : dict :=
  [ ("Supplier Name", PStr "US Foods");
    ("Items", PList [PDict [("Item Name", PStr "Heinz Ketchup")]]) ].

Definition nested_invoice : dict :=
  [ ("id", PStr "inv-7");
    ("invoices", PList [PDict sysco_invoice; PDict usfoods_invoice]) ].

(** A document that lists its items itself; the price of the second one is
    no number. *)
Definition direct_invoice : dict :=
  [ ("id", PStr "inv-8");
    ("Supplier Name", PStr "Sysco");
    ("Invoice Number", PStr "A-101");
    ("Items", PList [PDict Demo.nan_raw; PDict Demo.priceless_raw]) ].

(** A document one of whose items is a string. *)
Definition broken_invoice : dict :=
  [ ("id", PStr "inv-9");
    ("Supplier Name", PStr "Sysco");
    ("Items", PList [PDict Demo.complete_raw; PStr "2 cases of ketchup"]) ].

Definition empty_invoice : dict :=
  [ ("id", PStr "inv-10"); ("Items", PList []) ].

(** ** The activities behind the orchestrator *)

Definition invoices_of (user_id : string) : outcome (list pyval) :=
  if String.eqb user_id "user-1"
  then Ret [PDict nested_invoice; PDict direct_invoice]
  else if String.eqb user_id "user-2" then Ret [PDict empty_invoice]
  else if String.eqb user_id "user-3"
  then Raise (Exn LibraryError "Request rate is large")
  else Ret [].

(** [process_single_item] and [store_items_activity], each run on a fresh
    world. *)
Definition processing (E : env) (k : nat) (entry : itemdata) : option dict :=
  match fst (process_single_item E entry Demo.w0) with
  | Ret result => result
  | Raise _ => None
  end.

Definition storing (E : env) (sd : storedata) : outcome store_result :=
  fst (store_items_activity E sd Demo.w0).

(** A container that refuses every write. *)
Definition down : env := Demo.env_of Demo.helpful (fun _ => true).

Definition instance_id : string := "process_items_user-1_20240101".

Definition entries_user1 : list itemdata :=
  Eval vm_compute in
    match all_entries "user-1" [PDict nested_invoice; PDict direct_invoice] with
    | Ret entries => entries
    | Raise _ => []
    end.

Definition run_user1 : list activity_call * outcome dict :=
  process_items_orchestrator invoices_of (processing Demo.reliable)
    (storing Demo.reliable) instance_id "user-1".
Definition calls_user1 : list activity_call :=
  Eval vm_compute in fst run_user1.
Definition report_user1 : dict :=
  Eval vm_compute in match snd run_user1 with Ret d => d | Raise _ => [] end.

Definition run_down : list activity_call * outcome dict :=
  process_items_orchestrator invoices_of (processing Demo.reliable)
    (storing down) instance_id "user-1".
Definition calls_down : list activity_call :=
  Eval vm_compute in fst run_down.
Definition error_down : exn :=
  Eval vm_compute in
    match snd run_down with Raise e => e | Ret _ => Exn LibraryError "" end.

(** ** A training file *)

Definition quoted (s : string) : string := dq ++ s ++ dq.

(** A line with three examples: a dict, a number, and a dict that has a
    category of its own. *)
Definition meat_line : string :=
  "{" ++ quoted "category" ++ ": " ++ quoted "Meat" ++ ", "
  ++ quoted "examples" ++ ": [{" ++ quoted "prompt" ++ ": "
  ++ quoted "CHKN BRST DICED 10LB CS" ++ ", " ++ quoted "completion" ++ ": "
  ++ quoted "Chicken, Diced" ++ "}, 7, {" ++ quoted "category" ++ ": "
  ++ quoted "poultry" ++ ", " ++ quoted "prompt" ++ ": "
  ++ quoted "TURKEY GRND 5LB" ++ "}]}" ++ nl.

Definition flat_line : string :=
  "{" ++ quoted "category" ++ ": " ++ quoted "dairy" ++ ", "
  ++ quoted "prompt" ++ ": " ++ quoted "MILK 2% GAL" ++ "}" ++ nl.

Definition truncated_line : string := "{" ++ quoted "category" ++ ": " ++ nl.

Definition number_line : string := "42" ++ nl.

(** A number of 5000 digits, more than [int] converts from a string. *)
Definition digits_line : string :=
  String.concat "" (repeat "1" 5000) ++ nl.

Definition poisoned : string :=
  "{" ++ quoted "category" ++ ": " ++ quoted "Meat" ++ ", "
  ++ quoted "examples" ++ ": 3}" ++ nl.

Definition extraction_reply : string :=
  "{" ++ quoted "Brand" ++ ": " ++ quoted "Generic" ++ ", "
  ++ quoted "Category" ++ ": " ++ quoted "meat" ++ "}".

(** [json.loads] on the texts above. *)
Definition json_texts : dict :=
  [ (strip meat_line,
     PDict [ ("category", PStr "Meat");
             ("examples",
              PList [ PDict [ ("prompt", PStr "CHKN BRST DICED 10LB CS");
                              ("completion", PStr "Chicken, Diced") ];
                      PInt 7;
                      PDict [ ("category", PStr "poultry");
                              ("prompt", PStr "TURKEY GRND 5LB") ] ]) ]);
    (strip flat_line,
     PDict [ ("category", PStr "dairy"); ("prompt", PStr "MILK 2% GAL") ]);
    (strip number_line, PInt 42);
    (strip poisoned,
     PDict [ ("category", PStr "Meat"); ("examples", PInt 3) ]);
    (extraction_reply,
     PDict [ ("Brand", PStr "Generic"); ("Category", PStr "meat") ]) ].

Fixpoint all_digits (s : string) : bool :=
  match s with
  | EmptyString => true
  | String c s' => (in_range 48 57 c && all_digits s')%bool
  end.

(** On any other text: the [ValueError] of an integer of more than 4300
    digits, or a [JSONDecodeError]. *)
Definition json_loads (s : string) : loaded :=
  match Py.lookup s json_texts with
  | Some value => Loaded value
  | None =>
      if (all_digits s && (4300 <? String.length s)%nat)%bool
      then OtherError
             (Exn ValueError
                ("Exceeds the limit (4300 digits) for integer string "
                 ++ "conversion: value has "
                 ++ Py.str_of_Z (Z.of_nat (String.length s))
                 ++ " digits; use sys.set_int_max_str_digits() to "
                 ++ "increase the limit"))
      else DecodeError "Expecting value"
  end.

(** [json.dumps] on dicts of strings and integers. *)
Definition json_dumps (d : dict) : string :=
  "{"
  ++ join ", "
       (map (fun kv =>
               quoted (fst kv) ++ ": "
               ++ match snd kv with
                  | PStr s => quoted s
                  | PInt z => Py.str_of_Z z
                  | _ => "null"
                  end) d)
  ++ "}".

(** ** The inventory files *)

(** A model that standardizes, with blanks around its reply, and then
    extracts. *)
Definition extracting (t : nat) (system user : string) : string + string :=
  if String.eqb system standardize_system then inl "  Chicken, Diced "
  else inl extraction_reply.

Definition extractor : env := Demo.env_of extracting (fun _ => false).

Definition blank_item : dict :=
  [ ("Item Name", PStr "   "); ("Product Category", PStr "MEAT") ].

Definition run_inventory_item : outcome (option dict) * world :=
  process_inventory_item json_loads json_dumps extractor Demo.complete_raw
    Demo.training Demo.w0.
Definition inventory_item : dict :=
  Eval vm_compute in
    match fst run_inventory_item with Ret (Some d) => d | _ => [] end.
Definition world_inventory_item : world :=
  Eval vm_compute in snd run_inventory_item.

(** ** A failure that quotes a reply *)

(** The detail of a failed request that quotes what the upstream said. *)
Definition upstream_detail : string :=
  "upstream said:" ++ nl ++ "Final corrected name: sneaky".

(** A model whose evaluations fail with that detail. *)
Definition relaying (t : nat) (system user : string) : string + string :=
  if String.eqb system standardize_system then inl "Chicken Breast, Diced"
  else inr upstream_detail.

Definition proxy : env := Demo.env_of relaying (fun _ => false).

(** ** Training data the category filter cannot read *)

Definition unreadable_training : list pyval :=
  [ PDict [ ("category", PInt 3); ("prompt", PStr "MILK 2% GAL") ] ].

Definition mistrained : env :=
  Env Demo.float_of_str (fun _ => "") unreadable_training None Demo.helpful
      (utcnow_isoformat Demo.reliable) (query_items Demo.reliable)
      (upsert_fault Demo.reliable).

(** ** A container that already holds another user's document *)

Definition other_doc : user_doc :=
  UserDoc "user-9" "user-9" (PStr "Sysco") [] "2023-12-31T00:00:00" (Some 0%Z).

Definition w_other : world := World 0 [other_doc] [].

Definition run_beside : outcome store_result * world :=
  store_items_activity Demo.reliable Demo.two_items w_other.
Definition world_beside : world := Eval vm_compute in snd run_beside.
Definition result_beside : outcome store_result :=
  Eval vm_compute in fst run_beside.

End Scenario.

(** Unfolds the monad and the primitives built on it. *)
Ltac run_monad :=
  cbv beta iota zeta delta
    [bind ret raise lift try_except emit get_tick get_store put_store
     Names.chat FunctionApp.utcnow FunctionApp.new_client].

(* ================================================================== *)
(** * Facts about the string operations *)
(* ================================================================== *)

Import PyStr Names FunctionApp Spec.

Section StringFacts.

Lemma string_app_empty s : s ++ "" = s.
Proof. induction s; simpl; congruence. Qed.

Lemma string_app_assoc a b c : (a ++ b) ++ c = a ++ (b ++ c).
Proof. induction a; simpl; congruence. Qed.

(** Lowering a character never produces a colon out of something else. *)
Lemma lower_char_colon c : lower_char c = ":"%char -> c = ":"%char.
Proof.
  destruct c as [[] [] [] [] [] [] [] []]; vm_compute; intros H;
    solve [reflexivity | discriminate H].
Qed.

Lemma contains_lower_colon s :
  contains ":" (lower s) = true -> contains ":" s = true.
Proof.
  induction s as [|c s IH]; simpl; [easy|].
  intros H. apply orb_true_iff in H. apply orb_true_iff.
  destruct H as [H|H]; [left|right; auto].
  apply Ascii.eqb_eq in H. apply lower_char_colon in H. subst. reflexivity.
Qed.

Lemma prefix_contains c p s :
  String.prefix p s = true -> contains c p = true -> contains c s = true.
Proof.
  revert s. induction p as [|a p IH]; intros s Hp Hc; [discriminate|].
  destruct s as [|b s]; simpl in *; [discriminate|].
  destruct (ascii_dec a b) as [->|]; [|discriminate].
  simpl. apply orb_true_iff in Hc. apply orb_true_iff.
  destruct Hc; [left|right]; auto.
Qed.

Lemma final_line_has_colon line :
  final_line line = true -> contains ":" line = true.
Proof.
  intros H. apply contains_lower_colon.
  apply (prefix_contains ":" _ _ H). reflexivity.
Qed.

Lemma split_once_cut c s :
  contains c s = true ->
  exists before after,
    s = before ++ String c after /\ contains c before = false /\
    split_once c s = [before; after].
Proof.
  induction s as [|a s IH]; simpl; [discriminate|].
  destruct (Ascii.eqb a c) eqn:Hac; simpl.
  - intros _. apply Ascii.eqb_eq in Hac. subst.
    exists "", s. auto.
  - intros H. destruct (IH H) as (b & r & -> & Hb & Hs).
    exists (String a b), r. rewrite Hs. simpl. rewrite Hac, Hb. auto.
Qed.

Lemma split_on_no_sep c s : contains c s = false -> split_on c s = [s].
Proof.
  induction s as [|a s IH]; simpl; [easy|].
  destruct (Ascii.eqb a c); simpl; [discriminate|].
  intros H. rewrite (IH H). reflexivity.
Qed.

Lemma split_on_app c p s :
  contains c p = false ->
  split_on c (p ++ String c s) = p :: split_on c s.
Proof.
  induction p as [|a p IH]; simpl.
  - rewrite Ascii.eqb_refl. reflexivity.
  - destruct (Ascii.eqb a c); simpl; [discriminate|].
    intros H. rewrite (IH H). reflexivity.
Qed.

Lemma split_on_prepend c p s :
  contains c p = false ->
  split_on c (p ++ s) =
  match split_on c s with
  | h :: t => (p ++ h) :: t
  | [] => [p]
  end.
Proof.
  induction p as [|a p IH]; simpl.
  - intros _. destruct s as [|b s]; simpl; [reflexivity|].
    destruct (Ascii.eqb b c); [reflexivity|].
    destruct (split_on c s); reflexivity.
  - destruct (Ascii.eqb a c); simpl; [discriminate|].
    intros H. rewrite (IH H). destruct (split_on c s); reflexivity.
Qed.

(** Splitting undoes joining, and joining undoes splitting. *)
Lemma split_on_join lines :
  lines <> [] -> Forall no_newline lines ->
  split_on newline (join nl lines) = lines.
Proof.
  induction lines as [|p rest IH]; [congruence|].
  intros _ Hall. inversion Hall as [|? ? Hp Hrest]; subst.
  destruct rest as [|q rest].
  - simpl. apply split_on_no_sep, Hp.
  - change (join nl (p :: q :: rest))
      with (p ++ String newline (join nl (q :: rest))).
    rewrite split_on_app by exact Hp.
    rewrite IH; [reflexivity|discriminate|assumption].
Qed.

Lemma join_split_on text :
  split_on newline text <> []
  /\ Forall no_newline (split_on newline text)
  /\ join nl (split_on newline text) = text.
Proof.
  induction text as [|c s IH]; simpl.
  - repeat split; [discriminate|repeat constructor].
  - destruct IH as (Hne & Hall & Hjoin).
    destruct (Ascii.eqb c newline) eqn:Hc.
    + apply Ascii.eqb_eq in Hc. subst c.
      split; [discriminate|]. split; [constructor; [reflexivity|exact Hall]|].
      destruct (split_on newline s) as [|h t]; [congruence|].
      change (join nl ("" :: h :: t)) with (String newline (join nl (h :: t))).
      rewrite Hjoin. reflexivity.
    + destruct (split_on newline s) as [|h t]; [congruence|].
      apply Forall_cons_iff in Hall. destruct Hall as [Hh Ht].
      split; [discriminate|]. split.
      * constructor; [|exact Ht]. unfold no_newline in *. simpl.
        rewrite Hc, Hh. reflexivity.
      * rewrite <- Hjoin. destruct t; reflexivity.
Qed.

Lemma hd_split_on c s : hd "" (split_on c s) = before_first c s.
Proof.
  induction s as [|a s IH]; simpl; [reflexivity|].
  destruct (Ascii.eqb a c); [reflexivity|].
  destruct (split_on c s); simpl in *; congruence.
Qed.

Lemma length_split_on c s :
  contains c s = true -> (1 <? List.length (split_on c s))%nat = true.
Proof.
  induction s as [|a s IH]; simpl; [discriminate|].
  destruct (Ascii.eqb a c); simpl.
  - intros _. destruct (split_on c s) eqn:Hs; [|reflexivity].
    destruct s as [|b s]; simpl in Hs; [discriminate|].
    destruct (Ascii.eqb b c); [discriminate|].
    destruct (split_on c s); discriminate.
  - intros H. specialize (IH H).
    destruct (split_on c s); simpl in *; [discriminate|exact IH].
Qed.

Lemma replace_same c s : replace c c s = s.
Proof.
  induction s as [|a s IH]; simpl; [reflexivity|].
  rewrite IH. destruct (Ascii.eqb a c) eqn:H; [|reflexivity].
  apply Ascii.eqb_eq in H. congruence.
Qed.

(** [split()] starts with the first word, when there is one. *)
Lemma split_ws_aux_word w s :
  exists rest, split_ws_aux (Some w) s = (w ++ word_end s) :: rest.
Proof.
  revert w. induction s as [|a s IH]; intros w; simpl.
  - rewrite string_app_empty. eauto.
  - destruct (is_space a).
    + rewrite string_app_empty. eauto.
    + destruct (IH (w ++ String a "")) as [rest Hr]. rewrite Hr.
      rewrite string_app_assoc. simpl. eauto.
Qed.

Lemma split_ws_first_word s :
  match first_word s with
  | EmptyString => split_ws s = []
  | word => exists rest, split_ws s = word :: rest
  end.
Proof.
  unfold split_ws, first_word.
  induction s as [|a s IH]; simpl; [reflexivity|].
  destruct (is_space a) eqn:Ha; [exact IH|].
  simpl. rewrite Ha.
  destruct (split_ws_aux_word (String a "") s) as [rest Hr].
  rewrite Hr. simpl. eauto.
Qed.

Lemma blank_has_no_visible_char c s :
  is_space c = false -> first_word s = "" -> contains c s = false.
Proof.
  intros Hc. unfold first_word.
  induction s as [|a s IH]; simpl; [reflexivity|].
  destruct (is_space a) eqn:Ha.
  - intros H. rewrite (IH H), orb_false_r.
    destruct (Ascii.eqb a c) eqn:Hac; [|reflexivity].
    apply Ascii.eqb_eq in Hac. congruence.
  - simpl. rewrite Ha. discriminate.
Qed.

(** [strip] removes the blanks at the two ends, and nothing else. *)
Lemma lstrip_split s :
  exists lead,
    s = lead ++ lstrip s /\ blank lead = true
    /\ starts_visible (lstrip s) = true.
Proof.
  induction s as [|c s (lead & Hs & Hl & Hv)].
  - exists "". auto.
  - simpl. destruct (is_space c) eqn:Hc.
    + exists (String c lead). simpl. rewrite Hc, Hl, <- Hs. auto.
    + exists "". simpl. rewrite Hc. auto.
Qed.

Lemma rstrip_split s :
  exists trail,
    s = rstrip s ++ trail /\ blank trail = true
    /\ ends_visible (rstrip s) = true
    /\ (starts_visible s = true -> starts_visible (rstrip s) = true).
Proof.
  induction s as [|c s (trail & Hs & Ht & Hv & _)].
  - exists "". auto.
  - simpl. destruct (rstrip s) as [|b r] eqn:Hr.
    + simpl in Hs. destruct (is_space c) eqn:Hc.
      * exists (String c trail). simpl. rewrite Hc, Ht, <- Hs.
        repeat split; auto.
      * exists trail. simpl. rewrite Hc.
        split; [congruence|]. auto.
    + exists trail. split; [simpl; rewrite Hs; reflexivity|].
      split; [exact Ht|]. split; [exact Hv|]. simpl. auto.
Qed.

Lemma strip_trimmed s : trimmed s (strip s).
Proof.
  unfold strip.
  destruct (lstrip_split s) as (lead & Hs & Hl & Hv).
  destruct (rstrip_split (lstrip s)) as (trail & Hs' & Ht & He & Hkeep).
  exists lead, trail. split; [rewrite <- Hs'; exact Hs|]. auto.
Qed.

End StringFacts.

(* ================================================================== *)
(** * Facts about [names.py] *)
(* ================================================================== *)

Section NamesFacts.

Lemma scan_lines_skip pre rest :
  Forall (fun l => final_line l = false) pre ->
  scan_lines (pre ++ rest)%list = scan_lines rest.
Proof.
  induction 1 as [|l pre Hl _ IH]; simpl; [reflexivity|].
  unfold final_line, label in Hl. rewrite Hl. exact IH.
Qed.

Lemma scan_lines_hit line post :
  final_line line = true ->
  exists before after,
    line = before ++ ":" ++ after /\ contains ":" before = false /\
    scan_lines (line :: post) = Ret (Some (strip after)).
Proof.
  intros H. destruct (split_once_cut ":" line (final_line_has_colon _ H))
    as (b & a & Hl & Hb & Hs).
  exists b, a. repeat split; auto.
  simpl. unfold final_line, label in H. rewrite H, Hs. reflexivity.
Qed.

(** The [IndexError] of [line.split(":", 1)[1]] cannot happen. *)
Lemma scan_lines_total ls : exists r, scan_lines ls = Ret r.
Proof.
  induction ls as [|l ls IH]; simpl; [eauto|].
  destruct (startswith _ (lower l)) eqn:H; [|exact IH].
  destruct (scan_lines_hit l ls H) as (b & a & _ & _ & Hs).
  simpl in Hs. rewrite H in Hs. eauto.
Qed.

(** The first line of an [Error:] sentinel is never the labelled one. *)
Lemma sentinel_not_extracted detail :
  Forall (fun l => final_line l = false) (tl (split_on newline detail)) ->
  extract_final_name ("Error: " ++ detail) = None.
Proof.
  intros H. unfold extract_final_name.
  rewrite split_on_prepend by reflexivity.
  destruct (split_on newline detail) as [|h t] eqn:Hs.
  - reflexivity.
  - simpl in H.
    change ((("Error: " ++ h) :: t)) with ([("Error: " ++ h)%string] ++ t)%list.
    rewrite scan_lines_skip.
    + rewrite <- (app_nil_r t). rewrite (scan_lines_skip _ _ H). reflexivity.
    + constructor; [reflexivity|constructor].
Qed.

(** A scan that finds nothing met no labelled line. *)
Lemma scan_lines_none ls :
  scan_lines ls = Ret None -> Forall (fun l => final_line l = false) ls.
Proof.
  induction ls as [|l ls IH]; [constructor|].
  destruct (final_line l) eqn:Hl.
  - destruct (scan_lines_hit l ls Hl) as (b & a & _ & _ & Hs).
    rewrite Hs. discriminate.
  - intros H. constructor; [exact Hl|]. apply IH.
    rewrite <- H. symmetry.
    exact (scan_lines_skip [l] ls (Forall_cons l Hl (Forall_nil _))).
Qed.

(** An [Error:] sentinel is scanned as the lines of its detail after the
    first. *)
Lemma sentinel_extracted_iff detail :
  extract_final_name ("Error: " ++ detail) = None
  <-> Forall (fun l => final_line l = false) (tl (split_on newline detail)).
Proof.
  split; [|apply sentinel_not_extracted].
  unfold extract_final_name. rewrite split_on_prepend by reflexivity.
  destruct (split_on newline detail) as [|h t] eqn:Hs; [constructor|].
  cbn [tl].
  change ((("Error: " ++ h) :: t)) with ([("Error: " ++ h)%string] ++ t)%list.
  rewrite scan_lines_skip by (constructor; [reflexivity|constructor]).
  destruct (scan_lines_total t) as [[n|] Hr]; rewrite Hr; [discriminate|].
  intros _. apply scan_lines_none, Hr.
Qed.

End NamesFacts.

(* ================================================================== *)
(** * Facts about the monad *)
(* ================================================================== *)

Section MonadFacts.

Lemma bind_ret_inv {A B} (m : M A) (k : A -> M B) w b w' :
  bind m k w = (Ret b, w') ->
  exists a w1, m w = (Ret a, w1) /\ k a w1 = (Ret b, w').
Proof.
  unfold bind. destruct (m w) as [[a|e] w1]; [eauto|discriminate].
Qed.

Lemma lift_ret_inv {A} (o : outcome A) w a w' :
  lift o w = (Ret a, w') -> o = Ret a /\ w' = w.
Proof. unfold lift. intros H. injection H as -> ->. auto. Qed.

Lemma preserves_bind {A B} I (m : M A) (k : A -> M B) :
  preserves I m -> (forall a, preserves I (k a)) -> preserves I (bind m k).
Proof.
  intros Hm Hk w o w'. unfold bind.
  destruct (m w) as [[a|e] w1] eqn:Hmw; intros H Hw.
  - eapply Hk; eauto.
  - injection H as <- <-. eauto.
Qed.

Lemma preserves_try {A} I (m : M A) (h : exn -> M A) :
  preserves I m -> (forall e, preserves I (h e)) ->
  preserves I (try_except m h).
Proof.
  intros Hm Hh w o w'. unfold try_except.
  destruct (m w) as [[a|e] w1] eqn:Hmw; intros H Hw.
  - injection H as <- <-. eauto.
  - eapply Hh; eauto.
Qed.

Lemma preserves_pure {A} I (o : outcome A) : preserves I (lift o).
Proof. intros w o' w' H. injection H as <- <-. auto. Qed.

Lemma preserves_ret {A} I (a : A) : preserves I (ret a).
Proof. intros w o' w' H. injection H as <- <-. auto. Qed.

Lemma preserves_raise {A} I e : preserves I (@raise A e).
Proof. intros w o' w' H. injection H as <- <-. auto. Qed.

End MonadFacts.

(** ** What leaves the stored documents alone *)

Section StoreUntouched.
Variable E : env.
Variable P : list user_doc -> Prop.

Lemma preserves_emit ev : preserves (on_store P) (emit ev).
Proof. intros w o w' H. injection H as <- <-. auto. Qed.

Lemma preserves_get_tick : preserves (on_store P) get_tick.
Proof. intros w o w' H. injection H as <- <-. auto. Qed.

Lemma preserves_get_store : preserves (on_store P) get_store.
Proof. intros w o w' H. injection H as <- <-. auto. Qed.

Lemma preserves_chat system user : preserves (on_store P) (chat E system user).
Proof.
  unfold chat. apply preserves_bind; [apply preserves_get_tick|]. intros t.
  apply preserves_bind; [apply preserves_emit|]. intros _.
  destruct (chat_create E t system user);
    [apply preserves_ret|apply preserves_raise].
Qed.

Lemma preserves_utcnow : preserves (on_store P) (utcnow E).
Proof.
  unfold utcnow. apply preserves_bind; [apply preserves_get_tick|]. intros t.
  apply preserves_bind; [apply preserves_emit|]. intros _. apply preserves_ret.
Qed.

Lemma preserves_standardize d td c :
  preserves (on_store P) (standardize_item_name E d td c).
Proof.
  unfold standardize_item_name.
  apply preserves_bind; [apply preserves_pure|]. intros ex.
  apply preserves_bind; [apply preserves_pure|]. intros ru.
  apply preserves_try.
  - apply preserves_bind; [apply preserves_chat|]. intros; apply preserves_ret.
  - intros; apply preserves_ret.
Qed.

Lemma preserves_evaluate s o c td :
  preserves (on_store P) (evaluate_and_correct_item_name E s o c td).
Proof.
  unfold evaluate_and_correct_item_name, evaluate_body.
  apply preserves_try; [|intros; apply preserves_ret].
  apply preserves_bind; [apply preserves_pure|]. intros ex.
  apply preserves_bind; [apply preserves_pure|]. intros ru.
  apply preserves_bind; [apply preserves_chat|]. intros; apply preserves_ret.
Qed.

Lemma preserves_process_single_item itemdata :
  preserves (on_store P) (process_single_item E itemdata).
Proof.
  unfold process_single_item, process_single_item_body, new_client.
  apply preserves_try; [|intros; apply preserves_ret].
  apply preserves_bind; [|intros; apply preserves_ret].
  apply preserves_bind.
  { destruct (client_init_error E); [apply preserves_raise|apply preserves_ret]. }
  intros _. apply preserves_bind; [apply preserves_pure|]. intros p.
  apply preserves_bind; [apply preserves_standardize|]. intros s0.
  apply preserves_bind; [apply preserves_evaluate|]. intros e1.
  apply preserves_bind; [apply preserves_evaluate|]. intros e2.
  destruct (Py.truthy _); apply preserves_ret.
Qed.

Lemma preserves_format item b :
  preserves (on_store P) (format_storage_item E item b).
Proof.
  unfold format_storage_item. destruct item; try apply preserves_raise.
  repeat (apply preserves_bind; [apply preserves_pure|]; intros ?).
  apply preserves_bind; [apply preserves_utcnow|]. intros; apply preserves_ret.
Qed.

Lemma preserves_store_one uid b idx item st :
  preserves (on_store P) (store_one E uid b idx item st).
Proof.
  unfold store_one. apply preserves_try; [|intros; apply preserves_ret].
  destruct (negb (Py.truthy item)); [apply preserves_ret|].
  apply preserves_bind; [apply preserves_format|]. intros si.
  destruct (validate_storage_item si); apply preserves_ret.
Qed.

Lemma preserves_store_loop uid b items :
  forall idx st, preserves (on_store P) (store_loop E uid b idx items st).
Proof.
  induction items as [|item rest IH]; intros idx st; simpl.
  - apply preserves_ret.
  - apply preserves_bind; [apply preserves_store_one|]. intros st'. apply IH.
Qed.

Lemma preserves_run_query q : preserves (on_store P) (run_query E q).
Proof.
  unfold run_query. apply preserves_bind; [apply preserves_get_tick|].
  intros t. apply preserves_bind; [apply preserves_get_store|]. intros docs.
  apply preserves_bind; [apply preserves_emit|]. intros _.
  destruct (query_items E t docs q); [apply preserves_ret|apply preserves_raise].
Qed.

Lemma preserves_get_or_create docs uid items :
  preserves (on_store P) (get_or_create_user_doc E docs uid items).
Proof.
  unfold get_or_create_user_doc. destruct docs; [|apply preserves_ret].
  apply preserves_bind.
  { destruct items; [apply preserves_ret|apply preserves_pure]. }
  intros s. apply preserves_bind; [apply preserves_utcnow|].
  intros; apply preserves_ret.
Qed.

Lemma preserves_sleep g s : preserves (on_store P) (asyncio_sleep g s).
Proof.
  unfold asyncio_sleep. destruct (existsb _ g);
    [apply preserves_emit|apply preserves_raise].
Qed.

End StoreUntouched.

(* ================================================================== *)
(** * Facts about [function_app.py] *)
(* ================================================================== *)

Section ValidationFacts.

Lemma check_required_forallb item fields :
  check_required item fields =
  forallb (fun field => Py.truthy (Py.get item field PNone)) fields.
Proof.
  induction fields as [|f fs IH]; simpl; [reflexivity|].
  destruct (Py.truthy _); simpl; auto.
Qed.

Lemma check_numeric_forallb item fields :
  check_numeric item fields =
  forallb (fun field =>
             (is_int_or_float (Py.get item field PNone)
              && negb (lt_zero (Py.get item field PNone)))%bool) fields.
Proof.
  induction fields as [|f fs IH]; simpl; [reflexivity|].
  destruct (is_int_or_float _), (lt_zero _); simpl; auto.
Qed.

Lemma ge_zero_passes v :
  ge_zero v = true -> is_int_or_float v = true /\ lt_zero v = false.
Proof.
  destruct v as [| |z|f| | |]; simpl; try discriminate; auto.
  - intros H. split; [reflexivity|]. apply Z.ltb_ge, Z.leb_le, H.
  - intros H. split; [reflexivity|].
    destruct f as [[]|[]| |[] m e]; try reflexivity; discriminate H.
Qed.

Lemma passes_ge_zero_or_nan v :
  is_int_or_float v = true -> lt_zero v = false ->
  ge_zero v = true \/ is_nan v = true.
Proof.
  destruct v as [| |z|f| | |]; simpl; try discriminate; auto.
  - intros _ H. left. apply Z.leb_le, Z.ltb_ge, H.
  - intros _ H.
    destruct f as [[]|[]| |[] m e]; auto; discriminate H.
Qed.

Lemma forallb_false_witness {A} (f : A -> bool) l :
  forallb f l = false -> exists x, In x l /\ f x = false.
Proof.
  induction l as [|a l IH]; simpl; [discriminate|].
  destruct (f a) eqn:Ha; simpl.
  - intros H. destruct (IH H) as (x & Hx & Hfx). eauto.
  - eauto.
Qed.

(** Every record the specification accepts, the validator accepts. *)
Lemma acceptable_is_valid item :
  acceptable item = true -> validate_storage_item item = true.
Proof.
  unfold acceptable, validate_storage_item.
  rewrite check_required_forallb, check_numeric_forallb.
  intros H. apply andb_true_iff in H. destruct H as [-> Hn].
  rewrite forallb_forall in *. intros f Hf.
  destruct (ge_zero_passes _ (Hn f Hf)) as [-> ->]. reflexivity.
Qed.

(** The validator accepts nothing else, but for a NaN in a numeric field. *)
Lemma valid_is_acceptable_or_nan item :
  validate_storage_item item = true ->
  acceptable item = true
  \/ exists field,
       In field numeric_fields /\ is_nan (Py.get item field PNone) = true.
Proof.
  unfold acceptable, validate_storage_item.
  rewrite check_required_forallb, check_numeric_forallb.
  destruct (forallb _ required_fields); [|discriminate].
  cbv iota. rewrite andb_true_l. intros H.
  destruct (forallb (fun field => ge_zero (Py.get item field PNone))
              numeric_fields) eqn:Hg; [auto|right].
  destruct (forallb_false_witness _ _ Hg) as (f & Hf & Hneg).
  exists f. split; [exact Hf|].
  rewrite forallb_forall in H. specialize (H f Hf).
  apply andb_true_iff in H. destruct H as [Hnum Hlt].
  apply negb_true_iff in Hlt.
  destruct (passes_ge_zero_or_nan _ Hnum Hlt) as [Hge|Hnan]; [|exact Hnan].
  rewrite Hge in Hneg. discriminate.
Qed.

End ValidationFacts.

Section ProcessFacts.
Variable E : env.

Lemma evaluate_returns sn on cat td w :
  exists r w', evaluate_and_correct_item_name E sn on cat td w = (Ret r, w').
Proof.
  unfold evaluate_and_correct_item_name, try_except.
  destruct (evaluate_body E sn on cat td w) as [[r|e] w']; unfold ret; eauto.
Qed.

(** The dict [processed_item], when every coercion succeeds. *)
Lemma map_raw_item_inv itemdata p :
  map_raw_item E itemdata = Ret p ->
  let item := id_item itemdata in
  exists quantity measurement units price cost,
    py_float E (Py.get item "Quantity In a Case" (PInt 0)) = Ret quantity /\
    py_float E (Py.get item "Measurement Of Each Item" (PInt 0))
    = Ret measurement /\
    py_float E (Py.get item "Total Units Ordered" (PInt 0)) = Ret units /\
    py_float E (Py.get item "Case Price" (PInt 0)) = Ret price /\
    py_float E (Py.get item "Cost of a Unit" (PInt 0)) = Ret cost /\
    p = [ ("supplier", id_supplier itemdata);
          ("invoice_id", id_invoice_id itemdata);
          ("invoice_number", id_invoice_number itemdata);
          ("userId", id_userId itemdata);
          ("itemName", Py.get item "Item Name" (PStr ""));
          ("itemNumber", Py.get item "Item Number" (PStr ""));
          ("quantityInCase", PFloat quantity);
          ("measurementOfEachItem", PFloat measurement);
          ("measuredIn", Py.get item "Measured In" (PStr ""));
          ("totalUnitsOrdered", PFloat units);
          ("casePrice", PFloat price);
          ("catchWeight", Py.get item "Catch Weight" (PStr "N/A"));
          ("pricedBy", Py.get item "Priced By" (PStr ""));
          ("splitable", Py.get item "Splitable" (PStr "NO"));
          ("splitPrice", Py.get item "Split Price" (PStr "N/A"));
          ("costOfUnit", PFloat cost);
          ("productCategory", Py.get item "Product Category" (PStr "")) ].
Proof.
  unfold map_raw_item. intros Hp.
  repeat match type of Hp with
  | context [obind (py_float E ?x) _] =>
      let F := fresh "F" in
      destruct (py_float E x) eqn:F; simpl in Hp; [|discriminate]
  end.
  injection Hp as <-. cbv zeta. do 5 eexists. repeat split.
Qed.

(** One coercion that raises makes the whole literal raise. *)
Lemma map_raw_item_raises itemdata field v e :
  In field (map fst raw_numeric_fields) ->
  Py.lookup field (id_item itemdata) = Some v ->
  py_float E v = Raise e ->
  exists e', map_raw_item E itemdata = Raise e'.
Proof.
  intros Hin Hl Hf. unfold map_raw_item.
  simpl in Hin.
  repeat match goal with
  | |- context [obind (py_float E ?x) _] =>
      let F := fresh "F" in
      destruct (py_float E x) eqn:F; simpl; [|eauto]
  end.
  exfalso.
  unfold Py.get in *.
  repeat destruct Hin as [<-|Hin]; try contradiction;
    rewrite Hl in *; congruence.
Qed.

(** What the formatter stores as the inventory name. *)
Lemma format_storage_item_name item b w record w' :
  format_storage_item E (PDict item) b w = (Ret record, w') ->
  Py.lookup "Inventory Item Name" record =
  Some (Py.get item "final_corrected_name" (Py.get item "itemName" (PStr ""))).
Proof.
  unfold format_storage_item. intros H.
  repeat (apply bind_ret_inv in H; destruct H as (? & ? & _ & H)).
  injection H as <- _. reflexivity.
Qed.

End ProcessFacts.

Section StoreFacts.
Variable E : env.

Lemma In_upsert_doc body docs : In body (upsert_doc body docs).
Proof.
  induction docs as [|d rest IH]; simpl; [auto|].
  destruct (_ && _)%bool; simpl; auto.
Qed.

Lemma upsert_doc_elems body docs d :
  In d (upsert_doc body docs) -> d = body \/ In d docs.
Proof.
  induction docs as [|x rest IH]; simpl.
  - intros [H|[]]; auto.
  - destruct (_ && _)%bool; simpl; intros [H|H]; auto.
    destruct (IH H); auto.
Qed.

Lemma Forall_upsert_doc (Q : user_doc -> Prop) body docs :
  Q body -> Forall Q docs -> Forall Q (upsert_doc body docs).
Proof.
  intros Hb Hd. apply Forall_forall. intros d Hin.
  destruct (upsert_doc_elems _ _ _ Hin) as [->|H]; [assumption|].
  rewrite Forall_forall in Hd. auto.
Qed.

Lemma preserves_upsert_item body :
  counted body -> preserves all_counted (upsert_item E body).
Proof.
  intros Hb w o w'. unfold upsert_item. run_monad.
  destruct (upsert_fault E (tick w) body); intros H Hw;
    injection H as <- <-; [exact Hw|].
  apply Forall_upsert_doc; assumption.
Qed.

Lemma preserves_upsert_with_retry g body :
  counted body ->
  forall attempts, preserves all_counted (upsert_with_retry E g attempts body).
Proof.
  intros Hb. induction attempts as [|a rest IH]; simpl.
  - apply preserves_ret.
  - apply preserves_bind.
    + apply preserves_try.
      * apply preserves_bind; [apply preserves_upsert_item, Hb|].
        intros; apply preserves_ret.
      * intros e. destruct (Nat.eqb a _); [apply preserves_raise|].
        apply preserves_bind; [|intros; apply preserves_ret].
        apply (preserves_sleep (Forall counted)).
    + intros [|]; [apply preserves_ret|apply IH].
Qed.

(** The activity, whatever its outcome, keeps every stored document
    counted. *)
Lemma preserves_store_items_activity g sd :
  preserves all_counted (store_items_activity_in E g sd).
Proof.
  unfold store_items_activity_in.
  apply preserves_bind; [apply (preserves_run_query E (Forall counted))|].
  intros docs.
  apply preserves_bind; [apply (preserves_get_or_create E (Forall counted))|].
  intros doc.
  apply preserves_bind; [apply (preserves_store_loop E (Forall counted))|].
  intros st.
  apply preserves_bind; [apply (preserves_utcnow E (Forall counted))|].
  intros ts.
  apply preserves_bind; [|intros; apply preserves_ret].
  apply preserves_upsert_with_retry. reflexivity.
Qed.

(** The retry loop as the module runs it: [asyncio] is not among its
    globals, so a failed first attempt ends in a [NameError]. *)
Lemma upsert_with_retry_run body w :
  upsert_with_retry E function_app_globals (seq 0 max_retries) body w =
  match upsert_fault E (tick w) body with
  | None =>
      (Ret tt, World (S (tick w)) (upsert_doc body (store w))
                 (trace w ++ [EvUpsert body true]))
  | Some _ =>
      (Raise (Exn NameError "name 'asyncio' is not defined"),
       World (S (tick w)) (store w) (trace w ++ [EvUpsert body false]))
  end.
Proof.
  cbn [seq max_retries upsert_with_retry]. unfold upsert_item, asyncio_sleep.
  run_monad.
  destruct (upsert_fault E (tick w) body); reflexivity.
Qed.

(** With [asyncio] bound, the same loop makes three attempts, sleeps
    between them and raises the last fault. *)
Lemma upsert_with_retry_asyncio_bound body w m1 m2 m3 :
  upsert_fault E (tick w) body = Some m1 ->
  upsert_fault E (S (S (tick w))) body = Some m2 ->
  upsert_fault E (S (S (S (S (tick w))))) body = Some m3 ->
  upsert_with_retry E ("asyncio" :: function_app_globals)
    (seq 0 max_retries) body w =
  (Raise (Exn LibraryError m3),
   World (S (S (S (S (S (tick w)))))) (store w)
     (trace w ++ [EvUpsert body false; EvSleep 1; EvUpsert body false;
                  EvSleep 1; EvUpsert body false])).
Proof.
  intros H1 H2 H3.
  cbn [seq max_retries upsert_with_retry]. unfold upsert_item, asyncio_sleep.
  run_monad. rewrite H1. cbn -[upsert_fault]. rewrite H2.
  cbn -[upsert_fault]. rewrite H3. cbn.
  repeat rewrite <- app_assoc. reflexivity.
Qed.

(** One turn of the loop: the item is skipped, stored, or rejected with one
    error string; the turn itself never raises. *)
Lemma store_one_cases uid b idx item st w :
  exists st' w',
    store_one E uid b idx item st w = (Ret st', w') /\ store w' = store w /\
    ((is_empty_item item = true /\ st' = st)
     \/ (is_empty_item item = false /\
         exists record,
           validate_storage_item record = true /\
           st' = LoopState (ls_items st ++ [record]) (S (ls_stored_count st))
                   (ls_errors st))
     \/ (is_empty_item item = false /\
         exists msg,
           st' = LoopState (ls_items st) (ls_stored_count st)
                   (ls_errors st ++ [msg]))).
Proof.
  assert (Hst : forall o w', store_one E uid b idx item st w = (o, w') ->
                             store w' = store w).
  { intros o w' H.
    exact (preserves_store_one E (fun s => s = store w) uid b idx item st
             w o w' H eq_refl). }
  revert Hst. unfold store_one, try_except, bind, is_empty_item.
  destruct (negb (Py.truthy item)); intros Hst.
  - do 2 eexists. split; [reflexivity|]. split; [eapply Hst; reflexivity|].
    left. auto.
  - destruct (format_storage_item E item b w) as [[record|e] w1].
    + destruct (validate_storage_item record) eqn:Hv.
      * do 2 eexists. split; [reflexivity|].
        split; [eapply Hst; reflexivity|]. right. left. eauto.
      * do 2 eexists. split; [reflexivity|].
        split; [eapply Hst; reflexivity|]. right. right. eauto.
    + do 2 eexists. split; [reflexivity|].
      split; [eapply Hst; reflexivity|]. right. right. eauto.
Qed.

Lemma store_loop_spec uid b items :
  forall idx st w,
  exists st' w' new,
    store_loop E uid b idx items st w = (Ret st', w') /\ store w' = store w /\
    ls_items st' = (ls_items st ++ new)%list /\
    Forall (fun record => validate_storage_item record = true) new /\
    ls_stored_count st' = (ls_stored_count st + List.length new)%nat /\
    (ls_stored_count st' + List.length (ls_errors st')
     + List.length (filter is_empty_item items)
     = ls_stored_count st + List.length (ls_errors st) + List.length items)%nat.
Proof.
  induction items as [|item rest IH]; intros idx st w.
  - exists st, w, []. simpl. rewrite app_nil_r.
    repeat split; auto; lia.
  - destruct (store_one_cases uid b idx item st w)
      as (st1 & w1 & Hone & Hs1 & Hcase).
    destruct (IH (S idx) st1 w1)
      as (st' & w' & new & Hrun & Hs & Hitems & Hval & Hcnt & Hsum).
    cbn [store_loop]. unfold bind. rewrite Hone.
    destruct Hcase as [[He ->]|[[He (record & Hv & ->)]|[He (msg & ->)]]];
      cbn [ls_items ls_stored_count ls_errors] in *.
    + exists st', w', new. rewrite Hrun. simpl filter. rewrite He.
      simpl. repeat split; auto; try congruence; lia.
    + exists st', w', (record :: new). rewrite Hrun. simpl filter. rewrite He.
      rewrite <- app_assoc in Hitems. simpl in *.
      repeat split; auto; try congruence; lia.
    + exists st', w', new. rewrite Hrun. simpl filter. rewrite He.
      rewrite length_app in Hsum. simpl in *.
      repeat split; auto; try congruence; lia.
Qed.

(** A run of the activity that returns, taken apart. *)
Lemma store_items_activity_inv sd w r w' :
  store_items_activity E sd w = (Ret r, w') ->
  exists (doc0 : user_doc) (new : list dict) (errs : list string) (w3 : world),
    doc_items doc0 = existing_items E sd w /\
    Forall (fun record => validate_storage_item record = true) new /\
    (List.length new + List.length errs
     + List.length (filter is_empty_item (sd_items sd))
     = List.length (sd_items sd))%nat /\
    let timestamp := utcnow_isoformat E (tick w3) in
    let items := (doc_items doc0 ++ new)%list in
    let doc :=
      UserDoc (doc_id doc0) (doc_userId doc0) (doc_supplier_name doc0)
        items timestamp (Some (Z.of_nat (List.length items))) in
    w' = World (S (S (tick w3))) (upsert_doc doc (store w))
           (trace w3 ++ [EvClock timestamp; EvUpsert doc true]) /\
    r = StoreResult
          (batch_status (List.length new) (List.length (sd_items sd)))
          (batch_number sd) (List.length new) (List.length (sd_items sd))
          errs (sd_user_id sd).
Proof.
  unfold store_items_activity, store_items_activity_in. intros H.
  apply bind_ret_inv in H. destruct H as (docs & w1 & Hq & H).
  apply bind_ret_inv in H. destruct H as (doc0 & w2 & Hdoc & H).
  apply bind_ret_inv in H. destruct H as (st & w3 & Hloop & H).
  apply bind_ret_inv in H. destruct H as (ts & w4 & Hclock & H).
  apply bind_ret_inv in H. destruct H as ([] & w5 & Hup & H).
  injection H as <- <-.
  assert (Hs1 : store w1 = store w).
  { exact (preserves_run_query E (fun s => s = store w) _ w _ w1 Hq eq_refl). }
  assert (Hs2 : store w2 = store w).
  { rewrite <- Hs1.
    exact (preserves_get_or_create E (fun s => s = store w1) _ _ _ w1 _ w2
             Hdoc eq_refl). }
  destruct (store_loop_spec (sd_user_id sd)
              match sd_batch sd with Some b => b | None => 0%Z end
              (sd_items sd) 0 (LoopState (doc_items doc0) 0 []) w2)
    as (st' & w3' & new & Hrun & Hs3 & Hitems & Hval & Hcnt & Hsum).
  rewrite Hloop in Hrun. injection Hrun as <- <-.
  cbn [ls_items ls_stored_count ls_errors] in *.
  unfold utcnow in Hclock. revert Hclock. run_monad.
  intros Hclock. injection Hclock as <- <-.
  rewrite upsert_with_retry_run in Hup. cbn [tick store trace] in Hup.
  destruct (upsert_fault E _ _); [discriminate|].
  injection Hup as <-.
  exists doc0, new, (ls_errors st), w3.
  split.
  { unfold existing_items. revert Hq. unfold run_query. run_monad.
    destruct (query_items E (tick w) (store w) _) as [found|msg];
      [|discriminate].
    intros Hq. injection Hq as <- <-.
    revert Hdoc. unfold get_or_create_user_doc.
    destruct found as [|d rest].
    - intros Hdoc. apply bind_ret_inv in Hdoc.
      destruct Hdoc as (s & wa & _ & Hdoc).
      apply bind_ret_inv in Hdoc. destruct Hdoc as (t & wb & _ & Hdoc).
      injection Hdoc as <- _. reflexivity.
    - intros Hdoc. injection Hdoc as <- _. reflexivity. }
  split; [exact Hval|]. split; [simpl in Hsum, Hcnt; lia|].
  cbv zeta. rewrite <- Hitems, Hs3, Hs2.
  simpl in Hcnt. rewrite Hcnt. rewrite <- app_assoc. split; reflexivity.
Qed.

Lemma reachable_all_counted w : reachable E w -> all_counted w.
Proof.
  induction 1 as [|w sd o w' _ IH Hrun|w itemdata o w' _ IH Hrun].
  - constructor.
  - exact (preserves_store_items_activity _ sd w o w' Hrun IH).
  - exact (preserves_process_single_item E (Forall counted) itemdata
             w o w' Hrun IH).
Qed.

Lemma batch_status_cases stored total :
  (batch_status stored total = "success" <-> stored = total)
  /\ (batch_status stored total = "partial_failure"
      <-> (0 < stored)%nat /\ stored <> total)
  /\ (batch_status stored total = "failure"
      <-> stored = 0%nat /\ total <> 0%nat).
Proof.
  unfold batch_status.
  destruct (Nat.eqb_spec stored total) as [Heq|Hne];
    [|destruct (Nat.ltb_spec 0 stored) as [Hpos|Hzero]];
    (split; [|split]); split; intros H;
    solve [ discriminate H | reflexivity | lia | destruct H; lia
          | split; lia ].
Qed.

End StoreFacts.

(* ================================================================== *)
(** * The claims *)
(* ================================================================== *)

(** ** C1: the two-round pipeline *)

(** C1, as the code has it: whenever [process_single_item] returns an item,
    it ran one standardisation and two correction rounds, the second round
    being invoked on the first round's extraction result as it is (the
    extracted name when there is one; the first-pass standardized name is
    never substituted). The second extraction is attached as
    [final_corrected_name] exactly when it is present and non-empty;
    otherwise the item carries no corrected name and the storage formatter
    falls back to the original item name. *)
Theorem second_round_runs_on_first_extraction
  (E : env) (itemdata : itemdata) (w w' : world) (item : dict) :
  process_single_item E itemdata w = (Ret (Some item), w') ->
  exists e2,
    two_rounds second_round_input E itemdata w w' e2
    /\ Py.lookup "final_corrected_name" item =
       match extract_final_name e2 with
       | Some n2 => if String.eqb n2 "" then None else Some (PStr n2)
       | None => None
       end
    /\ Py.lookup "itemName" item = Some (item_name itemdata)
    /\ forall b w1 record w2,
         format_storage_item E (PDict item) b w1 = (Ret record, w2) ->
         Py.lookup "Inventory Item Name" record =
         Some (match extract_final_name e2 with
               | Some n2 => if String.eqb n2 "" then item_name itemdata
                            else PStr n2
               | None => item_name itemdata
               end).
Proof.
  unfold process_single_item, try_except. intros H.
  destruct (bind (process_single_item_body E itemdata) _ w)
    as [[item'|e] wb] eqn:Hbody; [|discriminate].
  apply bind_ret_inv in Hbody. destruct Hbody as (p & w3 & Hbody & Hret).
  unfold ret in Hret, H. injection Hret as <- <-. injection H as <- <-.
  unfold process_single_item_body in Hbody.
  apply bind_ret_inv in Hbody. destruct Hbody as ([] & wa & Hclient & Hbody).
  assert (wa = w) as ->.
  { unfold new_client in Hclient. destruct (client_init_error E);
      [discriminate|]. injection Hclient as <-. reflexivity. }
  apply bind_ret_inv in Hbody. destruct Hbody as (p0 & wb & Hraw & Hbody).
  apply lift_ret_inv in Hraw. destruct Hraw as [Hraw ->].
  destruct (map_raw_item_inv E itemdata p0 Hraw)
    as (q & m & u & c & k & _ & _ & _ & _ & _ & Hp0).
  cbv zeta in Hp0.
  assert (Hname : Py.get p0 "itemName" PNone = item_name itemdata)
    by (rewrite Hp0; reflexivity).
  assert (Hcat : Py.get p0 "productCategory" PNone = item_category itemdata)
    by (rewrite Hp0; reflexivity).
  cbv zeta in Hbody. rewrite Hname, Hcat in Hbody.
  apply bind_ret_inv in Hbody. destruct Hbody as (s0 & w1 & Hstd & Hbody).
  apply bind_ret_inv in Hbody. destruct Hbody as (e1 & w2 & He1 & Hbody).
  apply bind_ret_inv in Hbody. destruct Hbody as (e2 & w3' & He2 & Hbody).
  exists e2.
  assert (Hw : w3' = w3 /\
               p = match extract_final_name e2 with
                   | Some n2 =>
                       if String.eqb n2 "" then p0
                       else Py.set "final_corrected_name" (PStr n2) p0
                   | None => p0
                   end).
  { destruct (extract_final_name e2) as [n2|]; simpl in Hbody.
    - destruct (String.eqb n2 ""); simpl in Hbody;
        injection Hbody as <- <-; auto.
    - injection Hbody as <- <-; auto. }
  destruct Hw as [-> Hp].
  split; [exists s0, e1, w1, w2; auto|].
  assert (Hfinal :
            Py.lookup "final_corrected_name" p =
            match extract_final_name e2 with
            | Some n2 => if String.eqb n2 "" then None else Some (PStr n2)
            | None => None
            end).
  { rewrite Hp, Hp0. destruct (extract_final_name e2) as [n2|];
      [destruct (String.eqb n2 "")|]; reflexivity. }
  assert (Hitem : Py.lookup "itemName" p = Some (item_name itemdata)).
  { rewrite Hp, Hp0. destruct (extract_final_name e2) as [n2|];
      [destruct (String.eqb n2 "")|]; reflexivity. }
  split; [exact Hfinal|]. split; [exact Hitem|].
  intros b wx record wy Hfmt.
  rewrite (format_storage_item_name E p b wx record wy Hfmt).
  unfold Py.get. rewrite Hfinal, Hitem.
  destruct (extract_final_name e2) as [n2|];
    [destruct (String.eqb n2 "")|]; reflexivity.
Qed.

(** A run with a model that answers in the requested format, and the
    formatting of its item. *)
Lemma second_round_runs_on_first_extraction_witness :
  Demo.run_reliable = (Ret (Some Demo.item_reliable), Demo.world_reliable)
  /\ Demo.run_format = (Ret Demo.record_reliable, Demo.world_format)
  /\ exists e2,
       two_rounds second_round_input Demo.reliable
         (Demo.itemdata_of Demo.complete_raw) Demo.w0 Demo.world_reliable e2
       /\ Py.lookup "final_corrected_name" Demo.item_reliable =
          match extract_final_name e2 with
          | Some n2 => if String.eqb n2 "" then None else Some (PStr n2)
          | None => None
          end
       /\ Py.lookup "Inventory Item Name" Demo.record_reliable =
          Some (match extract_final_name e2 with
                | Some n2 =>
                    if String.eqb n2 ""
                    then item_name (Demo.itemdata_of Demo.complete_raw)
                    else PStr n2
                | None => item_name (Demo.itemdata_of Demo.complete_raw)
                end).
Proof.
  assert (H : Demo.run_reliable
              = (Ret (Some Demo.item_reliable), Demo.world_reliable))
    by (vm_compute; reflexivity).
  assert (F : Demo.run_format = (Ret Demo.record_reliable, Demo.world_format))
    by (vm_compute; reflexivity).
  split; [exact H|]. split; [exact F|].
  destruct (second_round_runs_on_first_extraction Demo.reliable
              (Demo.itemdata_of Demo.complete_raw) Demo.w0
              Demo.world_reliable Demo.item_reliable H)
    as (e2 & Hrounds & Hfinal & _ & Hstored).
  exists e2. split; [exact Hrounds|]. split; [exact Hfinal|].
  exact (Hstored 1%Z (World 2 [] []) Demo.record_reliable Demo.world_format F).
Defined.

(** C1 as stated fails: when the first evaluation has no labelled line, the
    second round is asked about the text [None], not about the first-pass
    standardized name. *)
Lemma second_round_fallback_cex :
  Demo.run_vague = (Ret (Some Demo.item_vague), Demo.world_vague)
  /\ nth_error (trace Demo.world_vague) 2
     = Some (EvChat evaluate_system
               (evaluate_prompt Demo.vague PNone
                  (PStr "CHKN BRST DICED 10LB CS")
                  (category_rules_str
                     ["Include cut and preparation method";
                      "Specify key characteristics"])
                  (training_examples Demo.vague
                     [[("category", PStr "Meat");
                       ("prompt", PStr "CHKN BRST DICED 10LB CS");
                       ("completion", PStr "Chicken, Diced")]])))
  /\ ~ (exists e2,
          two_rounds second_round_input_as_claimed Demo.vague
            (Demo.itemdata_of Demo.complete_raw) Demo.w0 Demo.world_vague e2).
Proof.
  split; [vm_compute; reflexivity|]. split; [vm_compute; reflexivity|].
  intros (e2 & s0 & e1 & w1 & w2 & Hstd & He1 & He2).
  vm_compute in Hstd. injection Hstd as <- <-.
  vm_compute in He1. injection He1 as <- <-.
  vm_compute in He2. discriminate He2.
Qed.

(** ** C2: the lookup of category rules *)

(** C2, the code at the failing input: the lookup of category rules is an
    exact dict lookup, so [bakery] finds nothing although it differs from the
    key [BAKERY] only in case, while the example filter of the same function
    does match the two; [process_inventory_item] lowers the category before
    it calls the standardizer. *)
Theorem category_rules_lookup_is_exact :
  category_rules (PStr "BAKERY")
  = Ret ["Specify bread type first"; "Include shape and size if relevant"]
  /\ category_rules (PStr "bakery") = Ret []
  /\ lower "bakery" = lower "BAKERY"
  /\ category_examples [PDict [("category", PStr "BAKERY")]] (PStr "bakery")
     = Ret [[("category", PStr "BAKERY")]]
  /\ (forall E,
        process_inventory_item_category E
          [("Product Category", PStr "BAKERY")] = PStr "bakery")
  /\ category_rules (PStr "dry grocery") = Ret []
  /\ category_rules (PStr "Meat") = Ret []
  /\ category_rules (PStr "no such category") = Ret [].
Proof. repeat split. Qed.

(** ** C5: brand extraction *)

(** C5, as the code has it: for every item name the brand is, by priority,
    the trimmed substring before the first [/]; else the trimmed substring
    before the first apostrophe; else the first word if it is capitalized;
    else [Generic]. The four examples of the specification follow. *)
Theorem extract_brand_priority :
  (forall name, extract_brand (PStr name) = brand_by_priority name)
  /\ extract_brand (PStr "Tyson/Chicken Breast") = "Tyson"
  /\ extract_brand (PStr "Bob's Sauce") = "Bob"
  /\ extract_brand (PStr "fresh basil") = "Generic"
  /\ extract_brand (PStr "Heinz Ketchup") = "Heinz".
Proof.
  split; [|repeat split; reflexivity].
  intros name. unfold extract_brand, extract_brand_body, brand_by_priority.
  pose proof (split_ws_first_word name) as Hw.
  destruct (first_word name) as [|c0 w0] eqn:Hfw.
  - rewrite Hw.
    rewrite (blank_has_no_visible_char "/" name eq_refl Hfw).
    rewrite (blank_has_no_visible_char "'" name eq_refl Hfw).
    reflexivity.
  - destruct Hw as [rest ->].
    destruct (contains "/" name) eqn:Hslash.
    + rewrite hd_split_on. reflexivity.
    + rewrite replace_same, orb_diag.
      destruct (contains "'" name) eqn:Hq.
      * rewrite (length_split_on "'" name Hq), hd_split_on. reflexivity.
      * simpl. destruct (is_upper c0); reflexivity.
Qed.

(** C5 as stated fails: the code trims the substring it takes. *)
Lemma extract_brand_untrimmed_cex :
  extract_brand (PStr "Tyson /Chicken Breast") = "Tyson"
  /\ brand_as_claimed "Tyson /Chicken Breast" = "Tyson "
  /\ ~ (forall name, extract_brand (PStr name) = brand_as_claimed name).
Proof.
  split; [reflexivity|]. split; [reflexivity|].
  intros H. specialize (H "Tyson /Chicken Breast"). discriminate H.
Qed.

(** ** C6: the final-name extractor *)

(** C6, as the code has it: a text is its lines joined by line breaks.
    [extract_final_name] returns the part after the first colon of the first
    line whose lowercase form starts with [final corrected name:], without
    the blanks at its two ends; when no line carries the label it returns
    [None]; the scan never raises. An [Error:] sentinel gives [None] exactly
    when no line of its detail after the first carries the label, so
    whenever the detail is a single line. The example of the specification
    gives [Chicken, Diced]; a labelled line with blanks at both ends of the
    name gives the name without them; a sentinel whose second line carries
    the label gives the name on that line. *)
Theorem extract_final_name_first_labelled_line (lines : list string) :
  lines <> [] -> Forall no_newline lines ->
  (forall pre line post,
      lines = (pre ++ line :: post)%list ->
      Forall (fun l => final_line l = false) pre ->
      final_line line = true ->
      exists before after,
        line = before ++ ":" ++ after /\ contains ":" before = false /\
        extract_final_name (join nl lines) = Some (strip after) /\
        trimmed after (strip after))
  /\ (Forall (fun l => final_line l = false) lines ->
      extract_final_name (join nl lines) = None)
  /\ (exists r, scan_lines (split_on newline (join nl lines)) = Ret r)
  /\ (forall text,
        exists lines',
          lines' <> [] /\ Forall no_newline lines' /\ text = join nl lines')
  /\ (forall detail, no_newline detail ->
        extract_final_name ("Error: " ++ detail) = None)
  /\ (forall detail,
        extract_final_name ("Error: " ++ detail) = None
        <-> Forall (fun l => final_line l = false)
                   (tl (split_on newline detail)))
  /\ extract_final_name
       ("Final corrected name: Chicken, Diced" ++ nl ++ "Explanation: ...")
     = Some "Chicken, Diced"
  /\ extract_final_name
       ("Looks close." ++ nl ++ "FINAL Corrected Name:  Beef: Ground  "
        ++ nl ++ "Explanation: core item first")
     = Some "Beef: Ground"
  /\ extract_final_name
       ("Error: upstream said:" ++ nl ++ "Final corrected name: sneaky")
     = Some "sneaky".
Proof.
  intros Hne Hnl. unfold extract_final_name at 1 2.
  rewrite (split_on_join lines Hne Hnl).
  split; [|split; [|split; [|split; [|split; [|split; [|split; [|split]]]]]]].
  - intros pre line post -> Hpre Hline.
    rewrite (scan_lines_skip _ _ Hpre).
    destruct (scan_lines_hit line post Hline) as (b & a & Hl & Hb & Hs).
    exists b, a. rewrite Hs.
    split; [exact Hl|]. split; [exact Hb|]. split; [reflexivity|].
    apply strip_trimmed.
  - intros Hall. rewrite <- (app_nil_r lines).
    rewrite (scan_lines_skip _ _ Hall). reflexivity.
  - apply scan_lines_total.
  - intros text. exists (split_on newline text).
    destruct (join_split_on text) as (H1 & H2 & H3). auto.
  - intros detail Hd. apply sentinel_not_extracted.
    rewrite split_on_no_sep by exact Hd. constructor.
  - apply sentinel_extracted_iff.
  - reflexivity.
  - reflexivity.
  - reflexivity.
Qed.

(** A reply whose second line carries the label, in capitals, with a second
    colon and with blanks at both ends of the name; a reply without the
    label; a one-line sentinel; and a sentinel of two lines without the
    label. *)
Lemma extract_final_name_first_labelled_line_witness :
  (exists before after,
      "FINAL Corrected Name:  Beef: Ground  " = before ++ ":" ++ after
      /\ contains ":" before = false
      /\ extract_final_name
           (join nl ["Looks close."; "FINAL Corrected Name:  Beef: Ground  ";
                     "Explanation: core item first"])
         = Some (strip after)
      /\ strip after = "Beef: Ground"
      /\ trimmed after "Beef: Ground")
  /\ extract_final_name (join nl ["Looks close."; "No change needed."]) = None
  /\ extract_final_name ("Error: " ++ "Request timed out.") = None
  /\ extract_final_name
       ("Error: " ++ "Request timed out." ++ nl ++ "Retry later.")
     = None.
Proof.
  split; [|split; [|split]].
  - destruct (extract_final_name_first_labelled_line
                ["Looks close."; "FINAL Corrected Name:  Beef: Ground  ";
                 "Explanation: core item first"]
                ltac:(discriminate) ltac:(repeat constructor)) as [Hfirst _].
    destruct (Hfirst ["Looks close."] "FINAL Corrected Name:  Beef: Ground  "
                ["Explanation: core item first"] eq_refl
                ltac:(repeat constructor) eq_refl)
      as (before & after & Hline & Hbefore & Hname & Htrim).
    assert (Hliteral : strip after = "Beef: Ground").
    { assert (Hrun : extract_final_name
                       (join nl ["Looks close.";
                                 "FINAL Corrected Name:  Beef: Ground  ";
                                 "Explanation: core item first"])
                     = Some "Beef: Ground") by reflexivity.
      rewrite Hrun in Hname. injection Hname as Hname. symmetry.
      exact Hname. }
    exists before, after. split; [exact Hline|]. split; [exact Hbefore|].
    split; [exact Hname|]. split; [exact Hliteral|].
    rewrite <- Hliteral. exact Htrim.
  - destruct (extract_final_name_first_labelled_line
                ["Looks close."; "No change needed."]
                ltac:(discriminate) ltac:(repeat constructor))
      as (_ & Hnone & _).
    apply Hnone. repeat constructor.
  - destruct (extract_final_name_first_labelled_line
                ["Looks close."; "No change needed."]
                ltac:(discriminate) ltac:(repeat constructor))
      as (_ & _ & _ & _ & Hsentinel & _).
    apply Hsentinel. reflexivity.
  - destruct (extract_final_name_first_labelled_line
                ["Looks close."; "No change needed."]
                ltac:(discriminate) ltac:(repeat constructor))
      as (_ & _ & _ & _ & _ & Hsentinel & _).
    apply (proj2 (Hsentinel ("Request timed out." ++ nl ++ "Retry later."))).
    repeat constructor.
Defined.

(** C6 as stated fails: an [Error:] sentinel is not always a text without a
    labelled line. When the failure detail quotes a reply, the extractor
    returns the quoted name. *)
Lemma extract_final_name_sentinel_cex :
  startswith "Error:"
    ("Error: upstream said:" ++ nl ++ "Final corrected name: sneaky") = true
  /\ extract_final_name
       ("Error: upstream said:" ++ nl ++ "Final corrected name: sneaky")
     = Some "sneaky"
  /\ ~ (forall text,
          startswith "Error:" text = true -> extract_final_name text = None).
Proof.
  split; [reflexivity|]. split; [reflexivity|].
  intros H.
  specialize (H ("Error: upstream said:" ++ nl
                 ++ "Final corrected name: sneaky") eq_refl).
  discriminate H.
Qed.

(** ** C8: the evaluator's error sentinel *)

(** C8, as the code has it: [evaluate_and_correct_item_name] always
    returns and never raises; when its request to the language model fails
    with detail [d] it returns, after that one request and with the stored
    documents untouched, the string [Error: d]. The extractor finds no name
    in that string exactly when no line of [d] after the first carries the
    label, so whenever [d] is a single line. *)
Theorem evaluate_and_correct_error_sentinel
  (E : env) (standardized_name original_name category : pyval)
  (training_data : list pyval) (w : world) :
  (exists r w',
      evaluate_and_correct_item_name E standardized_name original_name
        category training_data w = (Ret r, w'))
  /\ (forall examples rules detail,
        category_examples training_data category = Ret examples ->
        category_rules category = Ret rules ->
        chat_create E (tick w) evaluate_system
          (evaluate_prompt E standardized_name original_name
             (category_rules_str rules)
             (training_examples E (firstn 5 examples))) = inr detail ->
        evaluate_and_correct_item_name E standardized_name original_name
          category training_data w
        = (Ret ("Error: " ++ detail),
           World (S (tick w)) (store w)
             (trace w
              ++ [EvChat evaluate_system
                    (evaluate_prompt E standardized_name original_name
                       (category_rules_str rules)
                       (training_examples E (firstn 5 examples)))]))
        /\ startswith "Error:" ("Error: " ++ detail) = true
        /\ (extract_final_name ("Error: " ++ detail) = None
            <-> Forall (fun l => final_line l = false)
                       (tl (split_on newline detail)))
        /\ (no_newline detail ->
            extract_final_name ("Error: " ++ detail) = None)).
Proof.
  split; [apply evaluate_returns|].
  intros examples rules detail Hex Hru Hchat.
  split; [|split; [reflexivity|split; [apply sentinel_extracted_iff|]]].
  - unfold evaluate_and_correct_item_name, evaluate_body.
    run_monad. rewrite Hex. run_monad. rewrite Hru. run_monad.
    rewrite Hchat. reflexivity.
  - intros Hd. apply sentinel_not_extracted.
    rewrite split_on_no_sep by exact Hd. constructor.
Qed.

(** A model whose evaluations fail with [Connection error.]. *)
Lemma evaluate_and_correct_error_sentinel_witness :
  exists w',
    evaluate_and_correct_item_name Demo.offline (PStr "Chicken Breast, Diced")
      (PStr "CHKN BRST DICED 10LB CS") (PStr "meat") Demo.training Demo.w0
    = (Ret "Error: Connection error.", w')
    /\ tick w' = 1%nat /\ store w' = []
    /\ extract_final_name "Error: Connection error." = None.
Proof.
  destruct (evaluate_and_correct_error_sentinel Demo.offline
              (PStr "Chicken Breast, Diced") (PStr "CHKN BRST DICED 10LB CS")
              (PStr "meat") Demo.training Demo.w0) as [_ Hfail].
  destruct (Hfail [[("category", PStr "Meat");
                    ("prompt", PStr "CHKN BRST DICED 10LB CS");
                    ("completion", PStr "Chicken, Diced")]]
              ["Include cut and preparation method";
               "Specify key characteristics"]
              "Connection error."
              ltac:(vm_compute; reflexivity) ltac:(vm_compute; reflexivity)
              ltac:(vm_compute; reflexivity))
    as (Hret & _ & _ & Hnone).
  eexists. split; [exact Hret|]. split; [reflexivity|].
  split; [reflexivity|]. apply Hnone. reflexivity.
Defined.

(** C8 as stated fails: the sentinel is not always a text the extractor
    fails to parse. When the request fails with a detail that quotes a
    reply, the evaluator returns the sentinel and the extractor reads the
    quoted name out of it. *)
Lemma evaluate_and_correct_sentinel_parsed_cex :
  fst (evaluate_and_correct_item_name Scenario.proxy
         (PStr "Chicken Breast, Diced") (PStr "CHKN BRST DICED 10LB CS")
         (PStr "meat") Demo.training Demo.w0)
  = Ret ("Error: " ++ Scenario.upstream_detail)
  /\ chat_create Scenario.proxy 0 evaluate_system
       (evaluate_prompt Scenario.proxy (PStr "Chicken Breast, Diced")
          (PStr "CHKN BRST DICED 10LB CS")
          (category_rules_str
             ["Include cut and preparation method";
              "Specify key characteristics"])
          (training_examples Scenario.proxy
             [[("category", PStr "Meat");
               ("prompt", PStr "CHKN BRST DICED 10LB CS");
               ("completion", PStr "Chicken, Diced")]]))
     = inr Scenario.upstream_detail
  /\ extract_final_name ("Error: " ++ Scenario.upstream_detail)
     = Some "sneaky"
  /\ ~ (forall E standardized_name original_name category training_data
               w r w',
          evaluate_and_correct_item_name E standardized_name original_name
            category training_data w = (Ret r, w') ->
          startswith "Error:" r = true ->
          extract_final_name r = None).
Proof.
  split; [vm_compute; reflexivity|]. split; [reflexivity|].
  split; [reflexivity|].
  intros H.
  specialize (H Scenario.proxy (PStr "Chicken Breast, Diced")
                (PStr "CHKN BRST DICED 10LB CS") (PStr "meat") Demo.training
                Demo.w0 ("Error: " ++ Scenario.upstream_detail)
                (snd (evaluate_and_correct_item_name Scenario.proxy
                        (PStr "Chicken Breast, Diced")
                        (PStr "CHKN BRST DICED 10LB CS") (PStr "meat")
                        Demo.training Demo.w0))
                ltac:(vm_compute; reflexivity) eq_refl).
  discriminate H.
Qed.

(** ** C9: a field that cannot be coerced *)

(** C9: if one of the five numeric raw fields is present with a value that
    [float()] rejects, [process_single_item] returns [None] and has touched
    nothing. When all coercions succeed, a numeric field that is absent is
    stored as [0.0] and one that is present as its coerced value, and a text
    field that is absent is stored as its default and one that is present as
    it is. *)
Theorem process_single_item_drops_uncoercible
  (E : env) (itemdata : itemdata) (w : world) :
  (forall field v e,
      In field (map fst raw_numeric_fields) ->
      Py.lookup field (id_item itemdata) = Some v ->
      py_float E v = Raise e ->
      process_single_item E itemdata w = (Ret None, w))
  /\ (forall processed_item,
        map_raw_item E itemdata = Ret processed_item ->
        (forall raw key,
            In (raw, key) raw_numeric_fields ->
            match Py.lookup raw (id_item itemdata) with
            | None => Py.lookup key processed_item = Some (PFloat float_zero)
            | Some v =>
                exists f, py_float E v = Ret f /\
                          Py.lookup key processed_item = Some (PFloat f)
            end)
        /\ (forall raw key default,
              In (raw, key, default) raw_text_fields ->
              Py.lookup key processed_item =
              Some (match Py.lookup raw (id_item itemdata) with
                    | None => PStr default
                    | Some v => v
                    end))).
Proof.
  split.
  - intros field v e Hin Hl Hf.
    destruct (map_raw_item_raises E itemdata field v e Hin Hl Hf) as [e' He'].
    unfold process_single_item, process_single_item_body, try_except, bind,
      new_client, lift.
    destruct (client_init_error E); simpl; [reflexivity|].
    rewrite He'. reflexivity.
  - intros p Hp.
    destruct (map_raw_item_inv E itemdata p Hp)
      as (q & m & u & c & k & Hq & Hm & Hu & Hc & Hk & ->).
    unfold Py.get in *. split.
    + intros raw key Hin. simpl in Hin.
      repeat destruct Hin as [Hin|Hin]; try contradiction;
        injection Hin as <- <-;
        match goal with
        | |- match Py.lookup ?r ?d with _ => _ end =>
            destruct (Py.lookup r d) eqn:Hl
        end.
      all: try (eexists; split; [eassumption|reflexivity]).
      all: match goal with
           | F : py_float _ (PInt 0) = Ret ?f |- _ =>
               cbv in F; injection F as <-
           end; reflexivity.
    + intros raw key default Hin. simpl in Hin.
      repeat destruct Hin as [Hin|Hin]; try contradiction;
        injection Hin as <- <- <-; simpl;
        match goal with
        | |- context [Py.lookup ?r ?d] => destruct (Py.lookup r d)
        end; reflexivity.
Qed.

(** An item whose case price is the text [forty-five] is dropped; the same
    item without a case price gets [0.0] and keeps its number. *)
Lemma process_single_item_drops_uncoercible_witness :
  process_single_item Demo.reliable (Demo.itemdata_of Demo.priceless_raw)
    Demo.w0 = (Ret None, Demo.w0)
  /\ exists processed_item,
       map_raw_item Demo.reliable
         (Demo.itemdata_of (Demo.without "Case Price" Demo.complete_raw))
       = Ret processed_item
       /\ Py.lookup "casePrice" processed_item = Some (PFloat float_zero)
       /\ Py.lookup "itemNumber" processed_item = Some (PStr "10456")
       /\ Py.lookup "splitable" processed_item = Some (PStr "NO").
Proof.
  split.
  - destruct (process_single_item_drops_uncoercible Demo.reliable
                (Demo.itemdata_of Demo.priceless_raw) Demo.w0) as [Hdrop _].
    exact (Hdrop "Case Price" (PStr "forty-five")
             (Exn ValueError
                "could not convert string to float: 'forty-five'")
             ltac:(simpl; tauto) eq_refl eq_refl).
  - destruct (map_raw_item Demo.reliable
                (Demo.itemdata_of (Demo.without "Case Price" Demo.complete_raw)))
      as [p|e] eqn:Hp; [|vm_compute in Hp; discriminate Hp].
    exists p. split; [reflexivity|].
    destruct (process_single_item_drops_uncoercible Demo.reliable
                (Demo.itemdata_of (Demo.without "Case Price" Demo.complete_raw))
                Demo.w0) as [_ Hdefault].
    destruct (Hdefault p Hp) as [Hnum Htext].
    split; [exact (Hnum "Case Price" "casePrice" ltac:(simpl; tauto))|].
    split.
    + exact (Htext "Item Number" "itemNumber" "" ltac:(simpl; tauto)).
    + exact (Htext "Splitable" "splitable" "NO" ltac:(simpl; tauto)).
Defined.

(** ** C3: the result of the storage activity *)

(** C3: a run of [store_items_activity] that returns gives the batch number,
    the user, [total_items] as the size of the batch and [stored_count] as
    the number of records it appended to the user document, each of which
    passed validation; every item of the batch is stored, or empty and
    skipped, or rejected with exactly one error string; the status is
    [success] exactly when every item was stored (an empty batch included),
    [partial_failure] when some but not all were, [failure] when none of a
    non-empty batch was. A complete item and one without [Item Number] give
    [stored_count = 1], [total_items = 2], [partial_failure] and one
    rejection. *)
Theorem store_items_activity_result
  (E : env) (sd : storedata) (w w' : world) (r : store_result) :
  store_items_activity E sd w = (Ret r, w') ->
  (batch r = batch_number sd /\ user_id r = sd_user_id sd
   /\ total_items r = List.length (sd_items sd))
  /\ (exists doc new,
        In doc (store w')
        /\ doc_items doc = (existing_items E sd w ++ new)%list
        /\ List.length new = stored_count r
        /\ Forall (fun record => validate_storage_item record = true) new)
  /\ (stored_count r + List.length (errors r)
      + List.length (filter is_empty_item (sd_items sd)) = total_items r)%nat
  /\ (status r = "success" <-> stored_count r = total_items r)
  /\ (status r = "partial_failure"
      <-> (0 < stored_count r)%nat /\ stored_count r <> total_items r)
  /\ (status r = "failure"
      <-> stored_count r = 0%nat /\ total_items r <> 0%nat)
  /\ (Demo.run_two_items = (Ret Demo.result_two_items, Demo.world_two_items)
      /\ stored_count Demo.result_two_items = 1%nat
      /\ total_items Demo.result_two_items = 2%nat
      /\ status Demo.result_two_items = "partial_failure"
      /\ errors Demo.result_two_items = ["Invalid item data for item 1"]
      /\ batch Demo.result_two_items = 1%Z
      /\ map doc_items (store Demo.world_two_items)
         = [[match fst (format_storage_item Demo.reliable
                          (PDict Demo.item_reliable) 1 (World 2 [] [])) with
              | Ret record => record
              | Raise _ => []
              end]]).
Proof.
  intros H.
  destruct (store_items_activity_inv E sd w r w' H)
    as (doc0 & new & errs & w3 & Hold & Hval & Hsum & Hw & ->).
  cbv zeta in Hw. subst w'. cbn [batch user_id total_items stored_count
                                 errors status store].
  split; [auto|]. split.
  { eexists. exists new. split; [apply In_upsert_doc|].
    cbn [doc_items]. rewrite Hold. auto. }
  split; [exact Hsum|].
  destruct (batch_status_cases (List.length new) (List.length (sd_items sd)))
    as (Hs & Hp & Hf).
  split; [exact Hs|]. split; [exact Hp|]. split; [exact Hf|].
  repeat split; vm_compute; reflexivity.
Qed.

(** The batch of the scenario. *)
Lemma store_items_activity_result_witness :
  Demo.run_two_items = (Ret Demo.result_two_items, Demo.world_two_items)
  /\ (stored_count Demo.result_two_items
      + List.length (errors Demo.result_two_items)
      + List.length (filter is_empty_item (sd_items Demo.two_items))
      = total_items Demo.result_two_items)%nat
  /\ (status Demo.result_two_items = "partial_failure"
      <-> (0 < stored_count Demo.result_two_items)%nat
          /\ stored_count Demo.result_two_items
             <> total_items Demo.result_two_items).
Proof.
  assert (H : Demo.run_two_items
              = (Ret Demo.result_two_items, Demo.world_two_items))
    by (vm_compute; reflexivity).
  split; [exact H|].
  destruct (store_items_activity_result Demo.reliable Demo.two_items Demo.w0
              Demo.world_two_items Demo.result_two_items H)
    as (_ & _ & Hsum & _ & Hpartial & _).
  split; assumption.
Defined.

(** ** C10: the item count of a stored document *)

(** C10: a run of [store_items_activity] that returns ends with a clock
    reading followed by the write of a document that carries that reading as
    its timestamp and whose [itemCount] is the length of its [items]; and in
    every world the activities can reach from an empty container, every
    stored document has [itemCount] equal to the length of [items]. *)
Theorem stored_documents_are_counted :
  (forall (E : env) (sd : storedata) (w w' : world) (r : store_result),
      store_items_activity E sd w = (Ret r, w') ->
      exists doc events t,
        trace w' = (events ++ [EvClock (doc_timestamp doc);
                               EvUpsert doc true])%list
        /\ In doc (store w')
        /\ counted doc
        /\ doc_timestamp doc = utcnow_isoformat E t
        /\ tick w' = S (S t))
  /\ (forall (E : env) (w : world),
        reachable E w -> Forall counted (store w)).
Proof.
  split.
  - intros E sd w w' r H.
    destruct (store_items_activity_inv E sd w r w' H)
      as (doc0 & new & errs & w3 & _ & _ & _ & Hw & _).
    cbv zeta in Hw. subst w'. cbn [trace store tick].
    match goal with |- context [EvUpsert ?d true] => exists d end.
    exists (trace w3), (tick w3).
    split; [reflexivity|]. split; [apply In_upsert_doc|].
    repeat split.
  - intros E w. apply reachable_all_counted.
Qed.

(** The batch of the scenario, written to an empty container. *)
Lemma stored_documents_are_counted_witness :
  Demo.run_two_items = (Ret Demo.result_two_items, Demo.world_two_items)
  /\ (exists doc events t,
        trace Demo.world_two_items
        = (events ++ [EvClock (doc_timestamp doc); EvUpsert doc true])%list
        /\ In doc (store Demo.world_two_items)
        /\ counted doc
        /\ doc_timestamp doc = utcnow_isoformat Demo.reliable t
        /\ tick Demo.world_two_items = S (S t))
  /\ reachable Demo.reliable Demo.world_two_items
  /\ Forall counted (store Demo.world_two_items).
Proof.
  assert (H : Demo.run_two_items
              = (Ret Demo.result_two_items, Demo.world_two_items))
    by (vm_compute; reflexivity).
  assert (R : reachable Demo.reliable Demo.world_two_items)
    by exact (reach_store Demo.reliable (World 0 [] []) Demo.two_items
                (Ret Demo.result_two_items) Demo.world_two_items
                (reach_init Demo.reliable) H).
  destruct stored_documents_are_counted as [Hrun Hinv].
  split; [exact H|]. split.
  - exact (Hrun Demo.reliable Demo.two_items Demo.w0 Demo.world_two_items
             Demo.result_two_items H).
  - split; [exact R|]. exact (Hinv Demo.reliable Demo.world_two_items R).
Defined.

(** ** C4: the storage validator *)

(** C4, the code at the failing input: a record whose [Case Price] is NaN
    passes the validator although NaN is not [>= 0]; the raw price text [nan]
    reaches the user document this way. The rest of the claim holds at its
    examples: the complete record is accepted, and a price of [-1] (float or
    int) or a string is rejected. *)
Theorem validate_storage_item_accepts_nan :
  validate_storage_item (Demo.with_case_price (PFloat float_nan)) = true
  /\ acceptable (Demo.with_case_price (PFloat float_nan)) = false
  /\ validate_storage_item Demo.good_record = true
  /\ validate_storage_item (Demo.with_case_price (PFloat (Demo.fl (-1)))) = false
  /\ validate_storage_item (Demo.with_case_price (PInt (-1))) = false
  /\ validate_storage_item (Demo.with_case_price (PStr "45")) = false
  /\ match store_items_activity Demo.reliable Demo.nan_batch Demo.w0 with
     | (Ret r, w') =>
         status r = "success" /\ stored_count r = 1%nat /\
         exists doc record,
           store w' = [doc] /\ doc_items doc = [record] /\
           Py.lookup "Case Price" record = Some (PFloat float_nan)
     | _ => False
     end.
Proof.
  repeat split; try reflexivity.
  vm_compute. repeat split. do 2 eexists. repeat split.
Qed.

(** ** C7: the retry of the storage write *)

(** C7, the code at the failing input: when the first attempt to write the
    user document fails, the loop raises at once, with a [NameError] for the
    unbound name [asyncio]; there is no second attempt and no delay. In the
    activity, a container that refuses only the first write makes the whole
    activity fail after that one attempt. *)
Theorem storage_write_is_not_retried
  (E : env) (body : user_doc) (w : world) (detail : string) :
  upsert_fault E (tick w) body = Some detail ->
  upsert_with_retry E function_app_globals (seq 0 max_retries) body w
  = (Raise (Exn NameError "name 'asyncio' is not defined"),
     World (S (tick w)) (store w) (trace w ++ [EvUpsert body false]))
  /\ match store_items_activity Demo.flaky Demo.two_items Demo.w0 with
     | (Raise e, w') =>
         e = Exn NameError "name 'asyncio' is not defined"
         /\ store w' = []
         /\ (exists doc,
               trace w' = [EvQuery "SELECT * FROM c WHERE c.id = 'user-1'";
                           EvClock "2024-01-01T00:00:01";
                           EvClock "2024-01-01T00:00:02";
                           EvClock "2024-01-01T00:00:03";
                           EvClock "2024-01-01T00:00:04";
                           EvUpsert doc false]
               /\ upsert_fault Demo.flaky (tick w') doc = None)
     | _ => False
     end.
Proof.
  intros Hfault. split.
  - rewrite upsert_with_retry_run, Hfault. reflexivity.
  - vm_compute. repeat split. eexists. split; reflexivity.
Qed.

(** The container that refuses the write made at tick 5. *)
Lemma storage_write_is_not_retried_witness :
  upsert_fault Demo.flaky 5 Demo.some_doc = Some "503 Service Unavailable"
  /\ upsert_with_retry Demo.flaky function_app_globals (seq 0 max_retries)
       Demo.some_doc (World 5 [] [])
     = (Raise (Exn NameError "name 'asyncio' is not defined"),
        World 6 [] [EvUpsert Demo.some_doc false]).
Proof.
  split; [reflexivity|].
  exact (proj1 (storage_write_is_not_retried Demo.flaky Demo.some_doc
                  (World 5 [] []) "503 Service Unavailable" eq_refl)).
Defined.

(* ================================================================== *)
(** * Facts about invoices, the orchestrator, the corpus and the files *)
(* ================================================================== *)

Import Invoices Corpus Props.

Lemma lookup_set_same k v d : Py.lookup k (Py.set k v d) = Some v.
Proof.
  induction d as [|[k' v'] d IH]; simpl.
  - rewrite String.eqb_refl. reflexivity.
  - destruct (String.eqb k' k) eqn:H; simpl; rewrite H; auto.
Qed.

Lemma lookup_set_other k k' v d :
  k' <> k -> Py.lookup k' (Py.set k v d) = Py.lookup k' d.
Proof.
  intros Hne. induction d as [|[k0 v0] d IH]; simpl.
  - destruct (String.eqb k k') eqn:H; [|reflexivity].
    apply String.eqb_eq in H. congruence.
  - destruct (String.eqb k0 k) eqn:H; simpl.
    + apply String.eqb_eq in H. subst k0.
      destruct (String.eqb k k') eqn:H'; [|reflexivity].
      apply String.eqb_eq in H'. congruence.
    + rewrite IH. reflexivity.
Qed.

Lemma stamp_items_spec inv items stamped :
  stamp_items inv items = Ret stamped ->
  Forall2 (restamped inv) items stamped.
Proof.
  revert stamped. induction items as [|item rest IH]; simpl; intros stamped H.
  - injection H as <-. constructor.
  - destruct item as [| | | | | |d]; try discriminate H. simpl in H.
    destruct (stamp_items inv rest) as [more|e]; [|discriminate H].
    injection H as <-. constructor; [|apply IH; reflexivity].
    exists d. eexists. split; [reflexivity|]. split; [reflexivity|].
    split.
    + eexists. split; [reflexivity|]. split.
      * rewrite lookup_set_other by discriminate. apply lookup_set_same.
      * apply lookup_set_same.
    + intros key H1 H2. rewrite !lookup_set_other by congruence. reflexivity.
Qed.

Lemma stamp_items_total inv items :
  Forall is_dict items -> exists stamped, stamp_items inv items = Ret stamped.
Proof.
  induction 1 as [|item rest [d ->] _ [more IH]]; simpl; [eauto|].
  rewrite IH. simpl. eauto.
Qed.

Lemma stamp_items_bad inv items bad :
  In bad items -> ~ is_dict bad -> exists e, stamp_items inv items = Raise e.
Proof.
  induction items as [|item rest IH]; simpl; [tauto|].
  intros [->|Hin] Hbad.
  - destruct bad; simpl; eauto. exfalso. apply Hbad. eexists; reflexivity.
  - destruct item; simpl; eauto.
    destruct (IH Hin Hbad) as [e He]. rewrite He. simpl. eauto.
Qed.

Lemma Forall2_stamped owner items stamped :
  Forall2 (restamped owner) items stamped -> Forall (stamped_by owner) stamped.
Proof.
  induction 1 as [|a b l l' (d & d' & _ & _ & Hs & _) _ IH]; constructor; auto.
Qed.

(** A truthy value that iterates and stamps is a list of dicts. *)
Lemma stamped_items_of_spec inv stamped :
  stamped_items_of inv = Ret stamped ->
  stamped = []
  \/ exists items, items_of inv = PList items
                   /\ Forall2 (restamped inv) items stamped.
Proof.
  unfold stamped_items_of.
  destruct (Py.truthy (items_of inv)) eqn:Ht.
  - destruct (items_of inv) as [| | | |s|l|d] eqn:Hi; simpl; try discriminate.
    + (* str *) destruct s as [|c s]; [discriminate Ht|]. simpl. discriminate.
    + intros H. right. exists l. split; [reflexivity|].
      apply stamp_items_spec, H.
    + (* dict *) destruct d as [|[k v] d]; [discriminate Ht|]. simpl.
      discriminate.
  - intros H. injection H as <-. auto.
Qed.

(** What a (sub-)invoice yields is what it lists, each item restamped. *)
Lemma stamped_items_of_listed inv stamped :
  stamped_items_of inv = Ret stamped ->
  Forall2 (restamped inv) (listed_items (PDict inv)) stamped.
Proof.
  intros H. cbn [listed_items].
  destruct (stamped_items_of_spec inv stamped H) as [->|(its & -> & H2)];
    [|exact H2].
  revert H. unfold stamped_items_of.
  destruct (items_of inv) as [| | | |s|l|d]; try constructor.
  destruct l as [|item rest]; [constructor|].
  cbn [Py.truthy iterate obind stamp_items]. intros H.
  destruct (set_item item _ _) as [i1|e]; [|discriminate H]. cbn [obind] in H.
  destruct (set_item i1 _ _) as [i2|e]; [|discriminate H]. cbn [obind] in H.
  destruct (stamp_items inv rest); discriminate H.
Qed.

(** The items collected are, sub-invoice by sub-invoice, the items listed. *)
Lemma collect_items_grouped subs items :
  collect_items subs = Ret items ->
  exists groups,
    items = List.concat groups
    /\ Forall2 (fun owner group =>
                  Forall2 (restamped owner) (listed_items (PDict owner)) group)
               (dicts_of subs) groups.
Proof.
  revert items. induction subs as [|sub rest IH]; simpl; intros items H.
  - injection H as <-. exists []. split; [reflexivity|constructor].
  - destruct sub as [| | | | | |s]; try discriminate H.
    destruct (stamped_items_of s) as [got|e] eqn:Hs; [|discriminate H].
    simpl in H.
    destruct (collect_items rest) as [more|e]; [|discriminate H].
    injection H as <-.
    destruct (IH more eq_refl) as (groups & -> & Hall).
    exists (got :: groups). split; [reflexivity|].
    constructor; [exact (stamped_items_of_listed s got Hs)|exact Hall].
Qed.

Lemma collect_items_stamped subs items :
  collect_items subs = Ret items ->
  Forall (fun item =>
            exists owner,
              In owner (flat_map (fun v => match v with PDict s => [s]
                                                  | _ => [] end) subs)
              /\ stamped_by owner item) items.
Proof.
  revert items. induction subs as [|sub rest IH]; simpl; intros items H.
  - injection H as <-. constructor.
  - destruct sub as [| | | | | |s]; try discriminate H.
    destruct (stamped_items_of s) as [got|e] eqn:Hs; [|discriminate H].
    simpl in H.
    destruct (collect_items rest) as [more|e]; [|discriminate H].
    injection H as <-. apply Forall_app. split.
    + destruct (stamped_items_of_spec s got Hs) as [->|(its & _ & H2)];
        [constructor|].
      eapply Forall_impl; [|apply (Forall2_stamped _ _ _ H2)].
      intros item Hi. exists s. split; [left; reflexivity|exact Hi].
    + eapply Forall_impl; [|apply IH; reflexivity].
      intros item (owner & Hin & Hi). exists owner. split; [|exact Hi].
      simpl. right. exact Hin.
Qed.

Lemma firstn_plus {A} (a b : nat) (l : list A) :
  firstn (a + b) l = (firstn a l ++ firstn b (skipn a l))%list.
Proof.
  revert l. induction a as [|a IH]; intros l; simpl; [reflexivity|].
  destruct l as [|x l]; simpl.
  - rewrite firstn_nil. reflexivity.
  - rewrite IH. reflexivity.
Qed.

(** Consecutive slices of [step] items, from slice [a] on, [m] of them. *)
Lemma concat_slices {A} (step m a : nat) (l : list A) :
  List.concat (map (fun i => firstn step (skipn i l))
              (map (fun k => (k * step)%nat) (seq a m)))
  = firstn (m * step) (skipn (a * step) l).
Proof.
  revert a. induction m as [|m IH]; intros a; simpl; [reflexivity|].
  rewrite IH. rewrite firstn_plus, skipn_skipn.
  replace (step + a * step)%nat with (S a * step)%nat by lia.
  reflexivity.
Qed.

Lemma ceil_covers n step : (0 < step)%nat -> (n <= (n + step - 1) / step * step)%nat.
Proof.
  intros H.
  pose proof (Nat.div_mod_eq (n + step - 1) step) as E.
  pose proof (Nat.mod_upper_bound (n + step - 1) step ltac:(lia)) as B.
  nia.
Qed.

Lemma ceil_tight n step :
  (0 < step)%nat -> (0 < n)%nat -> (((n + step - 1) / step - 1) * step < n)%nat.
Proof.
  intros H Hn.
  pose proof (Nat.div_mod_eq (n + step - 1) step) as E.
  pose proof (Nat.mod_upper_bound (n + step - 1) step ltac:(lia)) as B.
  assert (1 <= (n + step - 1) / step)%nat.
  { apply Nat.div_le_lower_bound; lia. }
  nia.
Qed.

Section OrchestratorFacts.
Variable get_user_invoices : string -> outcome (list pyval).
Variable process_result : nat -> itemdata -> option dict.
Variable store_outcome : storedata -> outcome store_result.

Lemma batch_results_app i l1 l2 :
  batch_results process_result i (l1 ++ l2)
  = (batch_results process_result i l1 ++ batch_results process_result (i + List.length l1) l2)%list.
Proof.
  unfold batch_results. revert i. induction l1 as [|x l1 IH]; intros i; simpl.
  - rewrite Nat.add_0_r. reflexivity.
  - rewrite IH. replace (S i + List.length l1)%nat
      with (i + S (List.length l1))%nat by lia. reflexivity.
Qed.

Lemma batch_results_nil i : batch_results process_result i [] = [].
Proof. reflexivity. Qed.

Lemma length_batch_results i l : List.length (batch_results process_result i l) = List.length l.
Proof.
  unfold batch_results. rewrite length_map, length_combine, length_seq. lia.
Qed.

Lemma valid_results_app a b :
  valid_results (a ++ b) = (valid_results a ++ valid_results b)%list.
Proof. apply flat_map_app. Qed.

Lemma length_valid_results rs : (List.length (valid_results rs) <= List.length rs)%nat.
Proof.
  induction rs as [|[d|] rs IH]; simpl; lia.
Qed.

(** The results of a run of ten-item slices are the results of the whole
    stretch. *)
Lemma results_of_slices m a (l : list itemdata) :
  batch_results process_result (a * 10) (firstn (S m * 10) (skipn (a * 10) l))
  = (batch_results process_result (a * 10) (firstn 10 (skipn (a * 10) l))
     ++ batch_results process_result (S a * 10) (firstn (m * 10) (skipn (S a * 10) l)))%list.
Proof.
  replace (S m * 10)%nat with (10 + m * 10)%nat by lia.
  rewrite firstn_plus, batch_results_app, skipn_skipn.
  replace (10 + a * 10)%nat with (S a * 10)%nat by lia.
  destruct (Nat.le_gt_cases 10 (List.length (skipn (a * 10) l))) as [Hfull|Hshort].
  - rewrite length_firstn, Nat.min_l by exact Hfull.
    replace (a * 10 + 10)%nat with (S a * 10)%nat by lia. reflexivity.
  - rewrite length_skipn in Hshort.
    rewrite (skipn_all2 (n := S a * 10)) by lia.
    rewrite firstn_nil. reflexivity.
Qed.

Lemma run_batches_returns user l m :
  forall a processed calls out,
    run_batches process_result store_outcome user l (map (fun k => (k * 10)%nat) (seq a m)) processed
    = (calls, Ret out) ->
    let valid :=
      valid_results (batch_results process_result (a * 10) (firstn (m * 10) (skipn (a * 10) l))) in
    out = (processed ++ valid)%list
    /\ process_calls calls
       = map (fun i => firstn 10 (skipn i l))
             (map (fun k => (k * 10)%nat) (seq a m))
    /\ List.concat (map sd_items (store_calls calls)) = map PDict valid
    /\ Forall (fun sd =>
                 sd_user_id sd = user
                 /\ (1 <= List.length (sd_items sd) <= 10)%nat
                 /\ (exists r, store_outcome sd = Ret r)
                 /\ exists k, (a <= k < a + m)%nat
                              /\ sd_batch sd = Some (Z.of_nat (k + 1)))
              (store_calls calls).
Proof.
  induction m as [|m IH]; intros a processed calls out H.
  - simpl in H. injection H as <- <-. cbv zeta. simpl.
    rewrite app_nil_r. repeat split; constructor.
  - cbn [seq map run_batches] in H. unfold batch_size in H.
    set (batch := firstn 10 (skipn (a * 10) l)) in *.
    set (valid0 := valid_results (batch_results process_result (a * 10) batch)) in *.
    cbv zeta. rewrite results_of_slices, valid_results_app.
    fold batch. fold valid0.
    assert (Hlen : (List.length valid0 <= 10)%nat).
    { subst valid0. etransitivity; [apply length_valid_results|].
      rewrite length_batch_results. subst batch. rewrite length_firstn. lia. }
    destruct valid0 as [|v0 vs] eqn:Hv.
    + destruct (run_batches process_result store_outcome user l (map (fun k => (k * 10)%nat) (seq (S a) m))
                  (processed ++ [])) as [calls' out'] eqn:Hrun.
      injection H as <- ->.
      destruct (IH (S a) _ _ _ Hrun) as (Hout & Hp & Hs & Hall).
      cbv zeta in *. rewrite app_nil_r in Hout.
      split; [exact Hout|]. split; [simpl; rewrite Hp; reflexivity|].
      split; [exact Hs|].
      eapply Forall_impl; [|exact Hall].
      intros sd (H1 & H2 & H3 & k & Hk & Hb).
      split; [exact H1|]. split; [exact H2|]. split; [exact H3|].
      exists k. split; [lia|exact Hb].
    + destruct (store_outcome _) as [r|e] eqn:Hst in H; [|discriminate H].
      destruct (run_batches process_result store_outcome user l (map (fun k => (k * 10)%nat) (seq (S a) m))
                  (processed ++ v0 :: vs)) as [calls' out'] eqn:Hrun.
      injection H as <- ->.
      destruct (IH (S a) _ _ _ Hrun) as (Hout & Hp & Hs & Hall).
      cbv zeta in *.
      split; [rewrite Hout, <- app_assoc; reflexivity|].
      split; [simpl; rewrite Hp; reflexivity|].
      split.
      { simpl. rewrite Hs. rewrite map_app. reflexivity. }
      simpl. constructor.
      * cbn [sd_user_id sd_items sd_batch]. split; [reflexivity|].
        split.
        { simpl; rewrite ?length_map; simpl in Hlen. unfold dict in *. lia. }
        split; [exists r; exact Hst|]. exists a. split; [lia|].
        change (fst (Nat.divmod (a * 10) 9 0 9)) with (a * 10 / 10)%nat.
        rewrite Nat.div_mul by lia. reflexivity.
      * eapply Forall_impl; [|exact Hall].
        intros sd (H1 & H2 & H3 & k & Hk & Hb).
        split; [exact H1|]. split; [exact H2|]. split; [exact H3|].
        exists k. split; [lia|exact Hb].
Qed.

(** A run that returns made, slice by slice, the calls of the slice. *)
Lemma run_batches_calls user l m :
  forall a processed calls out,
    run_batches process_result store_outcome user l
      (map (fun k => (k * 10)%nat) (seq a m)) processed
    = (calls, Ret out) ->
    calls = flat_map (batch_calls process_result user l) (seq a m).
Proof.
  induction m as [|m IH]; intros a processed calls out H.
  - simpl in H. injection H as <- _. reflexivity.
  - cbn [seq map run_batches flat_map] in H |- *.
    unfold batch_calls at 1. unfold batch_size in *.
    destruct (valid_results
                (batch_results process_result (a * 10)
                   (firstn 10 (skipn (a * 10) l)))) as [|v0 vs] eqn:Hv.
    + destruct (run_batches process_result store_outcome user l
                  (map (fun k => (k * 10)%nat) (seq (S a) m))
                  (processed ++ [])) as [calls' out'] eqn:Hrun.
      injection H as <- ->. rewrite (IH (S a) _ _ _ Hrun). reflexivity.
    + destruct (store_outcome _) as [r|e] eqn:Hst in H; [|discriminate H].
      destruct (run_batches process_result store_outcome user l
                  (map (fun k => (k * 10)%nat) (seq (S a) m))
                  (processed ++ v0 :: vs)) as [calls' out'] eqn:Hrun.
      injection H as <- ->. rewrite (IH (S a) _ _ _ Hrun).
      change (fst (Nat.divmod (a * 10) 9 0 9)) with (a * 10 / 10)%nat.
      rewrite Nat.div_mul by lia. reflexivity.
Qed.

Lemma run_batches_raises user l starts :
  forall processed calls e,
    run_batches process_result store_outcome user l starts processed = (calls, Raise e) ->
    exists before sd,
      calls = (before ++ [CallStoreItems sd])%list
      /\ store_outcome sd = Raise e
      /\ sd_items sd <> []
      /\ Forall (fun sd' => exists r, store_outcome sd' = Ret r)
                (store_calls before).
Proof.
  induction starts as [|i rest IH]; intros processed calls e H.
  - discriminate H.
  - cbn [run_batches] in H.
    destruct (valid_results _) as [|v0 vs] eqn:Hv in H.
    + destruct (run_batches process_result store_outcome user l rest _) as [calls' out'] eqn:Hrun.
      injection H as <- ->.
      destruct (IH _ _ _ Hrun) as (before & sd & -> & Hsd & Hne & Hall).
      exists (CallProcessBatch (firstn batch_size (skipn i l)) :: before), sd.
      repeat split; auto.
    + destruct (store_outcome _) as [r|e'] eqn:Hst in H.
      * destruct (run_batches process_result store_outcome user l rest _) as [calls' out'] eqn:Hrun.
        injection H as <- ->.
        destruct (IH _ _ _ Hrun) as (before & sd & -> & Hsd & Hne & Hall).
        eexists (_ :: _ :: before), sd. split; [reflexivity|].
        split; [exact Hsd|]. split; [exact Hne|].
        simpl. constructor; eauto.
      * injection H as <- <-.
        eexists [_], _. split; [reflexivity|]. split; [exact Hst|].
        split; [discriminate|]. constructor.
Qed.

End OrchestratorFacts.

Lemma stamped_is_dict owner item : stamped_by owner item -> is_dict item.
Proof. intros (d & -> & _). eexists; reflexivity. Qed.

Lemma item_entries_spec user inv items :
  Forall (fun item => exists owner, In owner (owners inv)
                                    /\ stamped_by owner item) items ->
  exists entries,
    item_entries user (PDict inv) items = Ret entries
    /\ List.length entries = List.length items
    /\ Forall (fun entry =>
                 id_userId entry = PStr user
                 /\ id_invoice_id entry = Py.get inv "id" PNone
                 /\ exists owner,
                      In owner (owners inv)
                      /\ id_supplier entry
                         = Py.get owner "Supplier Name" (PStr "")
                      /\ id_invoice_number entry
                         = Py.get owner "Invoice Number" (PStr "")
                      /\ stamped_by owner (PDict (id_item entry)))
              entries.
Proof.
  induction 1 as [|item rest (owner & Hin & Hs) _ (entries & IH & Hlen & Hall)].
  - exists []. repeat split; constructor.
  - pose proof Hs as (d & -> & Hsup & Hnum).
    eexists. simpl. rewrite IH. simpl. split; [reflexivity|].
    split; [simpl; rewrite Hlen; reflexivity|].
    constructor; [|exact Hall]. cbn.
    split; [reflexivity|]. split; [reflexivity|].
    exists owner. split; [exact Hin|].
    split; [unfold Py.get at 1; rewrite Hsup; reflexivity|].
    split; [unfold Py.get at 1; rewrite Hnum; reflexivity|].
    eexists. eauto.
Qed.

Lemma extract_items_stamped (invoice : dict) (items : list pyval) :
  extract_items_from_invoice (PDict invoice) = Some items ->
  Forall (fun item => exists owner, In owner (owners invoice)
                                    /\ stamped_by owner item) items.
Proof.
  unfold extract_items_from_invoice, extract_items_body, owners.
  destruct (Py.lookup "invoices" invoice) as [subs|].
  - destruct subs as [| | | |s|l|d]; simpl; try discriminate.
    + destruct s as [|c s]; simpl.
      * intros H. injection H as <-. constructor.
      * discriminate.
    + destruct (collect_items l) as [got|e] eqn:Hc; [|discriminate].
      intros H. injection H as <-. apply collect_items_stamped, Hc.
    + destruct d as [|[k v] d]; simpl.
      * intros H. injection H as <-. constructor.
      * discriminate.
  - destruct (stamped_items_of invoice) as [got|e] eqn:Hs; [|discriminate].
    intros H. injection H as <-.
    destruct (stamped_items_of_spec invoice got Hs) as [->|(its & _ & H2)];
      [constructor|].
    eapply Forall_impl; [|apply (Forall2_stamped _ _ _ H2)].
    intros item Hi. exists invoice. split; [left; reflexivity|exact Hi].
Qed.

Lemma extract_items_grouped (invoice : dict) (items : list pyval) :
  extract_items_from_invoice (PDict invoice) = Some items ->
  exists groups,
    items = List.concat groups
    /\ Forall2 (fun owner group =>
                  Forall2 (restamped owner) (listed_items (PDict owner)) group)
               (owners invoice) groups.
Proof.
  unfold extract_items_from_invoice, extract_items_body, owners.
  destruct (Py.lookup "invoices" invoice) as [subs|].
  - destruct subs as [| | | |s|l|d]; simpl; try discriminate.
    + destruct s as [|c s]; simpl; [|discriminate].
      intros H. injection H as <-. exists []. split; [reflexivity|constructor].
    + destruct (collect_items l) as [got|e] eqn:Hc; [|discriminate].
      intros H. injection H as <-. exact (collect_items_grouped l got Hc).
    + destruct d as [|[k v] d]; simpl; [|discriminate].
      intros H. injection H as <-. exists []. split; [reflexivity|constructor].
  - destruct (stamped_items_of invoice) as [got|e] eqn:Hs; [|discriminate].
    intros H. injection H as <-. exists [got].
    split; [simpl; rewrite app_nil_r; reflexivity|].
    constructor; [exact (stamped_items_of_listed invoice got Hs)|constructor].
Qed.

Lemma all_entries_returns (user : string) (invoices : list pyval) :
  exists entries,
    all_entries user invoices = Ret entries
    /\ List.length entries = list_sum (map extracted_count invoices)
    /\ Forall (entry_of user invoices) entries.
Proof.
  induction invoices as [|invoice rest (more & IH & Hlen & Hall)].
  - exists []. repeat split. constructor.
  - cbn [all_entries].
    assert (Hrest : Forall (entry_of user (invoice :: rest)) more).
    { eapply Forall_impl; [|exact Hall].
      intros entry (Hu & inv & owner & Hin & Hrest).
      split; [exact Hu|]. exists inv, owner. split; [right; exact Hin|].
      exact Hrest. }
    destruct (extract_items_from_invoice invoice) as [items|] eqn:Hex.
    + destruct invoice as [| | | | | |inv]; try discriminate Hex.
      destruct (item_entries_spec user inv items
                  (extract_items_stamped inv items Hex))
        as (entries & He & Hl & Ha).
      rewrite He. cbn [obind]. rewrite IH. cbn [obind].
      exists (entries ++ more)%list. split; [reflexivity|].
      split.
      { rewrite length_app, Hl, Hlen.
        change (list_sum (map extracted_count (PDict inv :: rest)))
          with (extracted_count (PDict inv)
                + list_sum (map extracted_count rest))%nat.
        f_equal. unfold extracted_count. rewrite Hex. reflexivity. }
      apply Forall_app. split; [|exact Hrest].
      eapply Forall_impl; [|exact Ha].
      intros entry (Hu & Hid & owner & Hin & Hsup & Hnum & Hst).
      split; [exact Hu|]. exists inv, owner.
      split; [left; reflexivity|]. auto.
    + cbn [obind]. rewrite IH. cbn [obind]. exists more.
      split; [reflexivity|].
      split; [|exact Hrest].
      change (list_sum (map extracted_count (invoice :: rest)))
        with (extracted_count invoice
              + list_sum (map extracted_count rest))%nat.
      unfold extracted_count at 1. rewrite Hex, Hlen. reflexivity.
Qed.

Lemma stamped_items_of_well_formed s items :
  items_of s = PList items -> Forall is_dict items ->
  exists got, stamped_items_of s = Ret got
              /\ Forall2 (restamped s) items got.
Proof.
  intros Hi Hd. unfold stamped_items_of. rewrite Hi.
  destruct items as [|item rest]; simpl Py.truthy; cbv iota.
  - exists []. split; [reflexivity|constructor].
  - cbn [iterate obind].
    destruct (stamp_items_total s _ Hd) as [got Hg].
    exists got. split; [exact Hg|]. apply stamp_items_spec, Hg.
Qed.

Lemma collect_items_well_formed subs :
  Forall well_formed_source subs ->
  exists got,
    collect_items subs = Ret got
    /\ Forall2 (fun before after =>
                  exists owner, In owner (dicts_of subs)
                                /\ restamped owner before after)
               (flat_map listed_items subs) got.
Proof.
  induction 1 as [|sub rest (s & items & -> & Hi & Hd) _ (more & IH & Hall)].
  - exists []. split; [reflexivity|constructor].
  - destruct (stamped_items_of_well_formed s items Hi Hd) as (got & Hg & H2).
    exists (got ++ more)%list. cbn [collect_items]. rewrite Hg.
    cbn [obind]. rewrite IH. cbn [obind]. split; [reflexivity|].
    cbn [flat_map listed_items]. rewrite Hi.
    apply Forall2_app.
    + eapply Forall2_impl; [|exact H2].
      intros a b Hr. exists s. split; [left; reflexivity|exact Hr].
    + eapply Forall2_impl; [|exact Hall].
      intros a b (owner & Hin & Hr). exists owner.
      split; [right; exact Hin|exact Hr].
Qed.

Lemma collect_items_bad subs s :
  In (PDict s) subs -> (exists e, stamped_items_of s = Raise e) ->
  exists e, collect_items subs = Raise e.
Proof.
  intros Hin [e He]. induction subs as [|sub rest IH]; [destruct Hin|].
  destruct Hin as [->|Hin].
  - cbn [collect_items]. rewrite He. simpl. eauto.
  - destruct sub as [| | | | | |s']; simpl; eauto.
    destruct (stamped_items_of s'); simpl; eauto.
    destruct (IH Hin) as [e' ->]. simpl. eauto.
Qed.

Section CorpusFacts.
Variable json_loads : string -> loaded.

Lemma tag_examples_tagged category examples :
  Forall (tagged category) (tag_examples category examples).
Proof.
  induction examples as [|[| | | | | |d] rest IH]; simpl; auto.
  constructor; [|exact IH].
  exists (Py.set "category" category d). split; [reflexivity|].
  apply lookup_set_same.
Qed.

(** The examples added are the dicts among those visited, in order, each
    with its category set. *)
Lemma tag_examples_retagged category examples :
  Forall2 (retagged category) (dicts_of examples)
          (tag_examples category examples).
Proof.
  induction examples as [|[| | | | | |d] rest IH]; simpl; auto.
  constructor; [|exact IH].
  exists (Py.set "category" category d). split; [reflexivity|].
  split; [apply lookup_set_same|].
  intros key Hkey. apply lookup_set_other. exact Hkey.
Qed.

Lemma load_line_examples line category_data examples visited :
  json_loads (strip line) = Loaded (PDict category_data) ->
  Py.lookup "examples" category_data = Some examples ->
  iterate examples = Ret visited ->
  load_line json_loads line
  = Ret (tag_examples (Py.get category_data "category" (PStr "")) visited).
Proof.
  intros Hj He Hi. unfold load_line. rewrite Hj, He, Hi. reflexivity.
Qed.

Lemma load_line_dicts line added :
  load_line json_loads line = Ret added -> Forall is_dict added.
Proof.
  unfold load_line.
  destruct (json_loads (strip line)) as [[| | | | | |cd]|msg|e];
    try (intros H; injection H as <-; constructor); try discriminate.
  destruct (Py.lookup "examples" cd) as [examples|].
  - destruct (iterate examples) as [visited|e]; simpl; [|discriminate].
    intros H. injection H as <-.
    eapply Forall_impl; [|apply tag_examples_tagged].
    intros x (d & -> & _). eexists; reflexivity.
  - intros H. injection H as <-. constructor; [|constructor].
    eexists; reflexivity.
Qed.

Lemma load_lines_dicts lines : Forall is_dict (load_lines json_loads lines).
Proof.
  induction lines as [|line rest IH]; simpl; [constructor|].
  destruct (load_line json_loads line) as [added|e] eqn:H; [|constructor].
  apply Forall_app. split; [exact (load_line_dicts line added H)|exact IH].
Qed.

Lemma load_lines_skip before line after :
  load_line json_loads line = Ret [] ->
  load_lines json_loads (before ++ line :: after)
  = load_lines json_loads (before ++ after).
Proof.
  intros Hl. induction before as [|b rest IH]; simpl.
  - rewrite Hl. reflexivity.
  - destruct (load_line json_loads b); [rewrite IH|]; reflexivity.
Qed.

Lemma load_lines_stop before line after e :
  load_line json_loads line = Raise e ->
  load_lines json_loads (before ++ line :: after)
  = load_lines json_loads before.
Proof.
  intros Hl. induction before as [|b rest IH]; simpl.
  - rewrite Hl. reflexivity.
  - destruct (load_line json_loads b); [rewrite IH|]; reflexivity.
Qed.

End CorpusFacts.

Lemma category_examples_readable td c :
  Forall readable_example td ->
  category_examples td (PStr c) = Ret (examples_of c td).
Proof.
  induction 1 as [|ex rest Hex _ IH]; [reflexivity|].
  destruct ex as [| | | | | |d]; simpl; try exact IH.
  destruct Hex as [s Hs]. rewrite Hs. simpl. rewrite IH. simpl.
  destruct (String.eqb (lower s) (lower c)); reflexivity.
Qed.

Lemma category_examples_unreadable td c :
  Exists (fun ex => ~ readable_example ex) td ->
  exists e, category_examples td c = Raise e.
Proof.
  induction 1 as [ex rest Hbad|ex rest _ IH].
  - destruct ex as [| | | | | |d]; simpl in Hbad; try (exfalso; tauto).
    simpl. destruct (Py.get d "category" (PStr "")) eqn:Hg; simpl; eauto.
    exfalso. apply Hbad. eauto.
  - destruct IH as [e IH].
    destruct ex as [| | | | | |d]; simpl; eauto.
    destruct (Py.lower (Py.get d "category" (PStr ""))); simpl; eauto.
    destruct (Py.lower c); simpl; eauto. rewrite IH. simpl. eauto.
Qed.

Lemma category_examples_bad_category td c :
  ~ is_str c -> Exists is_dict td ->
  exists e, category_examples td c = Raise e.
Proof.
  intros Hc. induction 1 as [ex rest [d ->]|ex rest _ IH].
  - simpl. destruct (Py.lower (Py.get d "category" (PStr ""))); simpl; eauto.
    destruct c; simpl; eauto. exfalso. apply Hc. eexists; reflexivity.
  - destruct IH as [e IH].
    destruct ex as [| | | | | |d]; simpl; eauto.
    destruct (Py.lower (Py.get d "category" (PStr ""))); simpl; eauto.
    destruct (Py.lower c); simpl; eauto. rewrite IH. simpl. eauto.
Qed.

Lemma category_examples_no_dict td c :
  ~ Exists is_dict td -> category_examples td c = Ret [].
Proof.
  induction td as [|ex rest IH]; [reflexivity|].
  intros H. destruct ex as [| | | | | |d]; simpl;
    try (apply IH; intros H'; apply H; right; exact H').
  exfalso. apply H. left. eexists; reflexivity.
Qed.

Lemma category_examples_raises_iff (training_data : list pyval)
  (category : pyval) :
  (exists e, category_examples training_data category = Raise e)
  <-> Exists (fun ex => ~ readable_example ex) training_data
      \/ (~ is_str category /\ Exists is_dict training_data).
Proof.
  split.
  - intros [e H]. revert e H.
    induction training_data as [|ex rest IH]; intros e H; [discriminate H|].
    assert (Hrest : (exists e', category_examples rest category = Raise e') ->
                    Exists (fun ex => ~ readable_example ex) (ex :: rest)
                    \/ (~ is_str category /\ Exists is_dict (ex :: rest))).
    { intros [e' He']. destruct (IH e' He') as [Hl|[Hc Hd]];
        [left; right; exact Hl|right; split; [exact Hc|right; exact Hd]]. }
    destruct ex as [| | | | | |d]; simpl in H;
      try solve [apply Hrest; eauto].
    destruct (Py.get d "category" (PStr "")) as [| | | |s| |] eqn:Hg;
      simpl in H;
      try (left; left; intros [s' Hs']; rewrite Hg in Hs';
           discriminate Hs').
    destruct category as [| | | |c| |]; simpl in H;
      try (right; split;
           [intros [s' Hs']; discriminate Hs'
           |left; eexists; reflexivity]).
    destruct (category_examples rest (PStr c)) as [more|e'] eqn:Hm;
      [discriminate H|]. apply Hrest. eauto.
  - intros [H|[Hc Hd]].
    + apply category_examples_unreadable, H.
    + apply category_examples_bad_category; assumption.
Qed.

Section PipelineFacts.
Variable E : env.

Lemma standardize_run desc td c w examples rules :
  category_examples td c = Ret examples ->
  category_rules c = Ret rules ->
  let prompt := standardize_prompt E (training_examples E examples)
                  (category_rules_str rules) desc in
  standardize_item_name E desc td c w
  = (Ret (match chat_create E (tick w) standardize_system prompt with
          | inl content => PStr (strip content)
          | inr _ => desc
          end),
     after_request w standardize_system prompt).
Proof.
  intros Hex Hru. cbv zeta. unfold standardize_item_name.
  run_monad. rewrite Hex. run_monad. rewrite Hru. run_monad.
  destruct (chat_create E (tick w) standardize_system _); reflexivity.
Qed.

Lemma standardize_raises desc td c w e w' :
  standardize_item_name E desc td c w = (Raise e, w') ->
  w' = w
  /\ (category_examples td c = Raise e
      \/ (exists examples, category_examples td c = Ret examples)
         /\ category_rules c = Raise e).
Proof.
  unfold standardize_item_name. run_monad.
  destruct (category_examples td c) as [examples|e1].
  - destruct (category_rules c) as [rules|e2].
    + destruct (chat_create E (tick w) _ _); discriminate.
    + intros H. injection H as <- <-. eauto.
  - intros H. injection H as <- <-. auto.
Qed.

Lemma evaluate_run sname oname td c w examples rules :
  category_examples td c = Ret examples ->
  category_rules c = Ret rules ->
  let prompt := evaluate_prompt E sname oname (category_rules_str rules)
                  (training_examples E (firstn 5 examples)) in
  evaluate_and_correct_item_name E sname oname c td w
  = (Ret (match chat_create E (tick w) evaluate_system prompt with
          | inl content => strip content
          | inr detail => "Error: " ++ detail
          end),
     after_request w evaluate_system prompt).
Proof.
  intros Hex Hru. cbv zeta.
  unfold evaluate_and_correct_item_name, evaluate_body.
  run_monad. rewrite Hex. run_monad. rewrite Hru. run_monad.
  destruct (chat_create E (tick w) evaluate_system _); reflexivity.
Qed.

Lemma evaluate_run_some sname oname td c w examples rules :
  category_examples td c = Ret examples ->
  category_rules c = Ret rules ->
  exists r prompt,
    evaluate_and_correct_item_name E sname oname c td w
    = (Ret r, after_request w evaluate_system prompt).
Proof.
  intros Hex Hru. do 2 eexists. apply (evaluate_run _ _ _ _ _ _ _ Hex Hru).
Qed.

(** A run of [process_single_item], taken apart. *)
Lemma process_single_item_inv itemdata w o w' :
  process_single_item E itemdata w = (o, w') ->
  (o = Ret None /\ w' = w)
  \/ exists p0 item p1 p2 p3,
       o = Ret (Some item)
       /\ map_raw_item E itemdata = Ret p0
       /\ (item = p0
           \/ exists n, item = Py.set "final_corrected_name" (PStr n) p0)
       /\ w' = after_request
                 (after_request (after_request w standardize_system p1)
                    evaluate_system p2)
                 evaluate_system p3.
Proof.
  unfold process_single_item, process_single_item_body, new_client.
  unfold try_except at 1. unfold bind at 1. unfold bind at 1.
  destruct (client_init_error E) as [msg|].
  { intros H. injection H as <- <-. auto. }
  cbn [ret]. unfold bind at 1. unfold lift at 1.
  destruct (map_raw_item E itemdata) as [p0|e0] eqn:Hraw.
  2:{ intros H. injection H as <- <-. auto. }
  destruct (map_raw_item_inv E itemdata p0 Hraw)
    as (q & m & u & c & k & _ & _ & _ & _ & _ & Hp0).
  cbv zeta in Hp0.
  set (name := Py.get p0 "itemName" PNone).
  set (cat := Py.get p0 "productCategory" PNone).
  unfold bind at 1.
  destruct (standardize_item_name E name (training_jsonl E) cat w)
    as [[s0|e] w1] eqn:Hstd.
  2:{ destruct (standardize_raises _ _ _ _ _ _ Hstd) as [-> _].
      intros H. injection H as <- <-. auto. }
  assert (Hok : exists examples rules,
             category_examples (training_jsonl E) cat = Ret examples
             /\ category_rules cat = Ret rules).
  { revert Hstd. unfold standardize_item_name. run_monad.
    destruct (category_examples (training_jsonl E) cat); [|discriminate].
    destruct (category_rules cat); [|discriminate]. eauto. }
  destruct Hok as (examples & rules & Hex & Hru).
  rewrite (standardize_run name _ _ w _ _ Hex Hru) in Hstd.
  cbv zeta in Hstd. injection Hstd as Hs0 <-.
  destruct (evaluate_run_some s0 name _ _
              (after_request w standardize_system
                 (standardize_prompt E (training_examples E examples)
                    (category_rules_str rules) name))
              _ _ Hex Hru) as (e1 & p2 & He1).
  unfold bind at 1. rewrite He1.
  destruct (evaluate_run_some (Py.of_option (extract_final_name e1)) name _ _
              (after_request
                 (after_request w standardize_system
                    (standardize_prompt E (training_examples E examples)
                       (category_rules_str rules) name))
                 evaluate_system p2)
              _ _ Hex Hru) as (e2 & p3 & He2).
  unfold bind at 1. rewrite He2.
  intros H. right.
  destruct (extract_final_name e2) as [n|]; cbn [Py.of_option Py.truthy] in H.
  - destruct (negb (String.eqb n "")); cbn [ret] in H;
      injection H as <- <-; do 5 eexists;
      (split; [reflexivity|]); (split; [reflexivity|]);
      (split; [|reflexivity]); eauto.
  - cbn [ret] in H. injection H as <- <-. do 5 eexists.
    split; [reflexivity|]. split; [reflexivity|].
    split; [left; reflexivity|reflexivity].
Qed.

End PipelineFacts.

Lemma bind_inv {A B} (m : M A) (k : A -> M B) w o w' :
  bind m k w = (o, w') ->
  (exists e, m w = (Raise e, w') /\ o = Raise e)
  \/ exists a w1, m w = (Ret a, w1) /\ k a w1 = (o, w').
Proof.
  unfold bind. destruct (m w) as [[a|e] w1].
  - eauto.
  - intros H. injection H as <- <-. eauto.
Qed.

Lemma upsert_doc_length body docs :
  (List.length docs <= List.length (upsert_doc body docs)
   <= S (List.length docs))%nat.
Proof.
  induction docs as [|d rest IH]; simpl; [lia|].
  destruct (_ && _)%bool; simpl; lia.
Qed.

Lemma upsert_doc_keeps body docs d :
  In d docs -> In d (upsert_doc body docs) \/ same_key d body.
Proof.
  induction docs as [|x rest IH]; simpl; [tauto|].
  destruct (String.eqb (doc_id x) (doc_id body)
            && String.eqb (doc_userId x) (doc_userId body))%bool eqn:Hk.
  - intros [->|H]; [right|left; right; exact H].
    apply andb_true_iff in Hk. destruct Hk as [H1 H2].
    apply String.eqb_eq in H1, H2. split; assumption.
  - intros [->|H]; [left; left; reflexivity|].
    destruct (IH H) as [H'|H']; [left; right; exact H'|right; exact H'].
Qed.

Lemma store_items_activity_raise_store E sd w e w' :
  store_items_activity E sd w = (Raise e, w') -> store w' = store w.
Proof.
  unfold store_items_activity, store_items_activity_in. intros H.
  apply bind_inv in H. destruct H as [(e1 & H & _)|(docs & w1 & Hq & H)].
  { exact (preserves_run_query E (fun s => s = store w) _ w _ w' H eq_refl). }
  assert (Hs1 : store w1 = store w)
    by exact (preserves_run_query E (fun s => s = store w) _ w _ w1 Hq
                eq_refl).
  apply bind_inv in H. destruct H as [(e1 & H & _)|(doc0 & w2 & Hd & H)].
  { rewrite <- Hs1.
    exact (preserves_get_or_create E (fun s => s = store w1) _ _ _ w1 _ w'
             H eq_refl). }
  assert (Hs2 : store w2 = store w).
  { rewrite <- Hs1.
    exact (preserves_get_or_create E (fun s => s = store w1) _ _ _ w1 _ w2
             Hd eq_refl). }
  apply bind_inv in H. destruct H as [(e1 & H & _)|(st & w3 & Hl & H)].
  { rewrite <- Hs2.
    exact (preserves_store_loop E (fun s => s = store w2) _ _ _ _ _ w2 _ w'
             H eq_refl). }
  assert (Hs3 : store w3 = store w).
  { rewrite <- Hs2.
    exact (preserves_store_loop E (fun s => s = store w2) _ _ _ _ _ w2 _ w3
             Hl eq_refl). }
  apply bind_inv in H. destruct H as [(e1 & H & _)|(ts & w4 & Hc & H)].
  { rewrite <- Hs3.
    exact (preserves_utcnow E (fun s => s = store w3) w3 _ w' H eq_refl). }
  assert (Hs4 : store w4 = store w).
  { rewrite <- Hs3.
    exact (preserves_utcnow E (fun s => s = store w3) w3 _ w4 Hc eq_refl). }
  apply bind_inv in H. destruct H as [(e1 & H & _)|([] & w5 & Hu & H)].
  - rewrite upsert_with_retry_run in H.
    destruct (upsert_fault E (tick w4) _); [|discriminate H].
    injection H as _ <-. exact Hs4.
  - discriminate H.
Qed.

Lemma lstrip_visible c s :
  is_space c = false -> lstrip (String c s) = String c s.
Proof. intros H. simpl. rewrite H. reflexivity. Qed.

Lemma rstrip_visible_head c s :
  is_space c = false -> exists r, rstrip (String c s) = String c r.
Proof.
  intros H. simpl. destruct (rstrip s); [rewrite H|]; eauto.
Qed.

Lemma rstrip_idem s : rstrip (rstrip s) = rstrip s.
Proof.
  induction s as [|c s IH]; [reflexivity|]. simpl.
  destruct (rstrip s) as [|b r] eqn:Hr.
  - destruct (is_space c) eqn:Hc; [reflexivity|]. simpl. rewrite Hc.
    reflexivity.
  - change (rstrip (String c (String b r))) with
      match rstrip (String b r) with
      | EmptyString =>
          if is_space c then EmptyString else String c EmptyString
      | r' => String c r'
      end.
    rewrite IH. reflexivity.
Qed.

Lemma lstrip_head s :
  lstrip s = "" \/ exists c r, lstrip s = String c r /\ is_space c = false.
Proof.
  induction s as [|c s IH]; simpl; [auto|].
  destruct (is_space c) eqn:Hc; [exact IH|]. right. eauto.
Qed.

Lemma strip_idem s : strip (strip s) = strip s.
Proof.
  unfold strip. destruct (lstrip_head s) as [->|(c & r & -> & Hc)];
    [reflexivity|].
  destruct (rstrip_visible_head c r Hc) as [r' Hr]. rewrite Hr.
  rewrite (lstrip_visible c r' Hc), <- Hr. apply rstrip_idem.
Qed.

Lemma rstrip_word_end s : rstrip (word_end s) = word_end s.
Proof.
  induction s as [|a s IH]; simpl; [reflexivity|].
  destruct (is_space a) eqn:Ha; [reflexivity|]. simpl. rewrite IH.
  destruct (word_end s); [rewrite Ha|]; reflexivity.
Qed.

Lemma strip_first_word s : strip (first_word s) = first_word s.
Proof.
  unfold strip, first_word.
  destruct (lstrip_head s) as [->|(c & r & -> & Hc)]; [reflexivity|].
  change (word_end (String c r)) with
    (if is_space c then EmptyString else String c (word_end r)).
  rewrite Hc, (lstrip_visible c _ Hc).
  change (String c (word_end r)) with
    (if false then EmptyString else String c (word_end r)).
  rewrite <- Hc.
  change (if is_space c then EmptyString else String c (word_end r))
    with (word_end (String c r)).
  apply rstrip_word_end.
Qed.

Lemma contains_lstrip c s : contains c s = false -> contains c (lstrip s) = false.
Proof.
  induction s as [|a s IH]; simpl; [auto|].
  destruct (is_space a); [|simpl; auto].
  intros H. apply orb_false_iff in H. apply IH, H.
Qed.

Lemma contains_rstrip c s : contains c s = false -> contains c (rstrip s) = false.
Proof.
  induction s as [|a s IH]; simpl; [auto|].
  intros H. apply orb_false_iff in H. destruct H as [Ha Hs].
  specialize (IH Hs). destruct (rstrip s) as [|b r].
  - destruct (is_space a); simpl; [reflexivity|]. rewrite Ha. reflexivity.
  - simpl in *. rewrite Ha. exact IH.
Qed.

Lemma contains_strip c s : contains c s = false -> contains c (strip s) = false.
Proof. intros H. apply contains_rstrip, contains_lstrip, H. Qed.

Lemma contains_before_first c s : contains c (before_first c s) = false.
Proof.
  induction s as [|a s IH]; simpl; [reflexivity|].
  destruct (Ascii.eqb a c) eqn:Ha; simpl; [reflexivity|].
  rewrite Ha. exact IH.
Qed.

Lemma contains_before_first_other d c s :
  contains d s = false -> contains d (before_first c s) = false.
Proof.
  induction s as [|a s IH]; simpl; [auto|].
  intros H. apply orb_false_iff in H. destruct H as [Ha Hs].
  destruct (Ascii.eqb a c); simpl; [reflexivity|].
  rewrite Ha. apply IH, Hs.
Qed.

Lemma contains_word_end d s :
  contains d s = false -> contains d (word_end s) = false.
Proof.
  induction s as [|a s IH]; simpl; [auto|].
  intros H. apply orb_false_iff in H. destruct H as [Ha Hs].
  destruct (is_space a); simpl; [reflexivity|].
  rewrite Ha. apply IH, Hs.
Qed.

Lemma contains_app_r c p s :
  contains c (p ++ s) = false -> contains c s = false.
Proof.
  induction p as [|a p IH]; simpl; [auto|].
  intros H. apply orb_false_iff in H. apply IH, H.
Qed.

Lemma extract_brand_cases name :
  extract_brand (PStr name) = brand_by_priority name.
Proof.
  unfold extract_brand, extract_brand_body, brand_by_priority.
  pose proof (split_ws_first_word name) as Hw.
  destruct (first_word name) as [|c0 w0] eqn:Hfw.
  - rewrite Hw.
    rewrite (blank_has_no_visible_char "/" name eq_refl Hfw).
    rewrite (blank_has_no_visible_char "'" name eq_refl Hfw).
    reflexivity.
  - destruct Hw as [rest ->].
    destruct (contains "/" name) eqn:Hslash.
    + rewrite hd_split_on. reflexivity.
    + rewrite replace_same, orb_diag.
      destruct (contains "'" name) eqn:Hq.
      * rewrite (length_split_on "'" name Hq), hd_split_on. reflexivity.
      * simpl. destruct (is_upper c0); reflexivity.
Qed.

Lemma split_on_lines c s : Forall (fun l => contains c l = false) (split_on c s).
Proof.
  induction s as [|a s IH]; simpl; [repeat constructor|].
  destruct (Ascii.eqb a c) eqn:Ha; [constructor; [reflexivity|exact IH]|].
  destruct (split_on c s) as [|h t]; [repeat constructor; simpl; rewrite Ha; reflexivity|].
  apply Forall_cons_iff in IH. destruct IH as [Hh Ht].
  constructor; [simpl; rewrite Ha; exact Hh|exact Ht].
Qed.

Lemma scan_lines_found ls n :
  scan_lines ls = Ret (Some n) ->
  exists line before after,
    In line ls /\ final_line line = true
    /\ line = before ++ ":" ++ after /\ n = strip after.
Proof.
  induction ls as [|l ls IH]; simpl; [discriminate|].
  destruct (startswith _ (lower l)) eqn:H.
  - destruct (scan_lines_hit l ls H) as (b & a & Hl & _ & Hs).
    simpl in Hs. rewrite H in Hs. rewrite Hs. intros Hn.
    injection Hn as <-. exists l, b, a. auto.
  - intros Hn. destruct (IH Hn) as (line & b & a & Hin & Hrest).
    exists line, b, a. auto.
Qed.

Section InventoryItemFacts.
Variable json_loads : string -> loaded.
Variable json_dumps : dict -> string.
Variable E : env.

Lemma process_inventory_item_returns item td w :
  exists r w',
    process_inventory_item json_loads json_dumps E item td w = (Ret r, w').
Proof.
  unfold process_inventory_item, try_except.
  destruct (process_inventory_item_body _ _ _ _ _ _) as [[r|e] w'];
    [|unfold ret]; eauto.
Qed.

Lemma process_inventory_item_blank item td w :
  (forall name, Py.get item "Item Name" (PStr "") = PStr name ->
                strip name = "") ->
  process_inventory_item json_loads json_dumps E item td w = (Ret None, w).
Proof.
  intros H. unfold process_inventory_item, process_inventory_item_body.
  unfold try_except. run_monad. unfold lift.
  destruct (Py.get item "Item Name" (PStr "")) as [| | | |name| |];
    try reflexivity.
  cbn [strip_value]. rewrite (H name eq_refl). reflexivity.
Qed.

Lemma parse_extraction_keys content sn name d :
  parse_extraction json_loads content sn name = Ret d ->
  Py.lookup "original_name" d = Some name
  /\ Py.lookup "standardized_name" d = Some sn
  /\ exists parsed,
       json_loads content = Loaded (PDict parsed)
       /\ forall key, key <> "standardized_name" -> key <> "original_name" ->
                      Py.lookup key d = Py.lookup key parsed.
Proof.
  unfold parse_extraction.
  destruct (json_loads content) as [[| | | | | |p]|msg|e]; try discriminate.
  cbn [Invoices.set_item obind]. intros H. injection H as <-.
  split; [apply lookup_set_same|].
  split; [rewrite lookup_set_other by discriminate; apply lookup_set_same|].
  exists p. split; [reflexivity|]. intros key H1 H2.
  rewrite !lookup_set_other by assumption. reflexivity.
Qed.

Lemma process_inventory_item_some item td w d w' :
  process_inventory_item json_loads json_dumps E item td w
  = (Ret (Some d), w') ->
  exists name standardized prompt1 prompt2,
    Py.get item "Item Name" (PStr "") = PStr name
    /\ strip name <> ""
    /\ (standardized = PStr name
        \/ exists content, standardized = PStr (strip content))
    /\ Py.lookup "original_name" d = Some (PStr name)
    /\ Py.lookup "standardized_name" d = Some standardized
    /\ w' = after_request (after_request w standardize_system prompt1)
              extraction_system prompt2
    /\ standardize_item_name E (PStr name) td
         (process_inventory_item_category E item) w
       = (Ret standardized, after_request w standardize_system prompt1)
    /\ standardized
       = match chat_create E (tick w) standardize_system prompt1 with
         | inl reply => PStr (strip reply)
         | inr _ => PStr name
         end
    /\ prompt2 = extraction_prompt json_dumps E standardized item
    /\ exists content parsed,
         chat_create E (S (tick w)) extraction_system prompt2 = inl content
         /\ json_loads content = Loaded (PDict parsed)
         /\ forall key,
              key <> "standardized_name" -> key <> "original_name" ->
              Py.lookup key d = Py.lookup key parsed.
Proof.
  unfold process_inventory_item, process_inventory_item_body.
  unfold try_except at 1.
  destruct (Py.get item "Item Name" (PStr "")) as [| | | |name| |] eqn:Hn;
    try (run_monad; unfold lift; cbn [strip_value]; discriminate).
  unfold bind at 1. unfold lift at 1. cbn [strip_value].
  destruct (String.eqb (strip name) "") eqn:Hb; [discriminate|].
  apply String.eqb_neq in Hb.
  unfold bind at 1.
  destruct (standardize_item_name E (PStr name) td _ w) as [[sn|e] w1] eqn:Hs;
    [|discriminate].
  assert (Hstd : exists prompt1,
             w1 = after_request w standardize_system prompt1
             /\ sn = match chat_create E (tick w) standardize_system prompt1
                     with
                     | inl reply => PStr (strip reply)
                     | inr _ => PStr name
                     end).
  { destruct (category_examples td (process_inventory_item_category E item))
      as [examples|e] eqn:Hex.
    - rewrite (standardize_run E (PStr name) td _ w examples _ Hex eq_refl)
        in Hs.
      injection Hs as <- <-. eexists. split; reflexivity.
    - exfalso. revert Hs. unfold standardize_item_name. run_monad.
      rewrite Hex. discriminate. }
  destruct Hstd as (prompt1 & -> & Hsn).
  run_monad. cbn [tick after_request].
  destruct (chat_create E _ extraction_system _) as [content|msg] eqn:Hchat;
    [|discriminate].
  unfold lift.
  destruct (parse_extraction json_loads content sn (PStr name)) as [p|e] eqn:Hp;
    [|discriminate].
  intros H. injection H as <- <-.
  destruct (parse_extraction_keys _ _ _ _ Hp)
    as (Ho & Hsd & parsed & Hj & Hkeys).
  exists name, sn, prompt1, (extraction_prompt json_dumps E sn item).
  split; [first [reflexivity|exact Hn]|]. split; [exact Hb|].
  split.
  { rewrite Hsn. destruct (chat_create E (tick w) _ _); eauto. }
  split; [exact Ho|]. split; [exact Hsd|]. split; [reflexivity|].
  split; [first [reflexivity|exact Hs]|]. split; [exact Hsn|].
  split; [reflexivity|].
  exists content, parsed. split; [exact Hchat|]. split; [exact Hj|exact Hkeys].
Qed.

End InventoryItemFacts.

(* ================================================================== *)
(** * Further properties of the code *)
(* ================================================================== *)

(** X1: the items [extract_items_from_invoice] returns for a dict are, taken
    (sub-)invoice by (sub-)invoice in the order of the document, the items
    that (sub-)invoice lists, in their order; each is a dict that carries,
    under [Supplier Name] and [Invoice Number], the values of the very
    (sub-)invoice that listed it (the empty string where that one has none)
    and is otherwise unchanged. *)
Theorem extracted_items_are_stamped (invoice : dict) (items : list pyval) :
  extract_items_from_invoice (PDict invoice) = Some items ->
  Forall (fun item => exists owner, In owner (owners invoice)
                                    /\ stamped_by owner item) items
  /\ exists groups,
       items = List.concat groups
       /\ Forall2 (fun owner group =>
                     Forall2 (restamped owner) (listed_items (PDict owner))
                             group
                     /\ Forall (stamped_by owner) group)
                  (owners invoice) groups.
Proof.
  intros H. split; [exact (extract_items_stamped invoice items H)|].
  destruct (extract_items_grouped invoice items H) as (groups & Hc & Hall).
  exists groups. split; [exact Hc|].
  eapply Forall2_impl; [|exact Hall].
  intros owner group Hg. split; [exact Hg|].
  exact (Forall2_stamped owner _ group Hg).
Qed.

(** The twelve items of the document with two sub-invoices: eleven stamped
    by the first, and the last by the second, which has no invoice number. *)
Lemma extracted_items_are_stamped_witness :
  exists items first second,
    extract_items_from_invoice (PDict Scenario.nested_invoice) = Some items
    /\ items = (first ++ second)%list
    /\ List.length first = 11%nat
    /\ Forall (stamped_by Scenario.sysco_invoice) first
    /\ Forall (stamped_by Scenario.usfoods_invoice) second
    /\ second = [PDict [ ("Item Name", PStr "Heinz Ketchup");
                         ("Supplier Name", PStr "US Foods");
                         ("Invoice Number", PStr "") ]].
Proof.
  destruct (extract_items_from_invoice (PDict Scenario.nested_invoice))
    as [items|] eqn:H; [|vm_compute in H; discriminate H].
  destruct (extracted_items_are_stamped Scenario.nested_invoice items H)
    as (_ & groups & Hconcat & Hgroups).
  change (owners Scenario.nested_invoice)
    with [Scenario.sysco_invoice; Scenario.usfoods_invoice] in Hgroups.
  destruct groups as [|first [|second [|third groups]]];
    try (exfalso; inversion Hgroups as [|? ? ? ? ? Hrest];
         try inversion Hrest as [|? ? ? ? ? Hrest'];
         try inversion Hrest'; fail).
  apply Forall2_cons_iff in Hgroups. destruct Hgroups as [[Hl1 Hs1] Hgroups].
  apply Forall2_cons_iff in Hgroups. destruct Hgroups as [[Hl2 Hs2] _].
  exists items, first, second. split; [reflexivity|].
  simpl in Hconcat. rewrite app_nil_r in Hconcat.
  split; [exact Hconcat|].
  assert (Hlen : List.length first = 11%nat)
    by (symmetry; exact (Forall2_length Hl1)).
  split; [exact Hlen|]. split; [exact Hs1|]. split; [exact Hs2|].
  vm_compute in H. injection H as H. rewrite Hconcat in H.
  apply (f_equal (skipn 11)) in H.
  rewrite skipn_app, Hlen, Nat.sub_diag in H.
  rewrite (skipn_all2 first) in H by (rewrite Hlen; constructor).
  simpl in H. symmetry. exact H.
Defined.

(** X2: the slices [all_items[i:i + 10]] the orchestrator takes for
    [i] in [range(0, len(all_items), 10)] are, put end to end, the whole
    list; there are [ceil(len / 10)] of them; none is empty or longer than
    ten; and all but the last hold exactly ten items. *)
Theorem batches_partition_the_items {A} (all_items : list A) :
  List.concat (batches all_items) = all_items
  /\ List.length (batches all_items)
     = ((List.length all_items + 9) / 10)%nat
  /\ Forall (fun batch => (1 <= List.length batch <= 10)%nat)
            (batches all_items)
  /\ (forall k, (S k < List.length (batches all_items))%nat ->
                List.length (nth k (batches all_items) []) = 10%nat).
Proof.
  unfold batches, range_step, batch_size.
  set (n := List.length all_items).
  replace (n + 10 - 1)%nat with (n + 9)%nat by lia.
  set (m := ((n + 9) / 10)%nat).
  assert (Hcov : (n <= m * 10)%nat).
  { pose proof (ceil_covers n 10 ltac:(lia)) as H.
    replace (n + 10 - 1)%nat with (n + 9)%nat in H by lia. exact H. }
  assert (Htight : (0 < n -> (m - 1) * 10 < n)%nat).
  { intros Hn. pose proof (ceil_tight n 10 ltac:(lia) Hn) as H.
    replace (n + 10 - 1)%nat with (n + 9)%nat in H by lia. exact H. }
  split; [|split; [|split]].
  - rewrite concat_slices. simpl skipn. apply firstn_all2. exact Hcov.
  - rewrite !length_map, length_seq. reflexivity.
  - apply Forall_forall. intros batch Hin.
    apply in_map_iff in Hin. destruct Hin as (i & <- & Hi).
    apply in_map_iff in Hi. destruct Hi as (k & <- & Hk).
    apply in_seq in Hk.
    rewrite length_firstn, length_skipn. fold n.
    assert (0 < n)%nat.
    { destruct (Nat.eq_dec n 0) as [E|]; [|lia].
      subst m. rewrite E in Hk. simpl in Hk. lia. }
    clearbody m n. specialize (Htight H). lia.
  - intros k Hk. rewrite !length_map, length_seq in Hk.
    rewrite map_map.
    rewrite (nth_indep _ [] (firstn 10 (skipn (0 * 10) all_items)))
      by (rewrite length_map, length_seq; lia).
    rewrite (map_nth (fun x => firstn 10 (skipn (x * 10) all_items))).
    rewrite seq_nth by lia. simpl Nat.add.
    rewrite length_firstn, length_skipn. fold n.
    assert (0 < n)%nat.
    { destruct (Nat.eq_dec n 0) as [E|]; [|lia].
      subst m. rewrite E in Hk. simpl in Hk. lia. }
    clearbody m n. specialize (Htight H). lia.
Qed.

(** The fourteen entries of the first user: a slice of ten and one of four. *)
Lemma batches_partition_the_items_witness :
  List.concat (batches Scenario.entries_user1) = Scenario.entries_user1
  /\ List.length (batches Scenario.entries_user1) = 2%nat
  /\ List.length (nth 0 (batches Scenario.entries_user1) []) = 10%nat.
Proof.
  destruct (batches_partition_the_items Scenario.entries_user1)
    as (Hconcat & Hlength & _ & Hfull).
  split; [exact Hconcat|]. split; [exact Hlength|].
  apply Hfull. rewrite Hlength. apply Nat.ltb_lt. reflexivity.
Defined.


(** X4: when the orchestrator returns on a non-empty list of entries, its
    report counts the results that are not [None] and the entries. It asked
    for the invoices first and then, for the ten-item slices of the entries
    in their order, scheduled the tasks of the slice and, if a result of the
    slice was not [None], stored the results of that slice under the number
    of the slice, counted from 1; nothing else was called. So the items sent
    to storage are, in order, exactly the results that are not [None], and
    every storage call is for this user, holds between one and ten items and
    succeeded. *)
Theorem orchestrator_stores_every_result
  (get_user_invoices : string -> outcome (list pyval))
  (process_result : nat -> itemdata -> option dict)
  (store_outcome : storedata -> outcome store_result)
  (instance_id user : string) (invoices : list pyval)
  (all_items : list itemdata) (calls : list activity_call) (out : dict) :
  get_user_invoices user = Ret invoices ->
  all_entries user invoices = Ret all_items ->
  all_items <> [] ->
  process_items_orchestrator get_user_invoices process_result store_outcome
    instance_id user = (calls, Ret out) ->
  let valid := valid_results (batch_results process_result 0 all_items) in
  out = [ ("status", PStr "completed");
          ("processed_count", PInt (Z.of_nat (List.length valid)));
          ("total_items", PInt (Z.of_nat (List.length all_items)));
          ("instance_id", PStr instance_id);
          ("user_id", PStr user) ]
  /\ (List.length valid <= List.length all_items)%nat
  /\ hd_error calls = Some (CallGetUserInvoices user)
  /\ process_calls calls = batches all_items
  /\ List.concat (map sd_items (store_calls calls)) = map PDict valid
  /\ Forall (fun sd =>
               sd_user_id sd = user
               /\ (1 <= List.length (sd_items sd) <= 10)%nat
               /\ (exists r, store_outcome sd = Ret r)
               /\ exists k, (k < List.length (batches all_items))%nat
                            /\ sd_batch sd = Some (Z.of_nat (k + 1)))
            (store_calls calls)
  /\ calls
     = CallGetUserInvoices user
       :: flat_map (batch_calls process_result user all_items)
            (seq 0 (List.length (batches all_items))).
Proof.
  intros Hget Hall Hne. unfold process_items_orchestrator.
  rewrite Hget.
  destruct invoices as [|invoice rest].
  { simpl in Hall. injection Hall as <-. congruence. }
  rewrite Hall. destruct all_items as [|item0 items]; [congruence|].
  set (l := item0 :: items) in *.
  destruct (run_batches _ _ _ _ _ _) as [calls' out'] eqn:Hrun.
  intros H. injection H as <- H.
  destruct out' as [processed|e]; [|discriminate H]. injection H as <-.
  unfold range_step, batch_size in Hrun.
  pose proof (run_batches_returns process_result store_outcome user l _ 0
                [] calls' processed Hrun) as (Hout & Hp & Hs & Hst).
  pose proof (run_batches_calls process_result store_outcome user l _ 0
                [] calls' processed Hrun) as Hcalls.
  cbv zeta in Hout, Hs.
  assert (Hcov : firstn ((List.length l + 10 - 1) / 10 * 10) (skipn (0 * 10) l)
                 = l).
  { apply firstn_all2. simpl skipn.
    apply (ceil_covers (List.length l) 10). lia. }
  rewrite Hcov in Hout, Hs. simpl in Hout. subst processed.
  assert (Hn : List.length (batches l) = ((List.length l + 10 - 1) / 10)%nat).
  { unfold batches, range_step, batch_size.
    rewrite !length_map, length_seq. reflexivity. }
  cbv zeta. split; [reflexivity|].
  split.
  { etransitivity; [apply length_valid_results|].
    rewrite length_batch_results. reflexivity. }
  split; [reflexivity|]. split; [exact Hp|]. split; [exact Hs|].
  split.
  - eapply Forall_impl; [|exact Hst].
    intros sd (H1 & H2 & H3 & k & Hk & Hb).
    split; [exact H1|]. split; [exact H2|]. split; [exact H3|].
    exists k. split; [|exact Hb]. rewrite Hn. lia.
  - rewrite Hn, Hcalls. reflexivity.
Qed.

(** The first user: fourteen entries, of which the one whose price is no
    number has no result; two slices, stored as batches 1 and 2. *)
Lemma orchestrator_stores_every_result_witness :
  Scenario.run_user1 = (Scenario.calls_user1, Ret Scenario.report_user1)
  /\ Py.lookup "processed_count" Scenario.report_user1 = Some (PInt 13)
  /\ Py.lookup "total_items" Scenario.report_user1 = Some (PInt 14)
  /\ process_calls Scenario.calls_user1 = batches Scenario.entries_user1
  /\ List.concat (map sd_items (store_calls Scenario.calls_user1))
     = map PDict
         (valid_results
            (batch_results (Scenario.processing Demo.reliable) 0
               Scenario.entries_user1))
  /\ Forall (fun sd =>
               sd_user_id sd = "user-1"
               /\ exists r, Scenario.storing Demo.reliable sd = Ret r)
            (store_calls Scenario.calls_user1)
  /\ Scenario.calls_user1
     = CallGetUserInvoices "user-1"
       :: (batch_calls (Scenario.processing Demo.reliable) "user-1"
             Scenario.entries_user1 0
           ++ batch_calls (Scenario.processing Demo.reliable) "user-1"
                Scenario.entries_user1 1)%list
  /\ map (fun sd => (sd_batch sd, List.length (sd_items sd)))
         (store_calls Scenario.calls_user1)
     = [(Some 1, 10%nat); (Some 2, 3%nat)].
Proof.
  assert (H : Scenario.run_user1
              = (Scenario.calls_user1, Ret Scenario.report_user1))
    by (vm_compute; reflexivity).
  split; [exact H|].
  pose proof (orchestrator_stores_every_result Scenario.invoices_of
                (Scenario.processing Demo.reliable)
                (Scenario.storing Demo.reliable)
                Scenario.instance_id "user-1"
                [PDict Scenario.nested_invoice; PDict Scenario.direct_invoice]
                Scenario.entries_user1 Scenario.calls_user1
                Scenario.report_user1
                eq_refl ltac:(vm_compute; reflexivity)
                ltac:(vm_compute; discriminate) H) as Hreport.
  cbv zeta in Hreport.
  destruct Hreport as (_ & _ & _ & Hbatches & Hitems & Hcalls & Hlist).
  split; [reflexivity|]. split; [reflexivity|].
  split; [exact Hbatches|]. split; [exact Hitems|].
  split.
  { eapply Forall_impl; [|exact Hcalls].
    intros sd (Huser & _ & Hstored & _). split; assumption. }
  assert (Hcalls' : Scenario.calls_user1
     = CallGetUserInvoices "user-1"
       :: (batch_calls (Scenario.processing Demo.reliable) "user-1"
             Scenario.entries_user1 0
           ++ batch_calls (Scenario.processing Demo.reliable) "user-1"
                Scenario.entries_user1 1)%list).
  { rewrite Hlist at 1.
    change (List.length (batches Scenario.entries_user1)) with 2%nat.
    cbn [seq flat_map]. rewrite app_nil_r. reflexivity. }
  split; [exact Hcalls'|].
  rewrite Hcalls'. vm_compute. reflexivity.
Defined.

(** X5: the orchestrator raises only what an activity raised. Either the
    request for the invoices failed, and nothing else was called; or the last
    call was a storage call with at least one item, it failed with the
    exception the orchestrator raises, and every storage call before it had
    succeeded. *)
Theorem orchestrator_fails_only_with_an_activity
  (get_user_invoices : string -> outcome (list pyval))
  (process_result : nat -> itemdata -> option dict)
  (store_outcome : storedata -> outcome store_result)
  (instance_id user : string) (calls : list activity_call) (e : exn) :
  process_items_orchestrator get_user_invoices process_result store_outcome
    instance_id user = (calls, Raise e) ->
  (get_user_invoices user = Raise e /\ calls = [CallGetUserInvoices user])
  \/ exists before sd,
       calls = (before ++ [CallStoreItems sd])%list
       /\ store_outcome sd = Raise e
       /\ sd_items sd <> []
       /\ Forall (fun sd' => exists r, store_outcome sd' = Ret r)
                 (store_calls before).
Proof.
  unfold process_items_orchestrator.
  destruct (get_user_invoices user) as [invoices|e0] eqn:Hget.
  - destruct invoices as [|invoice rest]; [discriminate|].
    destruct (all_entries_returns user (invoice :: rest))
      as (entries & -> & _).
    destruct entries as [|entry entries]; [discriminate|].
    destruct (run_batches _ _ _ _ _ _) as [calls' out'] eqn:Hrun.
    intros H. injection H as <- H.
    destruct out' as [processed|e']; [discriminate H|]. injection H as ->.
    right.
    destruct (run_batches_raises process_result store_outcome _ _ _ _ _ _ Hrun)
      as (before & sd & -> & Hsd & Hne & Hall).
    exists (CallGetUserInvoices user :: before), sd. auto.
  - intros H. injection H as <- <-. auto.
Qed.

(** The first user against a container that refuses every write: the first
    storage call fails, and the second batch is never scheduled. *)
Lemma orchestrator_fails_only_with_an_activity_witness :
  Scenario.run_down = (Scenario.calls_down, Raise Scenario.error_down)
  /\ exc_cls Scenario.error_down = NameError
  /\ exists before sd,
       Scenario.calls_down = (before ++ [CallStoreItems sd])%list
       /\ Scenario.storing Scenario.down sd = Raise Scenario.error_down
       /\ sd_items sd <> [].
Proof.
  assert (H : Scenario.run_down
              = (Scenario.calls_down, Raise Scenario.error_down))
    by (vm_compute; reflexivity).
  split; [exact H|]. split; [reflexivity|].
  destruct (orchestrator_fails_only_with_an_activity Scenario.invoices_of
              (Scenario.processing Demo.reliable)
              (Scenario.storing Scenario.down)
              Scenario.instance_id "user-1" Scenario.calls_down
              Scenario.error_down H)
    as [[Hget _]|(before & sd & Hcalls & Hstore & Hitems & _)].
  - vm_compute in Hget. discriminate Hget.
  - exists before, sd. split; [exact Hcalls|]. split; assumption.
Defined.

(** X6: when the invoices of the user yield no item at all, the orchestrator
    asks for the invoices and for nothing else, and reports [completed] with a
    count of zero; the message tells an empty invoice list from invoices
    without items. *)
Theorem orchestrator_without_items
  (get_user_invoices : string -> outcome (list pyval))
  (process_result : nat -> itemdata -> option dict)
  (store_outcome : storedata -> outcome store_result)
  (instance_id user : string) (invoices : list pyval) :
  get_user_invoices user = Ret invoices ->
  Forall (fun invoice => extracted_count invoice = 0%nat) invoices ->
  process_items_orchestrator get_user_invoices process_result store_outcome
    instance_id user
  = ([CallGetUserInvoices user],
     Ret (nothing_to_do
            (match invoices with
             | [] => "No invoices found for user " ++ user
             | _ => "No items found to process"
             end))).
Proof.
  intros Hget Hnone. unfold process_items_orchestrator. rewrite Hget.
  destruct invoices as [|invoice rest]; [reflexivity|].
  destruct (all_entries_returns user (invoice :: rest))
    as (entries & -> & Hlen & _).
  assert (Hzero : list_sum (map extracted_count (invoice :: rest)) = 0%nat).
  { clear - Hnone. induction Hnone as [|x l Hx _ IH]; [reflexivity|].
    change (list_sum (map extracted_count (x :: l)))
      with (extracted_count x + list_sum (map extracted_count l))%nat.
    rewrite Hx, IH. reflexivity. }
  rewrite Hzero in Hlen. destruct entries; [reflexivity|discriminate Hlen].
Qed.

(** A user whose only invoice lists no items. *)
Lemma orchestrator_without_items_witness :
  process_items_orchestrator Scenario.invoices_of
    (Scenario.processing Demo.reliable) (Scenario.storing Demo.reliable)
    Scenario.instance_id "user-2"
  = ([CallGetUserInvoices "user-2"],
     Ret (nothing_to_do "No items found to process")).
Proof.
  exact (orchestrator_without_items Scenario.invoices_of
           (Scenario.processing Demo.reliable)
           (Scenario.storing Demo.reliable)
           Scenario.instance_id "user-2" [PDict Scenario.empty_invoice]
           eq_refl ltac:(repeat constructor)).
Defined.

(** X7: on a document whose [invoices], if present, is a list, and whose
    (sub-)invoices are dicts that list dicts, [extract_items_from_invoice]
    returns every listed item, in order, each changed in its two stamps
    only. *)
Theorem well_formed_invoice_keeps_every_item (invoice : dict) :
  Forall well_formed_source (item_sources invoice) ->
  (forall v, Py.lookup "invoices" invoice = Some v -> exists l, v = PList l) ->
  exists items,
    extract_items_from_invoice (PDict invoice) = Some items
    /\ Forall2 (fun before after =>
                  exists owner, In owner (owners invoice)
                                /\ restamped owner before after)
               (flat_map listed_items (item_sources invoice)) items.
Proof.
  unfold item_sources, owners, extract_items_from_invoice, extract_items_body.
  destruct (Py.lookup "invoices" invoice) as [v|] eqn:Hl; intros Hwf Hlist.
  - destruct (Hlist v eq_refl) as [subs ->]. cbn [iterate obind].
    destruct (collect_items_well_formed subs Hwf) as (got & -> & H2).
    exists got. split; [reflexivity|exact H2].
  - apply Forall_inv in Hwf. destruct Hwf as (s & items & Hs & Hi & Hd).
    injection Hs as <-.
    destruct (stamped_items_of_well_formed invoice items Hi Hd)
      as (got & -> & H2).
    exists got. split; [reflexivity|].
    cbn [flat_map listed_items]. rewrite Hi, app_nil_r.
    eapply Forall2_impl; [|exact H2].
    intros a b Hr. exists invoice. split; [left; reflexivity|exact Hr].
Qed.

(** The document with two sub-invoices. *)
Lemma well_formed_invoice_keeps_every_item_witness :
  exists items,
    extract_items_from_invoice (PDict Scenario.nested_invoice) = Some items
    /\ List.length items
       = List.length
           (flat_map listed_items (item_sources Scenario.nested_invoice)).
Proof.
  destruct (well_formed_invoice_keeps_every_item Scenario.nested_invoice)
    as (items & Hitems & Hall).
  - vm_compute.
    repeat first [ apply Forall_nil | apply Forall_cons | eexists | split
                 | reflexivity ].
  - intros v Hv. vm_compute in Hv. injection Hv as <-.
    eexists. reflexivity.
  - exists items. split; [exact Hitems|].
    symmetry. exact (Forall2_length Hall).
Defined.

(** X8: one listed item that is no dict makes [extract_items_from_invoice]
    return [None] for the whole document, so the orchestrator takes no item
    from that document, the well-formed ones included. *)
Theorem one_bad_item_voids_the_invoice
  (invoice s : dict) (items : list pyval) (bad : pyval) :
  In (PDict s) (item_sources invoice) ->
  items_of s = PList items -> In bad items -> ~ is_dict bad ->
  extract_items_from_invoice (PDict invoice) = None
  /\ forall user others,
       all_entries user (PDict invoice :: others) = all_entries user others.
Proof.
  intros Hin Hi Hbad Hnd.
  assert (Hs : exists e, stamped_items_of s = Raise e).
  { unfold stamped_items_of. rewrite Hi.
    destruct items as [|item rest]; [destruct Hbad|].
    simpl Py.truthy. cbv iota. cbn [iterate obind].
    apply (stamp_items_bad s _ bad Hbad Hnd). }
  assert (Hnone : extract_items_from_invoice (PDict invoice) = None).
  { revert Hin.
    unfold item_sources, extract_items_from_invoice, extract_items_body.
    destruct (Py.lookup "invoices" invoice) as [v|].
    - destruct v as [| | | | |subs|]; try (intros []).
      intros Hin. cbn [iterate obind].
      destruct (collect_items_bad subs s Hin Hs) as [e ->]. reflexivity.
    - intros [H|[]]. injection H as <-. destruct Hs as [e ->]. reflexivity. }
  split; [exact Hnone|].
  intros user others. cbn [all_entries]. rewrite Hnone. cbn [obind].
  destruct (all_entries user others); reflexivity.
Qed.

(** A document one of whose two items is a string. *)
Lemma one_bad_item_voids_the_invoice_witness :
  extract_items_from_invoice (PDict Scenario.broken_invoice) = None
  /\ all_entries "user-1"
       [PDict Scenario.broken_invoice; PDict Scenario.direct_invoice]
     = all_entries "user-1" [PDict Scenario.direct_invoice].
Proof.
  destruct (one_bad_item_voids_the_invoice Scenario.broken_invoice
              Scenario.broken_invoice
              [PDict Demo.complete_raw; PStr "2 cases of ketchup"]
              (PStr "2 cases of ketchup")
              ltac:(simpl; tauto) eq_refl ltac:(simpl; tauto)
              ltac:(intros [d Hd]; discriminate Hd)) as [Hnone Hskip].
  split; [exact Hnone|]. apply Hskip.
Defined.

(** X9: [load_jsonl_data] returns dicts only. A line that holds an object
    with [examples] adds exactly the examples that are dicts, in their order,
    each with its [category] set to that of the line (the empty string if the
    line has none) and nothing else changed; a line that holds an object
    without [examples] adds that object as it is. *)
Theorem loaded_examples_are_tagged_dicts (json_loads : string -> loaded) :
  (forall file, Forall is_dict (load_jsonl_data json_loads file))
  /\ (forall line category_data examples visited,
        json_loads (strip line) = Loaded (PDict category_data) ->
        Py.lookup "examples" category_data = Some examples ->
        iterate examples = Ret visited ->
        exists added,
          load_line json_loads line = Ret added
          /\ Forall2 (retagged (Py.get category_data "category" (PStr "")))
                     (dicts_of visited) added)
  /\ (forall line category_data examples added,
        json_loads (strip line) = Loaded (PDict category_data) ->
        Py.lookup "examples" category_data = Some examples ->
        load_line json_loads line = Ret added ->
        Forall (tagged (Py.get category_data "category" (PStr ""))) added
        /\ exists visited,
             iterate examples = Ret visited
             /\ Forall2
                  (retagged (Py.get category_data "category" (PStr "")))
                  (dicts_of visited) added)
  /\ (forall line record,
        json_loads (strip line) = Loaded (PDict record) ->
        Py.lookup "examples" record = None ->
        load_line json_loads line = Ret [PDict record]).
Proof.
  split; [|split; [|split]].
  - intros [lines|]; simpl; [apply load_lines_dicts|constructor].
  - intros line cd examples visited Hj He Hi. eexists.
    split; [exact (load_line_examples json_loads _ _ _ _ Hj He Hi)|].
    apply tag_examples_retagged.
  - intros line cd examples added Hj He. unfold load_line. rewrite Hj, He.
    destruct (iterate examples) as [visited|e]; simpl; [|discriminate].
    intros H. injection H as <-.
    split; [apply tag_examples_tagged|].
    exists visited. split; [reflexivity|apply tag_examples_retagged].
  - intros line record Hj He. unfold load_line. rewrite Hj, He. reflexivity.
Qed.

(** A file of a line with three examples, a line cut short and a line that
    is an example itself. *)
Lemma loaded_examples_are_tagged_dicts_witness :
  Forall is_dict
    (load_jsonl_data Scenario.json_loads
       (Some [Scenario.meat_line; Scenario.truncated_line;
              Scenario.flat_line]))
  /\ (exists added,
        load_line Scenario.json_loads Scenario.meat_line = Ret added
        /\ added
           = [ PDict [ ("prompt", PStr "CHKN BRST DICED 10LB CS");
                       ("completion", PStr "Chicken, Diced");
                       ("category", PStr "Meat") ];
               PDict [ ("category", PStr "Meat");
                       ("prompt", PStr "TURKEY GRND 5LB") ] ]
        /\ Forall2 (retagged (PStr "Meat"))
                   [ [ ("prompt", PStr "CHKN BRST DICED 10LB CS");
                       ("completion", PStr "Chicken, Diced") ];
                     [ ("category", PStr "poultry");
                       ("prompt", PStr "TURKEY GRND 5LB") ] ]
                   added)
  /\ load_line Scenario.json_loads Scenario.flat_line
     = Ret [PDict [ ("category", PStr "dairy");
                    ("prompt", PStr "MILK 2% GAL") ]].
Proof.
  destruct (loaded_examples_are_tagged_dicts Scenario.json_loads)
    as (Hdicts & Hadded & _ & Hflat).
  split; [apply Hdicts|]. split.
  - destruct (Hadded Scenario.meat_line
                [ ("category", PStr "Meat");
                  ("examples",
                   PList [ PDict [ ("prompt", PStr "CHKN BRST DICED 10LB CS");
                                   ("completion", PStr "Chicken, Diced") ];
                           PInt 7;
                           PDict [ ("category", PStr "poultry");
                                   ("prompt", PStr "TURKEY GRND 5LB") ] ]) ]
                (PList [ PDict [ ("prompt", PStr "CHKN BRST DICED 10LB CS");
                                 ("completion", PStr "Chicken, Diced") ];
                         PInt 7;
                         PDict [ ("category", PStr "poultry");
                                 ("prompt", PStr "TURKEY GRND 5LB") ] ])
                [ PDict [ ("prompt", PStr "CHKN BRST DICED 10LB CS");
                          ("completion", PStr "Chicken, Diced") ];
                  PInt 7;
                  PDict [ ("category", PStr "poultry");
                          ("prompt", PStr "TURKEY GRND 5LB") ] ]
                eq_refl eq_refl eq_refl) as (added & Hline & Hretagged).
    exists added. split; [exact Hline|]. split; [|exact Hretagged].
    vm_compute in Hline. injection Hline as <-. reflexivity.
  - exact (Hflat Scenario.flat_line
             [ ("category", PStr "dairy"); ("prompt", PStr "MILK 2% GAL") ]
             eq_refl eq_refl).
Defined.

(** X10: a line on which [json.loads] raises [JSONDecodeError], or that holds
    JSON that is no object, is skipped: the file loads as if the line were
    not there. A line on which [json.loads] raises anything else (an integer
    of too many digits, nesting too deep), or whose [examples] cannot be
    looped over ([None], a boolean, a number), ends the loading: the file
    loads as if it ended before that line. *)
Theorem bad_lines_skip_or_stop (json_loads : string -> loaded)
  (before after : list string) (line : string) :
  (skipped_line json_loads line ->
   load_lines json_loads (before ++ line :: after)
   = load_lines json_loads (before ++ after))
  /\ (poisoned_line json_loads line ->
      load_lines json_loads (before ++ line :: after)
      = load_lines json_loads before).
Proof.
  split.
  - unfold skipped_line. intros Hs. apply load_lines_skip.
    unfold load_line.
    destruct (json_loads (strip line)) as [[| | | | | |cd]|msg|e];
      try reflexivity; destruct Hs.
  - intros [[e He]|(cd & examples & Hj & He & Hn)].
    + apply (load_lines_stop json_loads before line after e).
      unfold load_line. rewrite He. reflexivity.
    + assert (Hl : exists e, load_line json_loads line = Raise e).
      { unfold load_line. rewrite Hj, He.
        destruct examples; simpl in *; try destruct Hn; eauto. }
      destruct Hl as [e Hl].
      exact (load_lines_stop json_loads before line after e Hl).
Qed.

(** A line cut short; a line whose [examples] is the number 3; and a line
    that is a number of 5000 digits. *)
Lemma bad_lines_skip_or_stop_witness :
  load_lines Scenario.json_loads
    [Scenario.meat_line; Scenario.truncated_line; Scenario.flat_line]
  = load_lines Scenario.json_loads [Scenario.meat_line; Scenario.flat_line]
  /\ load_lines Scenario.json_loads
       [Scenario.meat_line; Scenario.poisoned; Scenario.flat_line]
     = load_lines Scenario.json_loads [Scenario.meat_line]
  /\ load_lines Scenario.json_loads
       [Scenario.meat_line; Scenario.digits_line; Scenario.flat_line]
     = load_lines Scenario.json_loads [Scenario.meat_line].
Proof.
  split; [|split].
  - apply (proj1 (bad_lines_skip_or_stop Scenario.json_loads
                    [Scenario.meat_line] [Scenario.flat_line]
                    Scenario.truncated_line)).
    vm_compute. exact I.
  - apply (proj2 (bad_lines_skip_or_stop Scenario.json_loads
                    [Scenario.meat_line] [Scenario.flat_line]
                    Scenario.poisoned)).
    right. exists [("category", PStr "Meat"); ("examples", PInt 3)], (PInt 3).
    split; [reflexivity|]. split; [reflexivity|exact I].
  - apply (proj2 (bad_lines_skip_or_stop Scenario.json_loads
                    [Scenario.meat_line] [Scenario.flat_line]
                    Scenario.digits_line)).
    left. eexists. vm_compute. reflexivity.
Defined.

(** X11: on training data whose dicts all carry a string (or no) category,
    the example filter of [standardize_item_name] never raises, selects the
    dicts whose category equals the requested one up to letter case, and so
    returns the same examples for two categories that differ in case only. *)
Theorem category_filter_ignores_case (training_data : list pyval) :
  Forall readable_example training_data ->
  (forall c, category_examples training_data (PStr c)
             = Ret (examples_of c training_data))
  /\ (forall c1 c2, lower c1 = lower c2 ->
                    category_examples training_data (PStr c1)
                    = category_examples training_data (PStr c2)).
Proof.
  intros H. split.
  - intros c. apply category_examples_readable, H.
  - intros c1 c2 Hc. rewrite !category_examples_readable by exact H.
    unfold examples_of. rewrite Hc. reflexivity.
Qed.

(** The training data of the examples, asked for [MEAT] and for [meat]. *)
Lemma category_filter_ignores_case_witness :
  category_examples Demo.training (PStr "MEAT")
  = Ret (examples_of "MEAT" Demo.training)
  /\ category_examples Demo.training (PStr "MEAT")
     = category_examples Demo.training (PStr "meat").
Proof.
  destruct (category_filter_ignores_case Demo.training
              ltac:(repeat constructor; eexists; reflexivity))
    as [Hselect Hcase].
  split; [apply Hselect|]. apply Hcase. reflexivity.
Defined.

(** X12: the example filter raises exactly when the training data holds a
    dict whose category is no string, or when the requested category is no
    string and the training data holds a dict at all. *)
Theorem category_filter_faults (training_data : list pyval)
  (category : pyval) :
  (exists e, category_examples training_data category = Raise e)
  <-> Exists (fun ex => ~ readable_example ex) training_data
      \/ (~ is_str category /\ Exists is_dict training_data).
Proof. apply category_examples_raises_iff. Qed.

(** An example whose category is the number 3. *)
Lemma category_filter_faults_witness :
  exists e,
    category_examples Scenario.unreadable_training (PStr "meat") = Raise e.
Proof.
  apply (proj2 (category_filter_faults Scenario.unreadable_training
                  (PStr "meat"))).
  left. apply Exists_cons_hd. intros [s Hs]. discriminate Hs.
Defined.

(** X13: with readable training data and a string category,
    [standardize_item_name] returns after exactly one request, leaving the
    stored documents alone; its result is the trimmed reply, or the
    description it was given, unchanged, when the request fails. *)
Theorem standardizer_contract
  (E : env) (description : pyval) (training_data : list pyval)
  (category : string) (w : world) :
  Forall readable_example training_data ->
  exists result prompt,
    standardize_item_name E description training_data (PStr category) w
    = (Ret result, after_request w standardize_system prompt)
    /\ match chat_create E (tick w) standardize_system prompt with
       | inl content => result = PStr (strip content)
       | inr _ => result = description
       end.
Proof.
  intros Hr. do 2 eexists.
  rewrite (standardize_run E description training_data (PStr category) w
             (examples_of category training_data)
             (rules_get category_specific_rules category)
             (category_examples_readable _ _ Hr) eq_refl).
  cbv zeta. split; [reflexivity|].
  destruct (chat_create E (tick w) standardize_system _); reflexivity.
Qed.

(** The reliable model on the item of the examples. *)
Lemma standardizer_contract_witness :
  exists result prompt,
    standardize_item_name Demo.reliable (PStr "CHKN BRST DICED 10LB CS")
      Demo.training (PStr "meat") Demo.w0
    = (Ret result, after_request Demo.w0 standardize_system prompt)
    /\ result = PStr "Chicken Breast, Diced".
Proof.
  destruct (standardizer_contract Demo.reliable
              (PStr "CHKN BRST DICED 10LB CS") Demo.training "meat" Demo.w0
              ltac:(repeat constructor; eexists; reflexivity))
    as (result & prompt & Hrun & Hresult).
  exists result, prompt. split; [exact Hrun|exact Hresult].
Defined.

(** X14: [process_single_item] always returns. When it returns [None] the
    world is as it was: nothing was requested, nothing logged, nothing stored.
    When it returns an item it has made exactly three requests, one
    standardization and two evaluations in this order, and has left the
    stored documents alone. *)
Theorem item_costs_three_requests_or_none
  (E : env) (itemdata : itemdata) (w : world) :
  exists result w',
    process_single_item E itemdata w = (Ret result, w')
    /\ match result with
       | None => w' = w
       | Some _ =>
           exists p1 p2 p3,
             trace w' = (trace w ++ [EvChat standardize_system p1;
                                     EvChat evaluate_system p2;
                                     EvChat evaluate_system p3])%list
             /\ tick w' = (3 + tick w)%nat
             /\ store w' = store w
       end.
Proof.
  destruct (process_single_item E itemdata w) as [o w'] eqn:H.
  destruct (process_single_item_inv E itemdata w o w' H)
    as [[-> ->]|(p0 & item & p1 & p2 & p3 & -> & _ & _ & ->)].
  - exists None, w. auto.
  - eexists (Some item), _. split; [reflexivity|].
    exists p1, p2, p3. unfold after_request. cbn [trace tick store].
    rewrite <- !app_assoc. auto.
Qed.

(** X15: if the training data holds a dict whose category is no string, or
    the item's category is no string while the training data holds a dict,
    [process_single_item] returns [None] for the item, whatever else the item
    holds, and makes no request. *)
Theorem unreadable_training_data_drops_every_item
  (E : env) (itemdata : itemdata) (w : world) :
  Exists (fun ex => ~ readable_example ex) (training_jsonl E)
  \/ (~ is_str (item_category itemdata)
      /\ Exists is_dict (training_jsonl E)) ->
  process_single_item E itemdata w = (Ret None, w).
Proof.
  intros Hbad.
  destruct (proj2 (category_examples_raises_iff (training_jsonl E)
                     (item_category itemdata)) Hbad) as [e He].
  destruct (process_single_item E itemdata w) as [o w'] eqn:H.
  destruct (process_single_item_inv E itemdata w o w' H)
    as [[-> ->]|(p0 & item & p1 & p2 & p3 & -> & Hraw & _ & _)];
    [reflexivity|].
  exfalso. revert H.
  unfold process_single_item, process_single_item_body, new_client.
  run_monad.
  destruct (client_init_error E); [discriminate|].
  rewrite Hraw.
  destruct (map_raw_item_inv E itemdata p0 Hraw)
    as (q & m & u & c & k & _ & _ & _ & _ & _ & Hp0).
  cbv zeta in Hp0.
  assert (Hcat : Py.get p0 "productCategory" PNone = item_category itemdata)
    by (rewrite Hp0; reflexivity).
  rewrite Hcat. unfold standardize_item_name. run_monad. rewrite He.
  discriminate.
Qed.

(** The complete item of the examples against training data with a numeric category. *)
Lemma unreadable_training_data_drops_every_item_witness :
  process_single_item Scenario.mistrained
    (Demo.itemdata_of Demo.complete_raw) Demo.w0
  = (Ret None, Demo.w0).
Proof.
  apply unreadable_training_data_drops_every_item.
  left. apply Exists_cons_hd. intros [s Hs]. discriminate Hs.
Defined.

(** X16: an item that [process_single_item] returned is always formatted by
    [format_storage_item]: no coercion fails, the clock is read once, the five
    numeric fields of the record are numbers, [Brand] is the brand extracted
    from the original item name, [Item Name] is the original item name, and
    [batchNumber] is the batch number given. *)
Theorem pipeline_items_always_format
  (E : env) (itemdata : itemdata) (w w' : world) (item : dict)
  (batch_num : Z) (w1 : world) :
  process_single_item E itemdata w = (Ret (Some item), w') ->
  exists record,
    format_storage_item E (PDict item) batch_num w1
    = (Ret record,
       World (S (tick w1)) (store w1)
         (trace w1 ++ [EvClock (utcnow_isoformat E (tick w1))]))
    /\ Forall (fun field =>
                 is_int_or_float (Py.get record field PNone) = true)
              numeric_fields
    /\ Py.lookup "Brand" record
       = Some (PStr (extract_brand (item_name itemdata)))
    /\ Py.lookup "Item Name" record = Some (item_name itemdata)
    /\ Py.lookup "batchNumber" record = Some (PInt batch_num).
Proof.
  intros H.
  destruct (process_single_item_inv E itemdata w _ w' H)
    as [[Hn _]|(p0 & item' & p1 & p2 & p3 & Hi & Hraw & Hitem & _)];
    [discriminate Hn|].
  injection Hi as <-.
  destruct (map_raw_item_inv E itemdata p0 Hraw)
    as (q & m & u & c & k & _ & _ & _ & _ & _ & Hp0).
  cbv zeta in Hp0.
  assert (Hshape : forall key,
             In key ["quantityInCase"; "measurementOfEachItem";
                     "totalUnitsOrdered"; "casePrice"; "costOfUnit";
                     "itemName"] ->
             Py.lookup key item = Py.lookup key p0).
  { intros key Hk. destruct Hitem as [->|[n ->]]; [reflexivity|].
    apply lookup_set_other. simpl in Hk.
    repeat destruct Hk as [<-|Hk]; try discriminate. destruct Hk. }
  assert (Hget : forall key default,
             In key ["quantityInCase"; "measurementOfEachItem";
                     "totalUnitsOrdered"; "casePrice"; "costOfUnit";
                     "itemName"] ->
             Py.get item key default = Py.get p0 key default).
  { intros key default Hk. unfold Py.get. rewrite (Hshape key Hk).
    reflexivity. }
  assert (Hq : Py.get item "quantityInCase" (PInt 0) = PFloat q)
    by (rewrite Hget, Hp0 by (simpl; tauto); reflexivity).
  assert (Hm : Py.get item "measurementOfEachItem" (PInt 0) = PFloat m)
    by (rewrite Hget, Hp0 by (simpl; tauto); reflexivity).
  assert (Hu : Py.get item "totalUnitsOrdered" (PInt 0) = PFloat u)
    by (rewrite Hget, Hp0 by (simpl; tauto); reflexivity).
  assert (Hc : Py.get item "casePrice" (PInt 0) = PFloat c)
    by (rewrite Hget, Hp0 by (simpl; tauto); reflexivity).
  assert (Hk : Py.get item "costOfUnit" (PInt 0) = PFloat k)
    by (rewrite Hget, Hp0 by (simpl; tauto); reflexivity).
  assert (Hname : Py.get item "itemName" (PStr "") = item_name itemdata)
    by (rewrite Hget, Hp0 by (simpl; tauto); reflexivity).
  unfold format_storage_item. run_monad.
  rewrite Hq, Hm, Hu, Hc, Hk, Hname. cbn [py_float].
  eexists. split; [reflexivity|].
  split; [repeat constructor|]. repeat split.
Qed.

(** The item of the reliable run. *)
Lemma pipeline_items_always_format_witness :
  exists record,
    format_storage_item Demo.reliable (PDict Demo.item_reliable) 1
      (World 2 [] [])
    = (Ret record,
       World 3 [] [EvClock (utcnow_isoformat Demo.reliable 2)])
    /\ Py.lookup "Brand" record = Some (PStr "CHKN")
    /\ Py.lookup "batchNumber" record = Some (PInt 1).
Proof.
  assert (H : Demo.run_reliable
              = (Ret (Some Demo.item_reliable), Demo.world_reliable))
    by (vm_compute; reflexivity).
  destruct (pipeline_items_always_format Demo.reliable
              (Demo.itemdata_of Demo.complete_raw) Demo.w0
              Demo.world_reliable Demo.item_reliable 1 (World 2 [] []) H)
    as (record & Hrun & _ & Hbrand & _ & Hbatch).
  exists record. split; [exact Hrun|]. split; [exact Hbrand|exact Hbatch].
Defined.

(** X17: whatever [store_items_activity] does, a document that was stored
    before is still stored, or a document with the same [id] and [userId] is;
    the number of stored documents grows by at most one; and a run that
    raises leaves the stored documents exactly as they were. *)
Theorem storage_never_loses_a_document
  (E : env) (sd : storedata) (w w' : world) (o : outcome store_result) :
  store_items_activity E sd w = (o, w') ->
  (forall d, In d (store w) ->
             In d (store w') \/ exists doc, In doc (store w') /\ same_key d doc)
  /\ (List.length (store w) <= List.length (store w')
      <= S (List.length (store w)))%nat
  /\ (forall e, o = Raise e -> store w' = store w).
Proof.
  intros H. destruct o as [r|e].
  - destruct (store_items_activity_inv E sd w r w' H)
      as (doc0 & new & errs & w3 & _ & _ & _ & Hw & _).
    cbv zeta in Hw. subst w'. cbn [store].
    split; [|split; [apply upsert_doc_length|discriminate]].
    intros d Hd.
    match goal with |- In d (upsert_doc ?b _) \/ _ =>
      destruct (upsert_doc_keeps b _ d Hd) as [Hin|Hk];
        [left; exact Hin|right; exists b]
    end.
    split; [apply In_upsert_doc|exact Hk].
  - rewrite (store_items_activity_raise_store E sd w e w' H).
    split; [auto|]. split; [lia|auto].
Qed.

(** The batch of the examples, stored beside another user's document. *)
Lemma storage_never_loses_a_document_witness :
  Scenario.run_beside = (Scenario.result_beside, Scenario.world_beside)
  /\ (1 <= List.length (store Scenario.world_beside) <= 2)%nat
  /\ (In Scenario.other_doc (store Scenario.world_beside)
      \/ exists doc, In doc (store Scenario.world_beside)
                     /\ same_key Scenario.other_doc doc).
Proof.
  assert (H : Scenario.run_beside
              = (Scenario.result_beside, Scenario.world_beside))
    by (vm_compute; reflexivity).
  split; [exact H|].
  destruct (storage_never_loses_a_document Demo.reliable Demo.two_items
              Scenario.w_other Scenario.world_beside Scenario.result_beside H)
    as (Hkept & Hlength & _).
  split; [exact Hlength|]. apply Hkept. left. reflexivity.
Defined.

(** X18: [validate_storage_item] accepts a record exactly when each of the
    four required fields is truthy and each of the five numeric fields is a
    number that is [>= 0] or is NaN. *)
Theorem validate_storage_item_characterised (item : dict) :
  validate_storage_item item = true
  <-> Forall (fun field => Py.truthy (Py.get item field PNone) = true)
             required_fields
      /\ Forall (fun field =>
                   ge_zero (Py.get item field PNone) = true
                   \/ is_nan (Py.get item field PNone) = true)
                numeric_fields.
Proof.
  unfold validate_storage_item.
  rewrite check_required_forallb, check_numeric_forallb.
  rewrite !Forall_forall. split.
  - destruct (forallb _ required_fields) eqn:Hr; [|discriminate].
    intros Hn. rewrite forallb_forall in Hr, Hn.
    split; [exact Hr|]. intros f Hf. specialize (Hn f Hf).
    apply andb_true_iff in Hn. destruct Hn as [H1 H2].
    apply negb_true_iff in H2. apply passes_ge_zero_or_nan; assumption.
  - intros [Hr Hn].
    rewrite <- forallb_forall in Hr. rewrite Hr.
    apply forallb_forall. intros f Hf.
    destruct (Hn f Hf) as [Hg|Hnan].
    + destruct (ge_zero_passes _ Hg) as [-> ->]. reflexivity.
    + destruct (Py.get item f PNone) as [| | |[]| | |]; try discriminate Hnan.
      reflexivity.
Qed.

(** The record of the examples with a NaN price. *)
Lemma validate_storage_item_characterised_witness :
  Forall (fun field =>
            ge_zero (Py.get (Demo.with_case_price (PFloat float_nan)) field
                       PNone) = true
            \/ is_nan (Py.get (Demo.with_case_price (PFloat float_nan)) field
                         PNone) = true)
         numeric_fields.
Proof.
  exact (proj2 (proj1 (validate_storage_item_characterised
                         (Demo.with_case_price (PFloat float_nan)))
                  eq_refl)).
Defined.

(** X19: whatever value [extract_brand] is given, the brand it returns has
    no blank at either end and contains no [/]. *)
Theorem brand_is_trimmed_and_has_no_slash (item_name : pyval) :
  strip (extract_brand item_name) = extract_brand item_name
  /\ contains "/" (extract_brand item_name) = false.
Proof.
  destruct item_name as [| | | |name| |];
    try (split; reflexivity).
  rewrite extract_brand_cases. unfold brand_by_priority.
  split.
  - destruct (contains "/" name); [apply strip_idem|].
    destruct (contains "'" name); [apply strip_idem|].
    destruct (capitalized (first_word name));
      [apply strip_first_word|reflexivity].
  - destruct (contains "/" name) eqn:Hs;
      [apply contains_strip, contains_before_first|].
    destruct (contains "'" name);
      [apply contains_strip, contains_before_first_other, Hs|].
    destruct (capitalized (first_word name)); [|reflexivity].
    apply contains_word_end, contains_lstrip, Hs.
Qed.

(** X20: a name that [extract_final_name] returns has no blank at either
    end and contains no line break. *)
Theorem extracted_name_is_one_trimmed_line (evaluation_result name : string) :
  extract_final_name evaluation_result = Some name ->
  strip name = name /\ no_newline name.
Proof.
  unfold extract_final_name.
  destruct (scan_lines _) as [[n|]|] eqn:Hs; try discriminate.
  intros H. injection H as <-.
  destruct (scan_lines_found _ _ Hs) as (line & b & a & Hin & _ & Hl & ->).
  split; [apply strip_idem|].
  pose proof (split_on_lines newline evaluation_result) as Hall.
  rewrite Forall_forall in Hall. specialize (Hall line Hin).
  rewrite Hl in Hall. apply contains_app_r in Hall.
  apply contains_strip. exact Hall.
Qed.

(** A reply whose second line carries the label. *)
Lemma extracted_name_is_one_trimmed_line_witness :
  strip "Beef: Ground" = "Beef: Ground" /\ no_newline "Beef: Ground".
Proof.
  exact (extracted_name_is_one_trimmed_line
           (join nl ["Looks close."; "FINAL Corrected Name:  Beef: Ground ";
                     "Explanation: core item first"])
           "Beef: Ground" eq_refl).
Defined.

(** X21: [process_inventory_item] returns [None] without a request, and
    with the world as it was, for an item whose [Item Name] is blank, absent,
    or no string. *)
Theorem inventory_item_without_a_name_costs_nothing
  (json_loads : string -> loaded) (json_dumps : dict -> string)
  (E : env)
  (item : dict) (training_data : list pyval) (w : world) :
  (forall name, Py.get item "Item Name" (PStr "") = PStr name ->
                strip name = "") ->
  process_inventory_item json_loads json_dumps E item training_data w
  = (Ret None, w).
Proof. apply process_inventory_item_blank. Qed.

(** An item whose name is three blanks. *)
Lemma inventory_item_without_a_name_costs_nothing_witness :
  process_inventory_item Scenario.json_loads Scenario.json_dumps
    Scenario.extractor Scenario.blank_item Demo.training Demo.w0
  = (Ret None, Demo.w0).
Proof.
  apply inventory_item_without_a_name_costs_nothing.
  intros name Hname. vm_compute in Hname. injection Hname as <-.
  reflexivity.
Defined.

(** X22: a dict that [process_inventory_item] returns carries the item's
    name, a string that is not blank, under [original_name], and under
    [standardized_name] the very value [standardize_item_name] returned for
    that name and the item's category: the trimmed reply of the model to the
    standardization request, or the name itself when that request failed.
    Exactly two requests were made, the standardization and then the
    extraction, whose prompt quotes that standardized name; the reply to the
    extraction parsed as an object, and every other key of the result is as
    in that object. The stored documents were left alone. *)
Theorem inventory_item_result_carries_both_names
  (json_loads : string -> loaded) (json_dumps : dict -> string)
  (E : env)
  (item : dict) (training_data : list pyval) (w w' : world) (d : dict) :
  process_inventory_item json_loads json_dumps E item training_data w
  = (Ret (Some d), w') ->
  exists name standardized prompt1 prompt2,
    Py.get item "Item Name" (PStr "") = PStr name
    /\ strip name <> ""
    /\ (standardized = PStr name
        \/ exists content, standardized = PStr (strip content))
    /\ Py.lookup "original_name" d = Some (PStr name)
    /\ Py.lookup "standardized_name" d = Some standardized
    /\ w' = after_request (after_request w standardize_system prompt1)
              extraction_system prompt2
    /\ standardize_item_name E (PStr name) training_data
         (process_inventory_item_category E item) w
       = (Ret standardized, after_request w standardize_system prompt1)
    /\ standardized
       = match chat_create E (tick w) standardize_system prompt1 with
         | inl reply => PStr (strip reply)
         | inr _ => PStr name
         end
    /\ prompt2 = extraction_prompt json_dumps E standardized item
    /\ exists content parsed,
         chat_create E (S (tick w)) extraction_system prompt2 = inl content
         /\ json_loads content = Loaded (PDict parsed)
         /\ forall key,
              key <> "standardized_name" -> key <> "original_name" ->
              Py.lookup key d = Py.lookup key parsed.
Proof. apply process_inventory_item_some. Qed.

(** The complete item of the examples, with a model that pads its
    standardization with blanks and answers the extraction in JSON. *)
Lemma inventory_item_result_carries_both_names_witness :
  Scenario.run_inventory_item
  = (Ret (Some Scenario.inventory_item), Scenario.world_inventory_item)
  /\ Py.lookup "original_name" Scenario.inventory_item
     = Some (PStr "CHKN BRST DICED 10LB CS")
  /\ Py.lookup "standardized_name" Scenario.inventory_item
     = Some (PStr "Chicken, Diced")
  /\ Py.lookup "Brand" Scenario.inventory_item = Some (PStr "Generic")
  /\ exists prompt1,
       Scenario.world_inventory_item
       = after_request (after_request Demo.w0 standardize_system prompt1)
           extraction_system
           (extraction_prompt Scenario.json_dumps Scenario.extractor
              (PStr "Chicken, Diced") Demo.complete_raw).
Proof.
  assert (H : Scenario.run_inventory_item
              = (Ret (Some Scenario.inventory_item),
                 Scenario.world_inventory_item))
    by (vm_compute; reflexivity).
  split; [exact H|].
  destruct (inventory_item_result_carries_both_names Scenario.json_loads
              Scenario.json_dumps Scenario.extractor Demo.complete_raw
              Demo.training Demo.w0 Scenario.world_inventory_item
              Scenario.inventory_item H)
    as (name & standardized & prompt1 & prompt2 & Hname & _ & _ & Horiginal
        & Hstandardized & Hworld & _ & Hreply & Hprompt
        & content & parsed & Hchat & Hparsed & Hkeys).
  vm_compute in Hname. injection Hname as <-.
  assert (Hs : standardized = PStr "Chicken, Diced") by exact Hreply.
  subst standardized.
  injection Hchat as <-.
  assert (Hp : parsed = [("Brand", PStr "Generic");
                         ("Category", PStr "meat")])
    by (vm_compute in Hparsed; injection Hparsed as <-; reflexivity).
  split; [exact Horiginal|]. split; [exact Hstandardized|].
  split.
  - rewrite (Hkeys "Brand" ltac:(discriminate) ltac:(discriminate)), Hp.
    reflexivity.
  - exists prompt1. rewrite Hworld, Hprompt. reflexivity.
Defined.

(** X23: the loop of [process_inventory_file] over the records of a file
    always returns; it returns no more dicts than the file has records, and
    each dict it returns carries under [original_name] the name, not blank,
    of a record of the file. *)
Theorem inventory_file_keeps_only_named_items
  (json_loads : string -> loaded) (json_dumps : dict -> string)
  (E : env)
  (data : list dict) (training_data : list pyval) (w : world) :
  exists out w',
    process_records json_loads json_dumps E data training_data w
    = (Ret out, w')
    /\ (List.length out <= List.length data)%nat
    /\ Forall (fun d =>
                 exists item name,
                   In item data
                   /\ Py.get item "Item Name" (PStr "") = PStr name
                   /\ strip name <> ""
                   /\ Py.lookup "original_name" d = Some (PStr name)) out.
Proof.
  revert w. induction data as [|item rest IH]; intros w.
  - exists [], w. repeat split; [simpl; lia|constructor].
  - cbn [process_records]. unfold bind at 1.
    destruct (process_inventory_item_returns json_loads json_dumps E item
                training_data w)
      as (r & w1 & Hr).
    rewrite Hr. unfold bind at 1.
    destruct (IH w1) as (more & w2 & Hm & Hlen & Hall). rewrite Hm.
    assert (Hall' : Forall (fun d =>
                 exists item0 name,
                   In item0 (item :: rest)
                   /\ Py.get item0 "Item Name" (PStr "") = PStr name
                   /\ strip name <> ""
                   /\ Py.lookup "original_name" d = Some (PStr name)) more).
    { eapply Forall_impl; [|exact Hall].
      intros d (i & n & Hi & Hrest). exists i, n. split; [right; exact Hi|].
      exact Hrest. }
    destruct r as [d|].
    + destruct (Py.truthy (PDict d)).
      * exists (d :: more), w2. split; [reflexivity|].
        split; [simpl; lia|]. constructor; [|exact Hall'].
        destruct (process_inventory_item_some json_loads json_dumps E item
                    training_data w _ w1 Hr)
          as (name & sn & p1 & p2 & Hn & Hb & _ & Ho & _).
        exists item, name. split; [left; reflexivity|]. auto.
      * exists more, w2. split; [reflexivity|].
        split; [simpl; lia|exact Hall'].
    + exists more, w2. split; [reflexivity|]. split; [simpl; lia|exact Hall'].
Qed.
